(** * Contract Net auction: Supervisor and Machine agents

    A shallow embedding of [ContractNet/supervisor.py] and
    [ContractNet/machine.py].  Every callback of the two agents is a function
    in a small state / output / exception monad; the values that travel on
    the bus are decoded JSON documents, as [json.loads] hands them to the
    callbacks.  The supervisor's auction is given twice: with callbacks that
    run to their end between two statements of the main thread, and step by
    step, with the network thread taking its turns beside the main thread. *)

From Stdlib Require Import QArith Ascii.
From stdpp Require Import base gmap strings list pretty.

Set Warnings "-register-all".

(** ** JSON documents

    [json.loads] yields [None], [bool], [int], [float], [str], [list] and
    [dict].  A number is an [int] or a [float]; a finite float is kept by
    its exact value, a rational.  The decoder also accepts the tokens
    [Infinity], [-Infinity] and [NaN] (and turns a literal beyond the range
    of a float into an infinity), and [float("nan")] or [float("inf")] can
    enter a capability table from the command line.  A [dict] is an
    association list read by first match. *)

Inductive number :=
| Int (z : Z)
| Float (q : Q)
| Inf (negative : bool)    (* [float("inf")], [float("-inf")] *)
| NaN.

Bind Scope Q_scope with number.
Coercion Float : Q >-> number.

Inductive json :=
| JNull
| JBool (b : bool)
| JNum (n : number)
| JStr (s : string)
| JArr (items : list json)
| JObj (fields : list (string * json)).

(** The raw [msg.payload] of an inbound message, classified by what
    [json.loads(msg.payload.decode())] does with it. *)
Inductive payload :=
| Undecodable            (* bytes that are not UTF-8 *)
| Unparseable            (* text that is not a JSON document *)
| Oversized              (* an integer literal of more than 4300 digits *)
| Overnested             (* brackets nested beyond the recursion limit *)
| Document (v : json).   (* the text of the JSON value [v] *)

(** Topics are kept structured: [BidTopic s] stands for [f"jobs/bid/{s}"],
    and so on, with the value that the f-string interpolates. *)
Inductive topic :=
| CfpTopic
| BidTopic (supervisor : json)
| AwardTopic (machine : json)
| RejectTopic (machine : json)
| CompleteTopic (supervisor : json).

(** The name under which the broker routes a topic: the text of the
    f-string, [str] being Python's [str] on the interpolated value.  Two
    topics of one kind have the same name as soon as [str] gives the same
    text for their values, as it does for the number [1] and the text
    ["1"]. *)
Definition topic_name (str : json -> string) (t : topic) : string :=
  match t with
  | CfpTopic => "jobs/cfp"
  | BidTopic supervisor => "jobs/bid/" ++ str supervisor
  | AwardTopic machine => "jobs/award/" ++ str machine
  | RejectTopic machine => "jobs/reject/" ++ str machine
  | CompleteTopic supervisor => "jobs/complete/" ++ str supervisor
  end%string.

(** One call of [client.publish(topic, json.dumps(body))]. *)
Record message := Message { topic_of : topic; body : json }.

(** ** The Python operations the agents rely on *)

Module Py.

Inductive exn :=
| UnicodeDecodeError
| JSONDecodeError
| KeyError (key : string)
| AttributeError
| TypeError
| ValueError
| RecursionError.

Inductive outcome (A : Type) :=
| Ret (a : A)
| Raise (e : exn).
Arguments Ret {A} a.
Arguments Raise {A} e.

(** [json.loads(msg.payload.decode())].  [JSONDecodeError] is a subclass
    of [ValueError]; the [ValueError] of the integer conversion limit is
    not a [JSONDecodeError]. *)
Definition loads (p : payload) : outcome json :=
  match p with
  | Undecodable => Raise UnicodeDecodeError
  | Unparseable => Raise JSONDecodeError
  | Oversized => Raise ValueError
  | Overnested => Raise RecursionError
  | Document v => Ret v
  end.

Fixpoint assoc (k : string) (fields : list (string * json)) : option json :=
  match fields with
  | [] => None
  | (k', v) :: rest => if String.eqb k k' then Some v else assoc k rest
  end.

(** [data.get(k, dflt)]: only a [dict] has the attribute [get]. *)
Definition get_or (data : json) (k : string) (dflt : json) : outcome json :=
  match data with
  | JObj fields => Ret (default dflt (assoc k fields))
  | _ => Raise AttributeError
  end.

(** [data.get(k)]; Python's [None] is [JNull]. *)
Definition get (data : json) (k : string) : outcome json :=
  get_or data k JNull.

(** [data[k]] *)
Definition item (data : json) (k : string) : outcome json :=
  match data with
  | JObj fields =>
      match assoc k fields with
      | Some v => Ret v
      | None => Raise (KeyError k)
      end
  | _ => Raise TypeError
  end.

(** [v == s] for a [str] object [s]. *)
Definition is_str (v : json) (s : string) : bool :=
  match v with
  | JStr t => String.eqb t s
  | _ => false
  end.

(** [bool] is a subclass of [int]: [True] is 1 and [False] is 0. *)
Definition as_number (v : json) : option number :=
  match v with
  | JNum n => Some n
  | JBool true => Some (Int 1)
  | JBool false => Some (Int 0)
  | _ => None
  end.

Definition Qlt_bool (x y : Q) : bool := negb (Qle_bool y x).

(** Where a number stands on the extended line; [NaN] stands nowhere.
    Python compares an [int] and a [float] by their exact values. *)
Inductive position :=
| Lowest
| Finite (q : Q)
| Highest.

Definition position_of (n : number) : option position :=
  match n with
  | Int z => Some (Finite (inject_Z z))
  | Float q => Some (Finite q)
  | Inf true => Some Lowest
  | Inf false => Some Highest
  | NaN => None
  end.

(** [x == y] and [x < y] on numbers: every comparison with [NaN] is
    false. *)
Definition eq_number (x y : number) : bool :=
  match position_of x, position_of y with
  | Some Lowest, Some Lowest => true
  | Some Highest, Some Highest => true
  | Some (Finite p), Some (Finite q) => Qeq_bool p q
  | _, _ => false
  end.

Definition lt_number (x y : number) : bool :=
  match position_of x, position_of y with
  | Some Lowest, Some (Finite _) => true
  | Some Lowest, Some Highest => true
  | Some (Finite _), Some Highest => true
  | Some (Finite p), Some (Finite q) => Qlt_bool p q
  | _, _ => false
  end.

(** The one object that [json.loads] returns for every [NaN] token. *)
Definition is_nan (v : json) : bool :=
  match v with
  | JNum NaN => true
  | _ => false
  end.

(** [a == b] on decoded values.  The items of two lists and the values of
    two dicts are compared as Python's containers do it: two items are
    equal when they are the same object or [==] says so, which makes the
    [NaN] of the decoder equal to itself inside a container although
    [NaN == NaN] is false. *)
Fixpoint eq (a b : json) {struct a} : bool :=
  match a, b with
  | JNull, JNull => true
  | JStr s, JStr t => String.eqb s t
  | JArr l, JArr m =>
      (fix all2 (l m : list json) {struct l} : bool :=
         match l, m with
         | [], [] => true
         | x :: l', y :: m' => (is_nan x && is_nan y || eq x y) && all2 l' m'
         | _, _ => false
         end) l m
  | JObj d, JObj e =>
      Nat.eqb (length d) (length e) &&
      (fix sub (d : list (string * json)) {struct d} : bool :=
         match d with
         | [] => true
         | (k, v) :: d' =>
             match assoc k e with
             | Some w => (is_nan v && is_nan w || eq v w) && sub d'
             | None => false
             end
         end) d
  | _, _ =>
      match as_number a, as_number b with
      | Some x, Some y => eq_number x y
      | _, _ => false
      end
  end.

(** [a < b] on decoded values: numbers by value, strings and lists
    lexicographically, anything else is a [TypeError]. *)
Fixpoint lt (a b : json) {struct a} : outcome bool :=
  match a, b with
  | JStr s, JStr t => Ret (String.ltb s t)
  | JArr l, JArr m =>
      (fix lex (l m : list json) {struct l} : outcome bool :=
         match l, m with
         | [], [] => Ret false
         | [], _ :: _ => Ret true
         | _ :: _, [] => Ret false
         | x :: l', y :: m' =>
             if is_nan x && is_nan y || eq x y then lex l' m' else lt x y
         end) l m
  | _, _ =>
      match as_number a, as_number b with
      | Some x, Some y => Ret (lt_number x y)
      | _, _ => Raise TypeError
      end
  end.

Section Min.
Context {A : Type} (key : A -> json).

(** The loop of the builtin [min(xs, key=key)]: a later element replaces
    the running best only when its key is strictly smaller. *)
Fixpoint min_from (best : A) (rest : list A) : outcome A :=
  match rest with
  | [] => Ret best
  | x :: rest' =>
      match lt (key x) (key best) with
      | Ret true => min_from x rest'
      | Ret false => min_from best rest'
      | Raise e => Raise e
      end
  end.

Definition min (xs : list A) : outcome A :=
  match xs with
  | [] => Raise ValueError
  | x :: rest => min_from x rest
  end.

End Min.

(** *** The monad of a callback

    A callback runs on the agent's state [S], may publish messages and may
    end in an exception; assignments made before the exception stay. *)

Record run (S A : Type) := Run {
  result : outcome A;
  state_after : S;
  published : list message
}.
Arguments Run {S A}.
Arguments result {S A}.
Arguments state_after {S A}.
Arguments published {S A}.

Definition M (S A : Type) : Type := S -> run S A.

Definition ret {S A} (a : A) : M S A := fun s => Run (Ret a) s [].

Definition raise {S A} (e : exn) : M S A := fun s => Run (Raise e) s [].

Definition bind {S A B} (m : M S A) (k : A -> M S B) : M S B :=
  fun s =>
    let r := m s in
    match result r with
    | Ret a =>
        let r' := k a (state_after r) in
        Run (result r') (state_after r') (published r ++ published r')
    | Raise e => Run (Raise e) (state_after r) (published r)
    end.

Definition lift {S A} (o : outcome A) : M S A :=
  fun s => Run o s [].

Definition read {S} : M S S := fun s => Run (Ret s) s [].

Definition modify {S} (f : S -> S) : M S unit := fun s => Run (Ret tt) (f s) [].

Definition publish {S} (t : topic) (b : json) : M S unit :=
  fun s => Run (Ret tt) s [Message t b].

(** [try: body except <caught>: handler] *)
Definition try_except {S A} (body : M S A) (caught : exn -> bool)
    (handler : M S A) : M S A :=
  fun s =>
    let r := body s in
    match result r with
    | Ret a => r
    | Raise e =>
        if caught e then
          let r' := handler (state_after r) in
          Run (result r') (state_after r') (published r ++ published r')
        else r
    end.

(** [for x in xs: body(x)] *)
Fixpoint for_each {S A} (xs : list A) (body : A -> M S unit) : M S unit :=
  match xs with
  | [] => ret tt
  | x :: rest => bind (body x) (fun _ => for_each rest body)
  end.

End Py.

Declare Scope py_scope.
Delimit Scope py_scope with py.
Notation "x <- m ;; k" := (Py.bind m (fun x => k))
  (at level 100, m at next level, right associativity) : py_scope.
Notation "m ;; k" := (Py.bind m (fun _ => k))
  (at level 100, right associativity) : py_scope.

Module Py_threads.
Import Py.

(** The callbacks that the network thread (paho's [loop_start]) runs while
    the main thread is at one point of its program, in the schedules in
    which every callback runs to its end before the next one starts and
    before the main thread moves on.  An exception in a callback belongs
    to the network thread and never reaches the main thread, which goes on
    from the state the callback left.  The schedules in which the main
    thread runs between two statements of a callback are those of
    [Supervisor.network_step] further down. *)
Fixpoint background {S} (callbacks : list (M S unit)) : M S unit :=
  match callbacks with
  | [] => ret tt
  | cb :: rest =>
      fun s =>
        let r := cb s in
        let r' := background rest (state_after r) in
        Run (Ret tt) (state_after r') (published r ++ published r')
  end.

End Py_threads.

Local Open Scope py_scope.
Local Open Scope string_scope.
Local Open Scope list_scope.

(** ** supervisor.py *)

Module Job.
Record t := Make {
  job_id : string;
  job_type : string;
  description : string;
  timestamp : Q
}.
End Job.

(** The dataclass [Bid] annotates [str] and [float] fields, but
    [_on_message] stores whatever the message carried. *)
Module Bid.
Record t := Make {
  machine_id : json;
  job_id : json;
  proposed_time : json;
  timestamp : json
}.
End Bid.

Module Supervisor.
Import Py.

Record state := State {
  supervisor_id : string;
  job_interval : Q;
  deadline : Q;
  current_job : option Job.t;
  bids : list Bid.t;
  collecting_bids : bool;
  jobs_created : nat;
  jobs_allocated : nat;
  jobs_failed : nat
}.

Definition __init__ (supervisor_id : string) (job_interval deadline : Q) : state :=
  {| supervisor_id := supervisor_id;
     job_interval := job_interval;
     deadline := deadline;
     current_job := None;
     bids := [];
     collecting_bids := false;
     jobs_created := 0;
     jobs_allocated := 0;
     jobs_failed := 0 |}.

Definition set_current_job (j : option Job.t) (s : state) : state :=
  State (supervisor_id s) (job_interval s) (deadline s) j (bids s)
        (collecting_bids s) (jobs_created s) (jobs_allocated s) (jobs_failed s).

Definition set_bids (l : list Bid.t) (s : state) : state :=
  State (supervisor_id s) (job_interval s) (deadline s) (current_job s) l
        (collecting_bids s) (jobs_created s) (jobs_allocated s) (jobs_failed s).

Definition set_collecting_bids (b : bool) (s : state) : state :=
  State (supervisor_id s) (job_interval s) (deadline s) (current_job s) (bids s)
        b (jobs_created s) (jobs_allocated s) (jobs_failed s).

Definition set_jobs_allocated (n : nat) (s : state) : state :=
  State (supervisor_id s) (job_interval s) (deadline s) (current_job s) (bids s)
        (collecting_bids s) (jobs_created s) n (jobs_failed s).

Definition set_jobs_failed (n : nat) (s : state) : state :=
  State (supervisor_id s) (job_interval s) (deadline s) (current_job s) (bids s)
        (collecting_bids s) (jobs_created s) (jobs_allocated s) n.

(** [self.current_job.job_id]: [None] has no attribute [job_id]. *)
Definition current_job_id : M state string :=
  self <- read ;;
  match current_job self with
  | Some job => ret (Job.job_id job)
  | None => raise AttributeError
  end.

(** [_on_message]; [now] is the reading of [time.time()]. *)
Definition _on_message (now : Q) (msg : payload) : M state unit :=
  self <- read ;;
  if negb (collecting_bids self) then ret tt
  else
    try_except
      (data <- lift (loads msg) ;;
       job_id <- lift (get data "job_id") ;;
       current <- current_job_id ;;
       if negb (is_str job_id current) then ret tt
       else
         msg_type <- lift (get data "type") ;;
         if is_str msg_type "rejection" then ret tt
         else
           machine_id <- lift (item data "machine_id") ;;
           job_id <- lift (item data "job_id") ;;
           proposed_time <- lift (item data "proposed_time") ;;
           timestamp <- lift (get_or data "timestamp" (JNum now)) ;;
           let bid := Bid.Make machine_id job_id proposed_time timestamp in
           modify (fun self => set_bids (bids self ++ [bid]) self))
      (fun e => match e with JSONDecodeError | KeyError _ => true | _ => false end)
      (ret tt).

Definition _send_cfp (now : Q) (job : Job.t) : M state unit :=
  self <- read ;;
  let cfp := JObj [
    ("type", JStr "cfp");
    ("supervisor_id", JStr (supervisor_id self));
    ("job_id", JStr (Job.job_id job));
    ("job_type", JStr (Job.job_type job));
    ("description", JStr (Job.description job));
    ("deadline", JNum (deadline self));
    ("timestamp", JNum now)] in
  publish CfpTopic cfp.

Definition _select_winner : M state (option Bid.t) :=
  self <- read ;;
  match bids self with
  | [] => ret None
  | _ => winner <- lift (min Bid.proposed_time (bids self)) ;; ret (Some winner)
  end.

(** The rejection that [_send_award] sends to a losing bidder; [now] is
    the reading of [time.time()] in that turn of the loop. *)
Definition reject_message (now : Q) (job : Job.t) (self : state) (bid : Bid.t) : message :=
  Message (RejectTopic (Bid.machine_id bid)) (JObj [
    ("type", JStr "reject");
    ("supervisor_id", JStr (supervisor_id self));
    ("job_id", JStr (Job.job_id job));
    ("reason", JStr "Another machine was selected");
    ("timestamp", JNum now)]).

(** [_send_award] up to the [print]: the award goes out. *)
Definition announce_winner (now : Q) (winner : Bid.t) (job : Job.t) : M state unit :=
  self <- read ;;
  let award := JObj [
    ("type", JStr "award");
    ("supervisor_id", JStr (supervisor_id self));
    ("job_id", JStr (Job.job_id job));
    ("job_type", JStr (Job.job_type job));
    ("machine_id", Bid.machine_id winner);
    ("timestamp", JNum now)] in
  publish (AwardTopic (Bid.machine_id winner)) award.

(** [_send_award] from [with self.bid_lock] on: the loop over the bid list
    as it is when the lock is taken.  Every turn reads the clock anew:
    [times i] is the reading in the turn of the bid at index [i]. *)
Definition reject_others (times : nat -> Q) (winner : Bid.t) (job : Job.t)
  : M state unit :=
  self <- read ;;
  for_each (imap pair (bids self)) (fun turn =>
    let bid := snd turn in
    if negb (eq (Bid.machine_id bid) (Bid.machine_id winner)) then
      let reject := reject_message (times (fst turn)) job self bid in
      publish (topic_of reject) (body reject)
    else ret tt).

(** The messages of that loop over the bid list [l]: one rejection for
    every bid whose machine id is not the winner's, in the order of the
    list. *)
Definition rejections (times : nat -> Q) (winner : Bid.t) (job : Job.t) (self : state)
    (l : list Bid.t) : list message :=
  map (fun turn => reject_message (times (fst turn)) job self (snd turn))
      (List.filter
         (fun turn => negb (eq (Bid.machine_id (snd turn)) (Bid.machine_id winner)))
         (imap pair l)).

(** [_send_award]; [clock 0] is the clock reading of the award and
    [clock (S i)] the one of the loop's turn for the bid at index [i]. *)
Definition _send_award (clock : nat -> Q) (winner : Bid.t) (job : Job.t)
  : M state unit :=
  announce_winner (clock 0%nat) winner job ;;
  reject_others (fun i => clock (S i)) winner job.

(** What the network thread does while the main thread is at a given point
    of [_run_auction]: the inbound messages, each with the clock reading of
    its callback. *)
Definition inbox := list (Q * payload).

Definition deliver (msgs : inbox) : M state unit :=
  Py_threads.background (map (fun m => _on_message (fst m) (snd m)) msgs).

(** The network thread's share of one auction when its callbacks run to
    their end: [in_time] is handled during [time.sleep(self.deadline)],
    [late] once [collecting_bids] is cleared and before the winner is
    chosen, [later] after the outcome and before [current_job] is cleared. *)
Record arrivals := Arrivals {
  in_time : inbox;
  late : inbox;
  later : inbox
}.

(** [_run_auction] in the schedules in which no callback is interrupted;
    [start] is the clock reading of the CfP and [finish] the readings of
    [_send_award].  The schedules in which the main thread runs between two
    statements of a callback are those of [_run_auction_interleaved]. *)
Definition _run_auction (start : Q) (finish : nat -> Q) (job : Job.t) (net : arrivals)
  : M state unit :=
  modify (set_current_job (Some job)) ;;
  modify (set_bids []) ;;
  modify (set_collecting_bids true) ;;
  _send_cfp start job ;;
  deliver (in_time net) ;;                 (* time.sleep(self.deadline) *)
  modify (set_collecting_bids false) ;;
  deliver (late net) ;;                    (* network thread, flag cleared *)
  winner <- _select_winner ;;
  match winner with
  | Some w =>
      _send_award finish w job ;;
      modify (fun self => set_jobs_allocated (jobs_allocated self + 1) self)
  | None =>
      modify (fun self => set_jobs_failed (jobs_failed self + 1) self)
  end ;;
  deliver (later net) ;;                   (* network thread, outcome known *)
  modify (set_current_job None).

(** The state of the supervisor when the deadline elapses: the CfP is out
    and the callbacks of [in_time net] have run. *)
Definition at_deadline (start : Q) (job : Job.t) (net : arrivals)
  : M state unit :=
  modify (set_current_job (Some job)) ;;
  modify (set_bids []) ;;
  modify (set_collecting_bids true) ;;
  _send_cfp start job ;;
  deliver (in_time net).

(** The bid set of an auction: the bids collected when the deadline elapses. *)
Definition collected (start : Q) (job : Job.t) (net : arrivals) (s : state)
  : list Bid.t :=
  bids (state_after (at_deadline start job net s)).

(** [grown s s']: [s'] is [s] with further bids appended and nothing else changed. *)
Definition grown (s s' : state) : Prop :=
  exists more, s' = set_bids (bids s ++ more) s.

(** The proposed duration of a bid that carries a number, as the
    dataclass [Bid] declares it. *)
Definition duration (b : Bid.t) : option number :=
  match Bid.proposed_time b with
  | JNum n => Some n
  | _ => None
  end.

(** A bid whose proposed time is a number other than [NaN]. *)
Definition timed (b : Bid.t) : Prop :=
  exists d, duration b = Some d /\ d <> NaN.

Definition is_award (m : message) : bool :=
  match topic_of m with AwardTopic _ => true | _ => false end.

Definition is_reject (m : message) : bool :=
  match topic_of m with RejectTopic _ => true | _ => false end.

(** A bid message as [machine.py] sends it. *)
Definition bid_message (machine job : string) (proposed_time : number) (timestamp : Q)
  : payload :=
  Document (JObj [
    ("type", JStr "bid");
    ("machine_id", JStr machine);
    ("job_id", JStr job);
    ("proposed_time", JNum proposed_time);
    ("timestamp", JNum timestamp)]).

(** *** The job generator and the main loop *)

Definition set_jobs_created (n : nat) (s : state) : state :=
  State (supervisor_id s) (job_interval s) (deadline s) (current_job s) (bids s)
        (collecting_bids s) n (jobs_allocated s) (jobs_failed s).

Definition JOB_TYPES : list string := ["job_A"; "job_B"; "job_C"; "job_D"; "job_E"].

(** [_generate_job]; the randomness is an input: [draw] is the random number
    behind [random.choice(self.JOB_TYPES)], which selects the element at an
    index below the length, [hex] is [uuid.uuid4().hex], and [now] is the
    clock reading. *)
Definition _generate_job (draw : nat) (hex : string) (now : Q) : M state Job.t :=
  let job_type := JOB_TYPES !!! (draw mod length JOB_TYPES)%nat in
  let job_id := ("job_" ++ String.substring 0 8 hex)%string in
  let job :=
    Job.Make job_id job_type ("Execute " ++ job_type ++ " operation")%string now in
  modify (fun self => set_jobs_created (jobs_created self + 1) self) ;;
  ret job.

(** One turn of the [while self.running] loop of [run]: the inputs of
    [_generate_job] and [_run_auction], and the messages that the network
    thread handles during [time.sleep(self.job_interval)]. *)
Record cycle := Cycle {
  draw : nat;
  hex : string;
  created_at : Q;
  started_at : Q;
  finished_at : nat -> Q;
  net : arrivals;
  between : inbox
}.

Definition run_cycle (c : cycle) : M state unit :=
  job <- _generate_job (draw c) (hex c) (created_at c) ;;
  _run_auction (started_at c) (finished_at c) job (net c) ;;
  deliver (between c).                     (* time.sleep(self.job_interval) *)

(** The first turns of the loop of [run], one per element of [cycles]; an
    exception leaves the loop. *)
Definition run_loop (cycles : list cycle) : M state unit :=
  for_each cycles run_cycle.

Definition is_cfp (m : message) : bool :=
  match topic_of m with CfpTopic => true | _ => false end.

(** *** The two threads, step by step

    [_on_message] runs in the network thread while [_run_auction] runs in
    the main thread, and Python may switch threads between any two
    statements.  The callback touches the shared fields three times: it
    reads [collecting_bids] (line 94), it reads [current_job] while it
    makes the bid (line 101), and it appends to [bids] under the lock
    (line 117).  Each of the three is one step here, and the main thread
    may run between any two of them. *)

(** Line 94. *)
Definition test_flag : M state bool :=
  self <- read ;;
  ret (collecting_bids self).

(** Lines 97 to 114 and the [except] clause: the bid to append, if any. *)
Definition make_bid (now : Q) (msg : payload) : M state (option Bid.t) :=
  try_except
    (data <- lift (loads msg) ;;
     job_id <- lift (get data "job_id") ;;
     current <- current_job_id ;;
     if negb (is_str job_id current) then ret None
     else
       msg_type <- lift (get data "type") ;;
       if is_str msg_type "rejection" then ret None
       else
         machine_id <- lift (item data "machine_id") ;;
         job_id <- lift (item data "job_id") ;;
         proposed_time <- lift (item data "proposed_time") ;;
         timestamp <- lift (get_or data "timestamp" (JNum now)) ;;
         ret (Some (Bid.Make machine_id job_id proposed_time timestamp)))
    (fun e => match e with JSONDecodeError | KeyError _ => true | _ => false end)
    (ret None).

(** Lines 116 and 117. *)
Definition append_bid (bid : Bid.t) : M state unit :=
  modify (fun self => set_bids (bids self ++ [bid]) self).

(** Where the network thread stands. *)
Inductive phase :=
| Idle                               (* between two callbacks *)
| Tested (now : Q) (msg : payload)   (* past line 94: the flag was set *)
| Ready (bid : Bid.t).               (* the bid is made, the lock not yet taken *)

(** The network thread: the callback it is in, and the messages that
    have arrived and wait for their callback, oldest first. *)
Record network := Network {
  callback : phase;
  waiting : inbox
}.

Record world := World {
  agent : state;
  thread : network
}.

(** A statement of the main thread. *)
Definition main {A} (m : M state A) : M world A :=
  fun w =>
    let r := m (agent w) in
    Run (result r) (World (state_after r) (thread w)) (published r).

Definition set_thread (n : network) : M world unit :=
  modify (fun w => World (agent w) n).

(** One step of the network thread.  An exception ends the callback and
    stays in the network thread. *)
Definition network_step : M world unit :=
  w <- read ;;
  let n := thread w in
  match callback n with
  | Idle =>
      match waiting n with
      | [] => ret tt
      | (now, msg) :: rest =>
          collecting <- main test_flag ;;
          set_thread (Network (if collecting then Tested now msg else Idle) rest)
      end
  | Tested now msg =>
      bid <- try_except (main (make_bid now msg)) (fun _ => true) (ret None) ;;
      set_thread
        (Network (match bid with Some b => Ready b | None => Idle end) (waiting n))
  | Ready bid =>
      main (append_bid bid) ;;
      set_thread (Network Idle (waiting n))
  end.

Fixpoint network_steps (k : nat) : M world unit :=
  match k with
  | O => ret tt
  | S k' => network_step ;; network_steps k'
  end.

(** Messages reach the client and queue up for the network thread. *)
Definition arrive (msgs : inbox) : M world unit :=
  modify (fun w =>
    World (agent w) (Network (callback (thread w)) (waiting (thread w) ++ msgs))).

(** What happens around the main thread, point by point of its program:
    the messages that arrive while it is at a point, and the number of
    steps that the network thread takes there. *)
Record interleaving := Interleaving {
  arriving : nat -> inbox;
  turns : nat -> nat
}.

Definition pause (i : interleaving) (point : nat) : M world unit :=
  arrive (arriving i point) ;;
  network_steps (turns i point).

(** [_run_auction] with the network thread beside it, in two parts.  The
    first part runs up to the end of [time.sleep(self.deadline)]. *)
Definition open_auction (start : Q) (job : Job.t) (i : interleaving) : M world unit :=
  main (modify (set_current_job (Some job))) ;;
  pause i 0 ;;
  main (modify (set_bids [])) ;;
  pause i 1 ;;
  main (modify (set_collecting_bids true)) ;;
  pause i 2 ;;
  main (_send_cfp start job) ;;
  pause i 3.                                (* time.sleep(self.deadline) *)

(** The first point of the program that lies behind line 205, where
    [collecting_bids] is cleared. *)
Definition after_deadline : nat := 4.

(** The second part, from line 205 on.  The counters are no business of
    the callback, so no point is needed around them. *)
Definition close_auction (finish : nat -> Q) (job : Job.t) (i : interleaving)
  : M world unit :=
  main (modify (set_collecting_bids false)) ;;
  pause i 4 ;;
  winner <- main _select_winner ;;
  pause i 5 ;;
  match winner with
  | Some w =>
      main (announce_winner (finish 0%nat) w job) ;;
      pause i 6 ;;
      main (reject_others (fun turn => finish (S turn)) w job) ;;
      main (modify (fun self => set_jobs_allocated (jobs_allocated self + 1) self))
  | None =>
      main (modify (fun self => set_jobs_failed (jobs_failed self + 1) self))
  end ;;
  pause i 7 ;;
  main (modify (set_current_job None)).

Definition _run_auction_interleaved (start : Q) (finish : nat -> Q) (job : Job.t)
    (i : interleaving) : M world unit :=
  open_auction start job i ;;
  close_auction finish job i.

(** The interleaving [i] without the messages that arrive from the point
    [from] on. *)
Definition until (from : nat) (i : interleaving) : interleaving :=
  Interleaving (fun point => if (point <? from)%nat then arriving i point else [])
               (turns i).

(** The interleaving in which the callbacks of [net] run to their end at
    the three points where [_run_auction] has them, in the given numbers
    of steps. *)
Definition uninterrupted (net : arrivals) (k3 k4 k7 : nat) : interleaving :=
  Interleaving
    (fun point =>
       match point with
       | 3 => in_time net
       | 4 => late net
       | 7 => later net
       | _ => []
       end)
    (fun point =>
       match point with
       | 3 => k3
       | 4 => k4
       | 7 => k7
       | _ => 0
       end)%nat.

(** [behind w w']: the deadline has passed, and [w'] is [w] without the
    messages that arrived late and still wait for their callback. *)
Definition behind (w w' : world) : Prop :=
  agent w = agent w' /\
  collecting_bids (agent w) = false /\
  callback (thread w) = callback (thread w') /\
  exists late, waiting (thread w) = waiting (thread w') ++ late.

(** Two runs that differ by such messages only. *)
Definition alike {A} (r r' : run world A) : Prop :=
  result r = result r' /\
  published r = published r' /\
  behind (state_after r) (state_after r').

(** The bids that the network thread can still append once the flag is
    cleared: the one of the callback it is in, if it is in one. *)
Definition pending (n : network) : nat :=
  match callback n with
  | Idle => 0
  | _ => 1
  end.

End Supervisor.

(** ** machine.py *)

Module Machine.
Import Py.

(** The arguments of one [threading.Thread(target=self._execute_job, ...)]
    that has been started and is still inside [time.sleep(execution_time)]. *)
Record execution := Execution {
  job_id : json;
  job_type : json;
  execution_time : number;
  supervisor_id : json
}.

Record state := State {
  machine_id : string;
  capabilities : gmap string number;
  busy : bool;
  current_job : json;                 (* [Optional[str]]; [None] is [JNull] *)
  current_job_end : Q;
  jobs_bid : nat;
  jobs_won : nat;
  jobs_completed : nat;
  jobs_rejected : nat;
  executing : list execution          (* the threads that are asleep *)
}.

Definition __init__ (machine_id : string) (capabilities : gmap string number) : state :=
  {| machine_id := machine_id;
     capabilities := capabilities;
     busy := false;
     current_job := JNull;
     current_job_end := 0;
     jobs_bid := 0;
     jobs_won := 0;
     jobs_completed := 0;
     jobs_rejected := 0;
     executing := [] |}.

Definition set_busy (b : bool) (s : state) : state :=
  State (machine_id s) (capabilities s) b (current_job s) (current_job_end s)
        (jobs_bid s) (jobs_won s) (jobs_completed s) (jobs_rejected s) (executing s).

Definition set_current_job (j : json) (s : state) : state :=
  State (machine_id s) (capabilities s) (busy s) j (current_job_end s)
        (jobs_bid s) (jobs_won s) (jobs_completed s) (jobs_rejected s) (executing s).

Definition set_jobs_bid (n : nat) (s : state) : state :=
  State (machine_id s) (capabilities s) (busy s) (current_job s) (current_job_end s)
        n (jobs_won s) (jobs_completed s) (jobs_rejected s) (executing s).

Definition set_jobs_won (n : nat) (s : state) : state :=
  State (machine_id s) (capabilities s) (busy s) (current_job s) (current_job_end s)
        (jobs_bid s) n (jobs_completed s) (jobs_rejected s) (executing s).

Definition set_jobs_completed (n : nat) (s : state) : state :=
  State (machine_id s) (capabilities s) (busy s) (current_job s) (current_job_end s)
        (jobs_bid s) (jobs_won s) n (jobs_rejected s) (executing s).

Definition set_jobs_rejected (n : nat) (s : state) : state :=
  State (machine_id s) (capabilities s) (busy s) (current_job s) (current_job_end s)
        (jobs_bid s) (jobs_won s) (jobs_completed s) n (executing s).

Definition set_executing (l : list execution) (s : state) : state :=
  State (machine_id s) (capabilities s) (busy s) (current_job s) (current_job_end s)
        (jobs_bid s) (jobs_won s) (jobs_completed s) (jobs_rejected s) l.

(** Looking a decoded value up in [self.capabilities], whose keys are
    strings: a [list] or a [dict] cannot be hashed, any other value that is
    not a string is simply absent. *)
Definition lookup_capability (caps : gmap string number) (k : json)
  : outcome (option number) :=
  match k with
  | JStr name => Ret (caps !! name)
  | JArr _ | JObj _ => Raise TypeError
  | _ => Ret None
  end.

Definition _send_bid (now : Q) (supervisor_id job_id : json) (execution_time : number)
  : M state unit :=
  self <- read ;;
  let bid := JObj [
    ("type", JStr "bid");
    ("machine_id", JStr (machine_id self));
    ("job_id", job_id);
    ("proposed_time", JNum execution_time);
    ("timestamp", JNum now)] in
  publish (BidTopic supervisor_id) bid ;;
  modify (fun self => set_jobs_bid (jobs_bid self + 1) self).

Definition _send_rejection (now : Q) (supervisor_id job_id : json) (reason : string)
  : M state unit :=
  self <- read ;;
  let rejection := JObj [
    ("type", JStr "rejection");
    ("machine_id", JStr (machine_id self));
    ("job_id", job_id);
    ("reason", JStr reason);
    ("timestamp", JNum now)] in
  publish (BidTopic supervisor_id) rejection.

Section Handlers.

(** [str(v)], as an f-string renders a decoded value. *)
Variable py_str : json -> string.

Definition _handle_cfp (now : Q) (data : json) : M state unit :=
  job_type <- lift (get data "job_type") ;;
  job_id <- lift (get data "job_id") ;;
  supervisor_id <- lift (get data "supervisor_id") ;;
  self <- read ;;
  if busy self then
    _send_rejection now supervisor_id job_id "Machine is busy"
  else
    capability <- lift (lookup_capability (capabilities self) job_type) ;;
    match capability with
    | None =>
        _send_rejection now supervisor_id job_id ("Cannot perform " ++ py_str job_type)%string
    | Some execution_time =>
        _send_bid now supervisor_id job_id execution_time
    end.

Definition _handle_award (data : json) : M state unit :=
  job_id <- lift (get data "job_id") ;;
  job_type <- lift (get data "job_type") ;;
  supervisor_id <- lift (get data "supervisor_id") ;;
  target <- lift (get data "machine_id") ;;
  self <- read ;;
  if negb (is_str target (machine_id self)) then ret tt
  else
    modify (fun self => set_jobs_won (jobs_won self + 1) self) ;;
    modify (set_busy true) ;;
    modify (set_current_job job_id) ;;
    self <- read ;;
    capability <- lift (lookup_capability (capabilities self) job_type) ;;
    let execution_time := default (Float 5) capability in
    let thread := Execution job_id job_type execution_time supervisor_id in
    modify (fun self => set_executing (executing self ++ [thread]) self).

(** [_execute_job] from the return of [time.sleep(execution_time)] on. *)
Definition _execute_job (now : Q) (args : execution) : M state unit :=
  modify (set_busy false) ;;
  modify (set_current_job JNull) ;;
  modify (fun self => set_jobs_completed (jobs_completed self + 1) self) ;;
  self <- read ;;
  let completion := JObj [
    ("type", JStr "completion");
    ("machine_id", JStr (machine_id self));
    ("job_id", job_id args);
    ("job_type", job_type args);
    ("execution_time", JNum (execution_time args));
    ("timestamp", JNum now)] in
  publish (CompleteTopic (supervisor_id args)) completion.

(** The [i]-th sleeping thread wakes up and runs [_execute_job] to its end. *)
Definition wake (now : Q) (i : nat) : M state unit :=
  self <- read ;;
  match executing self !! i with
  | Some args =>
      modify (set_executing (delete i (executing self))) ;;
      _execute_job now args
  | None => ret tt
  end.

Definition _handle_reject (data : json) : M state unit :=
  job_id <- lift (get data "job_id") ;;
  reason <- lift (get_or data "reason" (JStr "Unknown")) ;;
  modify (fun self => set_jobs_rejected (jobs_rejected self + 1) self).

Definition _on_message (now : Q) (msg : payload) : M state unit :=
  try_except
    (data <- lift (loads msg) ;;
     msg_type <- lift (get data "type") ;;
     if is_str msg_type "cfp" then _handle_cfp now data
     else if is_str msg_type "award" then _handle_award data
     else if is_str msg_type "reject" then _handle_reject data
     else ret tt)
    (fun e => match e with JSONDecodeError => true | _ => false end)
    (ret tt).

End Handlers.

Definition is_bid (m : message) : bool :=
  match get (body m) "type" with
  | Ret t => is_str t "bid"
  | Raise _ => false
  end.

(** A CfP as [supervisor.py] sends it. *)
Definition cfp_message (supervisor job kind : string) (deadline timestamp : Q) : json :=
  JObj [
    ("type", JStr "cfp");
    ("supervisor_id", JStr supervisor);
    ("job_id", JStr job);
    ("job_type", JStr kind);
    ("description", JStr ("Execute " ++ kind ++ " operation")%string);
    ("deadline", JNum deadline);
    ("timestamp", JNum timestamp)].

(** An award as [supervisor.py] sends it. *)
Definition award_message (supervisor job kind machine : string) (timestamp : Q) : json :=
  JObj [
    ("type", JStr "award");
    ("supervisor_id", JStr supervisor);
    ("job_id", JStr job);
    ("job_type", JStr kind);
    ("machine_id", JStr machine);
    ("timestamp", JNum timestamp)].

(** [str] on a text, a truth value, an [int] and [None]; the scenarios
    apply it to nothing else. *)
Definition str_plain (v : json) : string :=
  match v with
  | JStr s => s
  | JBool true => "True"
  | JBool false => "False"
  | JNum (Int z) => pretty z
  | _ => "None"
  end.

Definition is_completion (m : message) : bool :=
  match get (body m) "type" with
  | Ret t => is_str t "completion"
  | Raise _ => false
  end.

(** *** What happens to a machine

    Either the network thread runs [_on_message] on a payload, or one of
    the sleeping executions wakes up. *)
Inductive event :=
| Receive (now : Q) (msg : payload)
| Finish (now : Q) (i : nat).

Definition step (py_str : json -> string) (e : event) : M state unit :=
  match e with
  | Receive now msg => _on_message py_str now msg
  | Finish now i => wake now i
  end.

(** A history of the machine; an exception ends the callback in which it
    was raised, and the next event finds the state that callback left. *)
Definition history (py_str : json -> string) (events : list event) : M state unit :=
  Py_threads.background (map (step py_str) events).

(** [accounted s r]: what a run [r] from the state [s] may have done to
    the books of the machine.  The identity and the table are the same;
    [jobs_bid] and [jobs_completed] grew by the number of Bids and of
    Completion notices published; no counter went down; the jobs completed
    or in execution grew by no more than the jobs won; and every message
    went to a bid topic or to a completion topic. *)
Definition accounted (s : state) (r : run state unit) : Prop :=
  let s' := state_after r in
  machine_id s' = machine_id s /\
  capabilities s' = capabilities s /\
  jobs_bid s' = jobs_bid s + length (List.filter is_bid (published r)) /\
  jobs_completed s' =
    jobs_completed s + length (List.filter is_completion (published r)) /\
  jobs_won s <= jobs_won s' /\
  jobs_rejected s <= jobs_rejected s' /\
  jobs_completed s' + length (executing s') + jobs_won s <=
    jobs_won s' + jobs_completed s + length (executing s) /\
  Forall (fun m => match topic_of m with
                   | BidTopic _ | CompleteTopic _ => True
                   | _ => False
                   end) (published r).

(** *** The capability table of the command line *)

(** [s.split(sep)] for a separator of one character. *)
Fixpoint split (sep : Ascii.ascii) (s : string) : list string :=
  match s with
  | EmptyString => [EmptyString]
  | String c rest =>
      if Ascii.eqb c sep then EmptyString :: split sep rest
      else
        match split sep rest with
        | piece :: pieces => String c piece :: pieces
        | [] => [String c EmptyString]
        end
  end.

(** [c in s] for one character. *)
Fixpoint contains (c : Ascii.ascii) (s : string) : bool :=
  match s with
  | EmptyString => false
  | String c' rest => Ascii.eqb c' c || contains c rest
  end.

Section Parse.

(** The values of the table are Python floats; [py_float] is [float(text)],
    which gives a value or raises, and [py_strip] is [text.strip()]. *)
Context {V : Type}.
Variable py_strip : string -> string.
Variable py_float : string -> outcome V.

(** The body of the loop of [parse_capabilities], on the table built so
    far. *)
Definition parse_item (capabilities : gmap string V) (item : string)
  : outcome (gmap string V) :=
  let item := py_strip item in
  if contains ":"%char item then
    match split ":"%char item with
    | [job_type; time_str] =>
        match py_float (py_strip time_str) with
        | Ret t => Ret (<[py_strip job_type := t]> capabilities)
        | Raise e => Raise e
        end
    | _ => Raise ValueError
    end
  else Ret capabilities.

Fixpoint parse_items (capabilities : gmap string V) (items : list string)
  : outcome (gmap string V) :=
  match items with
  | [] => Ret capabilities
  | item :: rest =>
      match parse_item capabilities item with
      | Ret capabilities' => parse_items capabilities' rest
      | Raise e => Raise e
      end
  end.

Definition parse_capabilities (cap_str : string) : outcome (gmap string V) :=
  parse_items ∅ (split ","%char cap_str).

End Parse.

(** Two Python functions on plain input, for the scenarios: [strip] when
    the only white space is the blank, and [float] on a run of decimal
    digits and on the texts [nan] and [inf]; the scenarios apply them to
    nothing else. *)
Fixpoint lstrip_blanks (s : string) : string :=
  match s with
  | String " "%char rest => lstrip_blanks rest
  | _ => s
  end.

Fixpoint rstrip_blanks (s : string) : string :=
  match s with
  | EmptyString => EmptyString
  | String c rest =>
      match c, rstrip_blanks rest with
      | " "%char, EmptyString => EmptyString
      | _, rest' => String c rest'
      end
  end.

Definition strip_blanks (s : string) : string := rstrip_blanks (lstrip_blanks s).

Fixpoint digits_value (acc : N) (s : string) : option N :=
  match s with
  | EmptyString => Some acc
  | String c rest =>
      let d := (Ascii.N_of_ascii c - 48)%N in
      if (48 <=? Ascii.N_of_ascii c)%N && (d <? 10)%N
      then digits_value (10 * acc + d)%N rest
      else None
  end.

Definition float_plain (s : string) : outcome number :=
  if String.eqb s "nan" then Ret NaN
  else if String.eqb s "inf" then Ret (Inf false)
  else
    match s with
    | EmptyString => Raise ValueError
    | _ =>
        match digits_value 0 s with
        | Some n => Ret (Float (inject_Z (Z.of_N n)))
        | None => Raise ValueError
        end
    end.

End Machine.


(** ** Scenarios *)

Module Scenario.

Definition supervisor : Supervisor.state :=
  Supervisor.__init__ "supervisor_001" 10 3.

Definition job : Job.t :=
  Job.Make "job_1a2b3c4d" "job_A" "Execute job_A operation" 100.

(** Two machines answer the CfP in time, the faster one last. *)
Definition two_bids : Supervisor.arrivals :=
  Supervisor.Arrivals
    [(101%Q, Supervisor.bid_message "machine_1" "job_1a2b3c4d" 5 100.5);
     (102%Q, Supervisor.bid_message "machine_2" "job_1a2b3c4d" 3 100.7)]
    [] [].

(** Two machines propose the same duration; the bid that was sent first
    (timestamp 100.5) reaches the supervisor second. *)
Definition tie : Supervisor.arrivals :=
  Supervisor.Arrivals
    [(101%Q, Supervisor.bid_message "machine_1" "job_1a2b3c4d" 3 100.8);
     (102%Q, Supervisor.bid_message "machine_2" "job_1a2b3c4d" 3 100.5)]
    [] [].

(** The machine that [--id machine_1 --capabilities job_A:nan] starts. *)
Definition nan_machine : Machine.state :=
  Machine.__init__ "machine_1" {[ "job_A" := NaN ]}.

(** A machine that was started with [--capabilities job_A:nan] answers
    first, a machine that needs 3.0 seconds second. *)
Definition nan_first : Supervisor.arrivals :=
  Supervisor.Arrivals
    [(101%Q, Supervisor.bid_message "machine_1" "job_1a2b3c4d" NaN 100.5);
     (102%Q, Supervisor.bid_message "machine_2" "job_1a2b3c4d" 3 100.7)]
    [] [].

(** The same two bids in the other order. *)
Definition nan_last : Supervisor.arrivals :=
  Supervisor.Arrivals
    [(101%Q, Supervisor.bid_message "machine_2" "job_1a2b3c4d" 3 100.7);
     (102%Q, Supervisor.bid_message "machine_1" "job_1a2b3c4d" NaN 100.5)]
    [] [].


Definition capabilities : gmap string number :=
  <["job_A" := Float 5]> (<["job_B" := Float 3]> ∅).

(** A machine that has just started: it has sent no bid and runs no job. *)
Definition machine : Machine.state := Machine.__init__ "machine_1" capabilities.

(** The award of [job], addressed to [machine]. *)
Definition award : json :=
  Machine.award_message "supervisor_001" "job_1a2b3c4d" "job_A" "machine_1" 103.

(** [machine] after it accepted [award]: busy with [job]. *)
Definition busy_machine : Machine.state :=
  Py.state_after (Machine._on_message Machine.str_plain 103.1 (Document award) machine).

(** Another machine, which [award] does not name. *)
Definition other_machine : Machine.state := Machine.__init__ "machine_2" capabilities.

(** The CfP of a later job. *)
Definition cfp : json :=
  Machine.cfp_message "supervisor_001" "job_5e6f7a8b" "job_B" 3 113.

(** An award for a job of a type that [machine] does not list. *)
Definition unlisted_award : json :=
  Machine.award_message "supervisor_001" "job_9c0d1e2f" "job_E" "machine_1" 123.

(** A bid whose proposed time is a text, not a number. *)
Definition vague_bid : payload :=
  Document (JObj [
    ("type", JStr "bid");
    ("machine_id", JStr "machine_2");
    ("job_id", JStr "job_1a2b3c4d");
    ("proposed_time", JStr "soon");
    ("timestamp", JNum 100.7)]).

(** A number and a text are proposed for the same job. *)
Definition mixed : Supervisor.arrivals :=
  Supervisor.Arrivals
    [(101%Q, Supervisor.bid_message "machine_1" "job_1a2b3c4d" 5 100.5);
     (102%Q, vague_bid)]
    [] [].

(** The supervisor while it collects bids for [job]. *)
Definition collecting : Supervisor.state :=
  Py.state_after (Supervisor.at_deadline 100 job (Supervisor.Arrivals [] [] []) supervisor).

(** Successive readings of the clock, a millisecond apart. *)
Definition clock (first : Q) : nat -> Q :=
  fun i => (first + inject_Z (Z.of_nat i) / 1000)%Q.

(** Two turns of the main loop: the first auction gets two bids, the second
    one none before its deadline. *)
Definition two_cycles : list Supervisor.cycle :=
  [Supervisor.Cycle 0 "1a2b3c4d5e6f40718293a4b5c6d7e8f9" 100 100 (clock 103) two_bids [];
   Supervisor.Cycle 4 "0f1e2d3c4b5a49788796a5b4c3d2e1f0" 111 111 (clock 114)
     (Supervisor.Arrivals [] [] [])
     [(115%Q, Supervisor.bid_message "machine_1" "job_0f1e2d3c" 4 114.9)]].

(** The capability strings that [start_contract_net.py] passes to the
    machines. *)
Definition configured : list (string * string) :=
  [("machine_001", "job_A:3,job_B:5,job_C:7");
   ("machine_002", "job_B:2,job_C:4,job_D:6");
   ("machine_003", "job_A:6,job_C:3,job_E:4");
   ("machine_004", "job_D:2,job_E:3");
   ("machine_005", "job_A:4,job_B:4,job_C:4,job_D:4,job_E:4")].

(** A rejection as [supervisor.py] sends it to a losing bidder. *)
Definition rejection : json :=
  body (Supervisor.reject_message 103 job supervisor
          (Bid.Make (JStr "machine_1") (JStr "job_1a2b3c4d") (JNum 5) (JNum 100.5))).

(** A completion notice, which is no business of a machine. *)
Definition notice : json :=
  JObj [("type", JStr "completion"); ("machine_id", JStr "machine_2");
        ("job_id", JStr "job_1a2b3c4d"); ("job_type", JStr "job_A");
        ("execution_time", JNum 3); ("timestamp", JNum 106)].

(** A CfP for a job type that [machine] does not list. *)
Definition unlisted_cfp : json :=
  Machine.cfp_message "supervisor_001" "job_9c0d1e2f" "job_E" 3 123.

(** A CfP and an Award whose job type is a list. *)
Definition odd_cfp : json :=
  JObj [("type", JStr "cfp"); ("supervisor_id", JStr "supervisor_001");
        ("job_id", JStr "job_9c0d1e2f"); ("job_type", JArr [JStr "job_A"])].

Definition odd_award : json :=
  JObj [("type", JStr "award"); ("supervisor_id", JStr "supervisor_001");
        ("job_id", JStr "job_9c0d1e2f"); ("job_type", JArr [JStr "job_A"]);
        ("machine_id", JStr "machine_1")].

(** The CfP of [job] as the supervisor publishes it. *)
Definition job_cfp : json :=
  Machine.cfp_message "supervisor_001" "job_1a2b3c4d" "job_A" 3 100.

(** The supervisor with its network thread between two callbacks and no
    message waiting. *)
Definition world : Supervisor.world :=
  Supervisor.World supervisor (Supervisor.Network Supervisor.Idle []).

(** The two bids of [two_bids] arrive during the sleep, and both callbacks
    run to their end there, three steps each. *)
Definition in_turn : Supervisor.interleaving :=
  Supervisor.Interleaving
    (fun point => if (point =? 3)%nat then Supervisor.in_time two_bids else [])
    (fun point => if (point =? 3)%nat then 6%nat else 0%nat).

(** The same two bids, but the callback of the second, faster one is
    slow: during the sleep it passes the check of the flag and makes its
    bid, and it appends the bid only after the winner was selected. *)
Definition straggler : Supervisor.interleaving :=
  Supervisor.Interleaving
    (fun point => if (point =? 3)%nat then Supervisor.in_time two_bids else [])
    (fun point =>
       if (point =? 3)%nat then 5%nat else if (point =? 5)%nat then 1%nat else 0%nat).

End Scenario.

(** * Properties *)

Module PyFacts.
Import Py.

Section Laws.
Context {S : Type}.
Implicit Types s : S.

Lemma run_eta {A} (r : run S A) : Run (result r) (state_after r) (published r) = r.
Proof. by destruct r. Qed.

Lemma bind_run {A B} (m : M S A) (k : A -> M S B) s a s' out :
  m s = Run (Ret a) s' out ->
  bind m k s = Run (result (k a s')) (state_after (k a s')) (out ++ published (k a s')).
Proof. intros E. unfold bind. by rewrite E. Qed.

Lemma bind_quiet {A B} (m : M S A) (k : A -> M S B) s a s' :
  m s = Run (Ret a) s' [] -> bind m k s = k a s'.
Proof. intros E. rewrite (bind_run _ _ _ _ _ _ E). apply run_eta. Qed.

Lemma bind_read {B} (k : S -> M S B) s : bind read k s = k s s.
Proof. by apply bind_quiet. Qed.

Lemma bind_ret {A B} (a : A) (k : A -> M S B) s : bind (ret a) k s = k a s.
Proof. by apply bind_quiet. Qed.

Lemma bind_raise {A B} e (k : A -> M S B) s : bind (raise e) k s = Run (Raise e) s [].
Proof. reflexivity. Qed.

Lemma bind_lift_Ret {A B} (a : A) (k : A -> M S B) s : bind (lift (Ret a)) k s = k a s.
Proof. by apply bind_quiet. Qed.

Lemma bind_lift_Raise {A B} e (k : A -> M S B) s :
  bind (lift (Raise e)) k s = Run (Raise e) s [].
Proof. reflexivity. Qed.

Lemma bind_modify {B} f (k : unit -> M S B) s : bind (modify f) k s = k tt (f s).
Proof. by apply bind_quiet. Qed.

Lemma bind_publish {B} t b (k : unit -> M S B) s :
  bind (publish t b) k s =
  Run (result (k tt s)) (state_after (k tt s)) (Message t b :: published (k tt s)).
Proof. reflexivity. Qed.

Lemma bind_bind {A B C} (m : M S A) (f : A -> M S B) (g : B -> M S C) s :
  bind (bind m f) g s = bind m (fun a => bind (f a) g) s.
Proof.
  unfold bind. destruct (m s) as [[a|e] s1 o1]; cbn; [|done].
  destruct (f a s1) as [[b|e] s2 o2]; cbn; [|done].
  by rewrite app_assoc.
Qed.

(** A handler that only returns leaves the state and the messages of the
    body as they are. *)
Lemma try_except_ret {A} (body : M S A) caught (a : A) s :
  state_after (try_except body caught (ret a) s) = state_after (body s) /\
  published (try_except body caught (ret a) s) = published (body s).
Proof.
  unfold try_except. destruct (body s) as [[x|e] s1 o1]; cbn; [done|].
  destruct (caught e); cbn; by rewrite ?app_nil_r.
Qed.

Lemma try_except_pass {A} (body : M S A) caught handler s a s' out :
  body s = Run (Ret a) s' out ->
  try_except body caught handler s = Run (Ret a) s' out.
Proof. intros E. unfold try_except. by rewrite E. Qed.

Lemma try_except_uncaught {A} (body : M S A) caught handler s e s' out :
  body s = Run (Raise e) s' out -> caught e = false ->
  try_except body caught handler s = Run (Raise e) s' out.
Proof. intros E Hc. unfold try_except. rewrite E. cbn. by rewrite Hc. Qed.

Lemma try_except_caught {A} (body : M S A) caught handler s e s' :
  body s = Run (Raise e) s' [] -> caught e = true ->
  try_except body caught handler s = handler s'.
Proof.
  intros E Hc. unfold try_except. rewrite E. cbn. rewrite Hc.
  by destruct (handler s').
Qed.

Lemma background_result (cbs : list (M S unit)) s :
  result (Py_threads.background cbs s) = Ret tt.
Proof. by destruct cbs. Qed.

Lemma background_idle (cbs : list (M S unit)) s :
  Forall (fun cb => cb s = Run (Ret tt) s []) cbs ->
  Py_threads.background cbs s = Run (Ret tt) s [].
Proof.
  induction 1 as [|cb cbs Hcb _ IH]; [done|].
  cbn. rewrite Hcb. cbn. by rewrite IH.
Qed.

(** A loop whose body only publishes leaves the state alone. *)
Lemma for_each_frame {A} (P : message -> Prop) (xs : list A) (body : A -> M S unit) s :
  (forall x, result (body x s) = Ret tt /\ state_after (body x s) = s /\
             Forall P (published (body x s))) ->
  result (for_each xs body s) = Ret tt /\ state_after (for_each xs body s) = s /\
  Forall P (published (for_each xs body s)).
Proof.
  intros Hbody. induction xs as [|x xs IH]; cbn [for_each].
  - by cbn.
  - destruct (Hbody x) as (Hres & Hst & Hout).
    destruct IH as (IHres & IHst & IHout).
    unfold bind. rewrite Hres, Hst. cbn [result state_after published].
    by rewrite Forall_app.
Qed.

End Laws.

Lemma Qlt_bool_true x y : Qlt_bool x y = true -> (x < y)%Q.
Proof.
  unfold Qlt_bool. intros H%negb_true_iff. apply Qnot_le_lt.
  intros Hle%Qle_bool_iff. congruence.
Qed.

Lemma Qlt_bool_false x y : Qlt_bool x y = false -> (y <= x)%Q.
Proof. unfold Qlt_bool. intros H%negb_false_iff. by apply Qle_bool_iff. Qed.

(** *** Python's order on numbers *)

Lemma Qeq_bool_true x y : Qeq_bool x y = true -> (x == y)%Q.
Proof. apply Qeq_bool_iff. Qed.

Lemma Qeq_bool_false x y : Qeq_bool x y = false -> ~ (x == y)%Q.
Proof. intros H E. apply Qeq_bool_iff in E. congruence. Qed.

Lemma Qlt_bool_intro x y : (x < y)%Q -> Qlt_bool x y = true.
Proof.
  intros H. unfold Qlt_bool. apply negb_true_iff.
  destruct (Qle_bool y x) eqn:E; [|done].
  apply Qle_bool_iff in E. by apply Qle_not_lt in E.
Qed.

Lemma lt_number_asym x y : lt_number x y = true -> lt_number y x = false.
Proof.
  unfold lt_number.
  destruct (position_of x) as [[|p|]|], (position_of y) as [[|q|]|]; try done.
  intros H%Qlt_bool_true. unfold Qlt_bool. apply negb_false_iff, Qle_bool_iff.
  by apply Qlt_le_weak.
Qed.

Lemma lt_number_neq x y : lt_number x y = true -> eq_number y x = false.
Proof.
  unfold lt_number, eq_number.
  destruct (position_of x) as [[|p|]|], (position_of y) as [[|q|]|]; try done.
  intros H%Qlt_bool_true. destruct (Qeq_bool q p) eqn:E; [|done].
  apply Qeq_bool_true in E. rewrite E in H. by apply Qlt_irrefl in H.
Qed.

Lemma lt_number_trans x y z :
  lt_number x y = true -> lt_number y z = true -> lt_number x z = true.
Proof.
  unfold lt_number.
  destruct (position_of x) as [[|p|]|], (position_of y) as [[|q|]|],
           (position_of z) as [[|r|]|]; try done.
  intros H1%Qlt_bool_true H2%Qlt_bool_true. apply Qlt_bool_intro.
  by eapply Qlt_trans.
Qed.

Lemma eq_lt_number x y z :
  eq_number x y = true -> lt_number y z = true -> lt_number x z = true.
Proof.
  unfold lt_number, eq_number.
  destruct (position_of x) as [[|p|]|], (position_of y) as [[|q|]|],
           (position_of z) as [[|r|]|]; try done.
  intros H1%Qeq_bool_true H2%Qlt_bool_true. apply Qlt_bool_intro.
  by rewrite H1.
Qed.

Lemma position_of_number x : x <> NaN -> is_Some (position_of x).
Proof. destruct x as [?|?|[]|]; by eauto. Qed.

(** Numbers other than [NaN] are totally ordered. *)
Lemma number_trichotomy x y :
  x <> NaN -> y <> NaN ->
  lt_number x y = false -> eq_number x y = false -> lt_number y x = true.
Proof.
  intros [a Ha]%position_of_number [b Hb]%position_of_number.
  unfold lt_number, eq_number. rewrite Ha, Hb.
  destruct a as [|p|], b as [|q|]; try done.
  intros H1%Qlt_bool_false H2%Qeq_bool_false. apply Qlt_bool_intro.
  apply Qle_lt_or_eq in H1 as [H1|H1]; [done|]. by destruct H2.
Qed.

End PyFacts.

Ltac py_simp :=
  repeat (rewrite ?PyFacts.bind_bind, ?PyFacts.bind_read, ?PyFacts.bind_ret,
            ?PyFacts.bind_raise, ?PyFacts.bind_lift_Ret, ?PyFacts.bind_lift_Raise,
            ?PyFacts.bind_modify, ?PyFacts.bind_publish;
          cbn [Py.result Py.state_after Py.published negb]).

Module SupervisorSpec.
Import Py Supervisor.

(** *** The callback *)

Lemma on_message_closed now msg s :
  collecting_bids s = false -> _on_message now msg s = Run (Ret tt) s [].
Proof. intros Hc. unfold _on_message. py_simp. by rewrite Hc. Qed.

Lemma on_message_cases now msg s :
  published (_on_message now msg s) = [] /\
  (state_after (_on_message now msg s) = s \/
   exists b, state_after (_on_message now msg s) = set_bids (bids s ++ [b]) s).
Proof.
  unfold _on_message, current_job_id. py_simp.
  destruct (collecting_bids s) eqn:Hc; py_simp; [|auto].
  match goal with
  | |- context [try_except ?b ?c ?h s] =>
      destruct (PyFacts.try_except_ret b c tt s) as [-> ->]
  end.
  destruct msg as [| | | |v]; unfold loads; py_simp; [auto..|].
  unfold get, get_or, item.
  destruct v; py_simp; auto.
  destruct (current_job s); py_simp; auto.
  destruct (is_str _ _); py_simp; auto.
  destruct (is_str _ _); py_simp; auto.
  repeat (destruct (assoc _ _); py_simp; auto).
  all: unfold modify; cbn; eauto.
Qed.

Lemma grown_refl s : grown s s.
Proof. exists []. rewrite app_nil_r. by destruct s. Qed.

Lemma grown_trans s1 s2 s3 : grown s1 s2 -> grown s2 s3 -> grown s1 s3.
Proof.
  intros [l1 ->] [l2 ->]. exists (l1 ++ l2)%list. cbn. by rewrite app_assoc.
Qed.

Lemma deliver_quiet msgs s :
  published (deliver msgs s) = [] /\ grown s (state_after (deliver msgs s)).
Proof.
  unfold deliver. revert s.
  induction msgs as [|[now msg] msgs IH]; intros s;
    cbn [Py_threads.background map fst snd state_after published result].
  - split; [done|apply grown_refl].
  - destruct (on_message_cases now msg s) as [Hout Hst].
    destruct (IH (state_after (_on_message now msg s))) as [Hpub Hgrow].
    rewrite Hout, Hpub. split; [done|].
    eapply grown_trans; [|exact Hgrow].
    destruct Hst as [->|[b ->]]; [apply grown_refl|by exists [b]].
Qed.

Lemma deliver_run msgs s :
  deliver msgs s = Run (Ret tt) (state_after (deliver msgs s)) [].
Proof.
  pose proof (PyFacts.background_result
                (map (fun m => _on_message (fst m) (snd m)) msgs) s) as Hres.
  destruct (deliver_quiet msgs s) as [Hpub _]. fold (deliver msgs s) in Hres.
  destruct (deliver msgs s) as [res st out]. cbn in *. by subst.
Qed.

Lemma deliver_closed msgs s :
  collecting_bids s = false -> deliver msgs s = Run (Ret tt) s [].
Proof.
  intros Hc. unfold deliver. apply PyFacts.background_idle.
  apply Forall_forall. intros cb [m [-> _]]%list_elem_of_fmap.
  by apply on_message_closed.
Qed.

(** *** Winner selection *)

Lemma duration_number b d : duration b = Some d -> Bid.proposed_time b = JNum d.
Proof. unfold duration. destruct (Bid.proposed_time b); congruence. Qed.

(** The loop of [min] on bids whose proposed times are numbers: [before]
    and [after] are the bids already seen on either side of the running
    best.  None of them compares below the best, and none of those before
    it is equal to it. *)
Lemma min_from_numbers rest : forall before best after d,
  duration best = Some d ->
  Forall (fun b => is_Some (duration b)) rest ->
  (forall b d', b ∈ before -> duration b = Some d' ->
     lt_number d' d = false /\ eq_number d' d = false) ->
  (forall b d', b ∈ after -> duration b = Some d' -> lt_number d' d = false) ->
  exists pre w post dw,
    (before ++ best :: after ++ rest = pre ++ w :: post)%list /\
    min_from Bid.proposed_time best rest = Ret w /\
    duration w = Some dw /\
    (forall b d', b ∈ pre -> duration b = Some d' ->
       lt_number d' dw = false /\ eq_number d' dw = false) /\
    (forall b d', b ∈ post -> duration b = Some d' -> lt_number d' dw = false).
Proof.
  induction rest as [|x rest IH]; intros before best after d Hd Hnum Hbefore Hafter.
  - exists before, best, after, d. by rewrite app_nil_r.
  - apply Forall_cons in Hnum as [[dx Hdx] Hnum].
    cbn [min_from].
    rewrite (duration_number _ _ Hdx), (duration_number _ _ Hd).
    cbn [lt as_number].
    destruct (lt_number dx d) eqn:Hlt.
    + assert (forall d', lt_number d' d = false ->
                lt_number d' dx = false /\ eq_number d' dx = false) as Hbelow.
      { intros d' Hd'. split.
        - destruct (lt_number d' dx) eqn:E; [|done].
          by rewrite (PyFacts.lt_number_trans _ _ _ E Hlt) in Hd'.
        - destruct (eq_number d' dx) eqn:E; [|done].
          by rewrite (PyFacts.eq_lt_number _ _ _ E Hlt) in Hd'. }
      destruct (IH (before ++ best :: after)%list x [] dx Hdx Hnum)
        as (pre & w & post & dw & Heq & Hmin & Hw & Hpre & Hpost).
      * intros b d' [Hb|Hb]%elem_of_app Hd'.
        -- apply Hbelow. by eapply Hbefore.
        -- apply elem_of_cons in Hb as [->|Hb].
           ++ assert (d' = d) as -> by congruence.
              split; [by apply PyFacts.lt_number_asym|by apply PyFacts.lt_number_neq].
           ++ apply Hbelow. by eapply Hafter.
      * intros b d' Hb. by apply elem_of_nil in Hb.
      * exists pre, w, post, dw. split; [|done].
        rewrite <- Heq. cbn. by rewrite <- app_assoc.
    + destruct (IH before best (after ++ [x])%list d Hd Hnum Hbefore)
        as (pre & w & post & dw & Heq & Hmin & Hw & Hpre & Hpost).
      * intros b d' [Hb|Hb]%elem_of_app Hd'; [by eapply Hafter|].
        apply list_elem_of_singleton in Hb as ->. congruence.
      * exists pre, w, post, dw. split; [|done].
        rewrite <- Heq. by rewrite <- app_assoc.
Qed.

(** [min] over bids that carry numbers never raises; it returns a bid
    that none compares below, and the first of those equal to it. *)
Lemma min_of_numbers l :
  l <> [] ->
  Forall (fun b => is_Some (duration b)) l ->
  exists pre w post dw,
    l = (pre ++ w :: post)%list /\
    min Bid.proposed_time l = Ret w /\
    duration w = Some dw /\
    (forall b d', b ∈ pre -> duration b = Some d' ->
       lt_number d' dw = false /\ eq_number d' dw = false) /\
    (forall b d', b ∈ post -> duration b = Some d' -> lt_number d' dw = false).
Proof.
  destruct l as [|best rest]; [done|]. intros _ Hnum.
  apply Forall_cons in Hnum as [[d Hd] Hnum].
  destruct (min_from_numbers rest [] best [] d Hd Hnum)
    as (pre & w & post & dw & Heq & Hmin & Hrest).
  - intros b d' Hb. by apply elem_of_nil in Hb.
  - intros b d' Hb. by apply elem_of_nil in Hb.
  - by exists pre, w, post, dw.
Qed.

Lemma timed_number b : timed b -> is_Some (duration b).
Proof. intros (d & Hd & _). by exists d. Qed.

(** Without [NaN] the order is total: the bids before the winner are
    strictly slower. *)
Lemma min_first_minimum l :
  l <> [] ->
  Forall timed l ->
  exists pre w post dw,
    l = (pre ++ w :: post)%list /\
    min Bid.proposed_time l = Ret w /\
    duration w = Some dw /\
    (forall b d', b ∈ pre -> duration b = Some d' -> lt_number dw d' = true) /\
    (forall b d', b ∈ post -> duration b = Some d' -> lt_number d' dw = false).
Proof.
  intros Hne Htimed.
  destruct (min_of_numbers l Hne) as (pre & w & post & dw & Heq & Hmin & Hw & Hpre & Hpost).
  { eapply Forall_impl; [exact Htimed|]. apply timed_number. }
  exists pre, w, post, dw. split_and!; try done.
  intros b d' Hb Hd'. rewrite Forall_forall in Htimed.
  destruct (Hpre b d' Hb Hd') as [Hlt Hne'].
  assert (d' <> NaN) as Hd'n.
  { destruct (Htimed b) as (x & Hx & Hxn); [|congruence].
    rewrite Heq. apply elem_of_app. by left. }
  assert (dw <> NaN) as Hdwn.
  { destruct (Htimed w) as (x & Hx & Hxn); [|congruence].
    rewrite Heq. apply elem_of_app. right. by apply elem_of_cons; left. }
  by apply PyFacts.number_trichotomy.
Qed.

Lemma select_winner_run s :
  _select_winner s =
  match bids s with
  | [] => Run (Ret None) s []
  | _ :: _ =>
      match min Bid.proposed_time (bids s) with
      | Ret w => Run (Ret (Some w)) s []
      | Raise e => Run (Raise e) s []
      end
  end.
Proof.
  unfold _select_winner. py_simp. destruct (bids s) as [|b l]; [done|].
  destruct (min _ _); by py_simp.
Qed.

(** *** The award and the rejections *)

Lemma send_award_run now w job s :
  exists award rejects,
    _send_award now w job s =
      Run (Ret tt) s (Message (AwardTopic (Bid.machine_id w)) award :: rejects) /\
    get award "machine_id" = Ret (Bid.machine_id w) /\
    Forall (fun m => is_award m = false) rejects.
Proof.
  unfold _send_award, announce_winner, reject_others. py_simp.
  match goal with
  | |- context [for_each ?l ?body s] =>
      destruct (PyFacts.for_each_frame (fun m => is_award m = false) l body s)
        as (Hres & Hst & Hout);
      [|destruct (for_each l body s) as [res st out]; cbn in Hres, Hst, Hout; subst]
  end.
  - intros bid. destruct (negb _); by repeat constructor.
  - cbn [result state_after published]. eexists _, out. by repeat split.
Qed.

Lemma for_each_publish {S A} (keep : A -> bool) (msg : A -> message) (xs : list A) (s : S) :
  for_each xs (fun x =>
    if keep x then publish (topic_of (msg x)) (body (msg x)) else ret tt) s =
  Run (Ret tt) s (map msg (List.filter keep xs)).
Proof.
  induction xs as [|x xs IH]; cbn [for_each List.filter map]; [done|].
  destruct (keep x).
  - rewrite PyFacts.bind_publish, IH. cbn. by destruct (msg x).
  - by rewrite PyFacts.bind_ret, IH.
Qed.

Lemma reject_others_run times w job s :
  reject_others times w job s = Run (Ret tt) s (rejections times w job s (bids s)).
Proof.
  unfold reject_others, rejections. py_simp.
  by rewrite (for_each_publish
                (fun turn => negb (eq (Bid.machine_id (snd turn)) (Bid.machine_id w)))
                (fun turn => reject_message (times (fst turn)) job s (snd turn))).
Qed.

Lemma elem_of_rejections times w job s l m :
  m ∈ rejections times w job s l <->
  exists i b,
    l !! i = Some b /\
    eq (Bid.machine_id b) (Bid.machine_id w) = false /\
    m = reject_message (times i) job s b.
Proof.
  unfold rejections. rewrite list_elem_of_fmap. split.
  - intros ([i b] & -> & Hin).
    apply list_elem_of_In, filter_In in Hin as [Hin Hkeep].
    apply list_elem_of_In, elem_of_lookup_imap in Hin as (i' & b' & [= -> ->] & Hl).
    exists i', b'. split_and!; [done| |done]. by apply negb_true_iff.
  - intros (i & b & Hl & Heq & ->). exists (i, b). split; [done|].
    apply list_elem_of_In, filter_In. split.
    + apply list_elem_of_In, elem_of_lookup_imap. by exists i, b.
    + cbn. by rewrite Heq.
Qed.

(** *** One auction, seen from the state at the deadline *)

Lemma at_deadline_state start job net s :
  exists l,
    state_after (at_deadline start job net s) =
      set_bids l (set_collecting_bids true (set_current_job (Some job) s)).
Proof.
  unfold at_deadline, _send_cfp. py_simp.
  match goal with
  | |- context [deliver ?m ?s1] =>
      destruct (deliver_quiet m s1) as [_ [l ->]]
  end.
  by eexists.
Qed.

Ltac skip_late_delivery :=
  match goal with
  | |- context [bind (deliver ?m) _ ?st] =>
      rewrite (PyFacts.bind_quiet _ _ _ _ _ (deliver_closed m st eq_refl))
  end.

(** The part of [_run_auction] that follows [time.sleep(self.deadline)],
    run from the state [sd] reached at the deadline. *)
Lemma closing_outcome finish job net sd :
  let closed := set_collecting_bids false sd in
  (modify (set_collecting_bids false) ;;
   deliver (late net) ;;
   winner <- _select_winner ;;
   match winner with
   | Some w =>
       _send_award finish w job ;;
       modify (fun self => set_jobs_allocated (jobs_allocated self + 1) self)
   | None =>
       modify (fun self => set_jobs_failed (jobs_failed self + 1) self)
   end ;;
   deliver (later net) ;;
   modify (set_current_job None)) sd =
  match bids sd with
  | [] =>
      Run (Ret tt)
          (set_current_job None (set_jobs_failed (jobs_failed sd + 1) closed)) []
  | _ :: _ =>
      match min Bid.proposed_time (bids sd) with
      | Ret w =>
          Run (Ret tt)
              (set_current_job None (set_jobs_allocated (jobs_allocated sd + 1) closed))
              (published (_send_award finish w job closed))
      | Raise e => Run (Raise e) closed []
      end
  end.
Proof.
  intros closed. py_simp. fold closed.
  skip_late_delivery.
  unfold _select_winner. py_simp.
  change (bids closed) with (bids sd).
  destruct (bids sd) as [|b l]; py_simp.
  - by skip_late_delivery.
  - destruct (min _ _) as [w|e]; py_simp; [|done].
    destruct (send_award_run finish w job closed) as (award & rejects & Hrun & _).
    rewrite (PyFacts.bind_run _ _ _ _ _ _ Hrun), Hrun. py_simp.
    skip_late_delivery.
    cbn. by rewrite app_nil_r.
Qed.

Lemma run_auction_outcome start finish job net s :
  let sd := state_after (at_deadline start job net s) in
  let closed := set_collecting_bids false sd in
  let cfp := published (_send_cfp start job s) in
  _run_auction start finish job net s =
  match bids sd with
  | [] =>
      Run (Ret tt)
          (set_current_job None (set_jobs_failed (jobs_failed sd + 1) closed)) cfp
  | _ :: _ =>
      match min Bid.proposed_time (bids sd) with
      | Ret w =>
          Run (Ret tt)
              (set_current_job None (set_jobs_allocated (jobs_allocated sd + 1) closed))
              (cfp ++ published (_send_award finish w job closed))
      | Raise e => Run (Raise e) closed cfp
      end
  end.
Proof.
  intros sd closed cfp. subst sd closed cfp.
  unfold _run_auction, at_deadline, _send_cfp. py_simp.
  match goal with
  | |- context [deliver (in_time net) ?s1] =>
      rewrite (PyFacts.bind_quiet _ _ _ _ _ (deliver_run (in_time net) s1));
      generalize (state_after (deliver (in_time net) s1))
  end.
  intros sd. rewrite (closing_outcome finish job net sd).
  destruct (bids sd) as [|b l]; [done|].
  by destruct (min _ _).
Qed.

Lemma send_cfp_published start job s :
  exists cfp, published (_send_cfp start job s) = [Message CfpTopic cfp].
Proof. unfold _send_cfp. py_simp. by eexists. Qed.


(** *** The claims about the supervisor *)

(** C1, at the failing input.  A machine started with the capability
    [job_A:nan] holds [NaN] in its table and proposes it; its bid reaches
    the supervisor before the bid of a machine that proposes 3.0.  Nothing
    compares below [NaN], so [min] keeps the first bid: the one Award of
    the auction goes to the machine that proposed [NaN], and the machine
    that proposed 3.0 is sent a Rejection.  With the same two bids in the
    other order the Award goes to the machine that proposed 3.0. *)
Theorem nan_bid_takes_the_award :
  let r := _run_auction 100 (Scenario.clock 103) Scenario.job Scenario.nan_first
             Scenario.supervisor in
  let r' := _run_auction 100 (Scenario.clock 103) Scenario.job Scenario.nan_last
              Scenario.supervisor in
  Machine.parse_capabilities Machine.strip_blanks Machine.float_plain "job_A:nan" =
    Ret (Machine.capabilities Scenario.nan_machine) /\
  map (fun m => Document (body m))
      (published (Machine._on_message Machine.str_plain 100.5
                    (Document Scenario.job_cfp) Scenario.nan_machine)) =
    [bid_message "machine_1" "job_1a2b3c4d" NaN 100.5] /\
  (exists b1 b2,
     collected 100 Scenario.job Scenario.nan_first Scenario.supervisor = [b1; b2] /\
     Bid.machine_id b1 = JStr "machine_1" /\
     Bid.proposed_time b1 = JNum NaN /\
     Bid.machine_id b2 = JStr "machine_2" /\
     Bid.proposed_time b2 = JNum 3) /\
  result r = Ret tt /\
  map topic_of (List.filter is_award (published r)) = [AwardTopic (JStr "machine_1")] /\
  map topic_of (List.filter is_reject (published r)) = [RejectTopic (JStr "machine_2")] /\
  map topic_of (List.filter is_award (published r')) = [AwardTopic (JStr "machine_2")].
Proof.
  intros r r'. split; [by vm_compute|]. split; [by vm_compute|]. split.
  - by eexists _, _.
  - by vm_compute.
Qed.

(** C2 (as amended).  Among collected bids whose proposed durations are
    numbers, winner selection returns a bid, and of two bids of equal
    duration never the one that entered the collected set later: no bid
    before the selected one is equal to it in duration, and no collected
    bid compares below it.  Timestamps play no part, and the choice is a
    function of the collected sequence alone. *)
Theorem first_minimum_bid_wins s :
  bids s <> [] ->
  Forall (fun b => is_Some (duration b)) (bids s) ->
  (exists pre w post d,
     bids s = (pre ++ w :: post)%list /\
     _select_winner s = Run (Ret (Some w)) s [] /\
     duration w = Some d /\
     (forall b d', b ∈ pre -> duration b = Some d' -> eq_number d' d = false) /\
     (forall b d', b ∈ bids s -> duration b = Some d' -> lt_number d' d = false)) /\
  (forall s', bids s' = bids s ->
     result (_select_winner s') = result (_select_winner s)).
Proof.
  intros Hne Hnum. split.
  - destruct (min_of_numbers (bids s) Hne Hnum)
      as (pre & w & post & d & Heq & Hmin & Hd & Hpre & Hpost).
    exists pre, w, post, d. split; [done|]. split_and!.
    + rewrite select_winner_run, Hmin. by destruct (bids s).
    + done.
    + intros b d' Hb Hd'. by eapply Hpre.
    + intros b d' Hb Hd'. rewrite Heq in Hb.
      apply elem_of_app in Hb as [Hb|Hb]; [by eapply Hpre|].
      apply elem_of_cons in Hb as [->|Hb]; [|by eapply Hpost].
      assert (d' = d) as -> by congruence.
      destruct (lt_number d d) eqn:E; [|done].
      by rewrite (PyFacts.lt_number_asym _ _ E) in E.
  - intros s' Hsame. rewrite !select_winner_run, Hsame.
    destruct (bids s); [done|]. by destruct (min _ _).
Qed.

Lemma first_minimum_bid_wins_witness :
  let s := state_after (at_deadline 100 Scenario.job Scenario.tie Scenario.supervisor) in
  bids s <> [] /\
  Forall (fun b => is_Some (duration b)) (bids s) /\
  exists pre w post d,
    bids s = (pre ++ w :: post)%list /\
    _select_winner s = Run (Ret (Some w)) s [] /\
    duration w = Some d /\
    (forall b d', b ∈ pre -> duration b = Some d' -> eq_number d' d = false) /\
    (forall b d', b ∈ bids s -> duration b = Some d' -> lt_number d' d = false).
Proof.
  intros s.
  assert (bids s <> []) as Hne by (vm_compute; discriminate).
  assert (Forall (fun b => is_Some (duration b)) (bids s)) as Hnum.
  { vm_compute. repeat constructor; eexists; reflexivity. }
  split; [exact Hne|]. split; [exact Hnum|].
  exact (proj1 (first_minimum_bid_wins s Hne Hnum)).
Defined.

(** C2 as stated fails: two collected bids propose the same duration, the
    one that arrived second carries the earlier timestamp, and the award
    goes to the one that arrived first. *)
Lemma earlier_timestamp_does_not_win :
  let r := _run_auction 100 (Scenario.clock 103) Scenario.job Scenario.tie Scenario.supervisor in
  exists b1 b2,
    collected 100 Scenario.job Scenario.tie Scenario.supervisor = [b1; b2] /\
    Bid.proposed_time b1 = Bid.proposed_time b2 /\
    Bid.timestamp b1 = JNum 100.8 /\
    Bid.timestamp b2 = JNum 100.5 /\
    (100.5 < 100.8)%Q /\
    Bid.machine_id b1 <> Bid.machine_id b2 /\
    map topic_of (List.filter is_award (published r)) =
      [AwardTopic (Bid.machine_id b1)].
Proof.
  intros r.
  exists (Bid.Make (JStr "machine_1") (JStr "job_1a2b3c4d") (JNum 3) (JNum 100.8)),
         (Bid.Make (JStr "machine_2") (JStr "job_1a2b3c4d") (JNum 3) (JNum 100.5)).
  split_and!; try (vm_compute; reflexivity).
  cbn. discriminate.
Qed.



End SupervisorSpec.

(** * The supervisor and its network thread *)

Module SupervisorThreads.
Import Py Supervisor.

(** ** The steps of the network thread *)

Lemma main_run {A} (m : M state A) w :
  main m w =
  Run (result (m (agent w))) (World (state_after (m (agent w))) (thread w))
      (published (m (agent w))).
Proof. reflexivity. Qed.

(** Making the bid reads the state and publishes nothing. *)
Lemma make_bid_quiet now msg s :
  state_after (make_bid now msg s) = s /\ published (make_bid now msg s) = [].
Proof.
  unfold make_bid, current_job_id.
  match goal with
  | |- context [try_except ?b ?c ?h s] =>
      destruct (PyFacts.try_except_ret b c None s) as [-> ->]
  end.
  destruct msg as [| | | |v]; unfold loads; py_simp; [auto..|].
  unfold get, get_or, item.
  destruct v; py_simp; auto.
  destruct (current_job s); py_simp; auto.
  destruct (is_str _ _); py_simp; auto.
  destruct (is_str _ _); py_simp; auto.
  repeat (destruct (assoc _ _); py_simp; auto).
Qed.

(** What one step does, phase by phase. *)
Lemma network_step_run w :
  network_step w =
  Run (Ret tt)
      (match callback (thread w) with
       | Idle =>
           match waiting (thread w) with
           | [] => w
           | (now, msg) :: rest =>
               World (agent w)
                     (Network (if collecting_bids (agent w) then Tested now msg else Idle)
                              rest)
           end
       | Tested now msg =>
           World (agent w)
                 (Network (match result (make_bid now msg (agent w)) with
                           | Ret (Some b) => Ready b
                           | _ => Idle
                           end)
                          (waiting (thread w)))
       | Ready bid =>
           World (set_bids (bids (agent w) ++ [bid]) (agent w))
                 (Network Idle (waiting (thread w)))
       end)
      [].
Proof.
  unfold network_step. py_simp.
  destruct (callback (thread w)) as [|now msg|bid].
  - destruct (waiting (thread w)) as [|[now msg] rest]; [done|].
    unfold test_flag, set_thread, bind, main, read, ret, modify. cbn.
    reflexivity.
  - destruct (make_bid_quiet now msg (agent w)) as [Hst Hout].
    unfold set_thread, bind, try_except, main, modify, ret.
    rewrite Hst, Hout. cbn.
    destruct (result (make_bid now msg (agent w))) as [[b|]|e]; reflexivity.
  - reflexivity.
Qed.

Lemma network_steps_run k : forall w,
  exists w', network_steps k w = Run (Ret tt) w' [].
Proof.
  induction k as [|k IH]; intros w; cbn [network_steps].
  - by exists w.
  - rewrite (PyFacts.bind_quiet _ _ _ _ _ (network_step_run w)). apply IH.
Qed.

Lemma arrive_run msgs w :
  arrive msgs w =
  Run (Ret tt)
      (World (agent w) (Network (callback (thread w)) (waiting (thread w) ++ msgs))) [].
Proof. reflexivity. Qed.

Lemma pause_run i point w :
  exists w', pause i point w = Run (Ret tt) w' [].
Proof.
  unfold pause. rewrite (PyFacts.bind_quiet _ _ _ _ _ (arrive_run _ w)).
  apply network_steps_run.
Qed.

(** ** Messages that arrive after the deadline *)

Lemma behind_refl w : collecting_bids (agent w) = false -> behind w w.
Proof. intros Hc. split_and!; try done. exists []. by rewrite app_nil_r. Qed.

Lemma alike_bind {A B} (m m' : M world A) (k k' : A -> M world B) w w' :
  alike (m w) (m' w') ->
  (forall a v v', behind v v' -> alike (k a v) (k' a v')) ->
  alike (bind m k w) (bind m' k' w').
Proof.
  intros (Hres & Hout & Hw) Hk. unfold bind.
  rewrite <- Hres, Hout.
  destruct (result (m w)) as [a|e]; [|by split_and!].
  destruct (Hk a _ _ Hw) as (Hres' & Hout' & Hw').
  split_and!; cbn [result state_after published]; [done| |done].
  by rewrite Hout'.
Qed.

Lemma alike_main {A} (m : M state A) w w' :
  (forall s, collecting_bids s = false -> collecting_bids (state_after (m s)) = false) ->
  behind w w' -> alike (main m w) (main m w').
Proof.
  intros Hm (Ha & Hc & Hp & late & Hq). rewrite !main_run, <- Ha.
  split_and!; cbn [result state_after published]; try done.
  split_and!; cbn [agent thread]; try done; [by apply Hm|by exists late].
Qed.

Lemma alike_step w w' : behind w w' -> alike (network_step w) (network_step w').
Proof.
  intros (Ha & Hc & Hp & late & Hq). rewrite !network_step_run.
  unfold alike, behind. cbn [result state_after published].
  split; [done|]. split; [done|].
  rewrite <- Hp, <- Ha, Hq.
  destruct (callback (thread w)) as [|now msg|bid] eqn:Hcb.
  - destruct (waiting (thread w')) as [|[now msg] rest] eqn:Hw'; cbn [app].
    + destruct late as [|[now msg] rest].
      * split_and!; try done; try congruence. exists []. by rewrite Hq, Hw'.
      * rewrite Hc. cbn [agent thread callback waiting].
        split_and!; try done. exists rest. by rewrite Hw'.
    + rewrite Hc. cbn [agent thread callback waiting].
      split_and!; try done. by exists late.
  - cbn [agent thread callback waiting]. split_and!; try done. by exists late.
  - cbn [agent thread callback waiting]. split_and!; try done. by exists late.
Qed.

Lemma alike_steps k : forall w w',
  behind w w' -> alike (network_steps k w) (network_steps k w').
Proof.
  induction k as [|k IH]; intros w w' Hw; cbn [network_steps].
  - by split_and!.
  - apply alike_bind; [by apply alike_step|]. intros _ v v' Hv. by apply IH.
Qed.

Lemma alike_pause i point w w' :
  (after_deadline <= point)%nat ->
  behind w w' ->
  alike (pause i point w) (pause (until after_deadline i) point w').
Proof.
  intros Hpoint Hw. unfold pause. apply alike_bind.
  - destruct Hw as (Ha & Hc & Hp & late & Hq). rewrite !arrive_run.
    split_and!; cbn [result state_after published]; try done.
    split_and!; cbn [agent thread callback waiting]; try done.
    cbn [until arriving]. apply Nat.ltb_ge in Hpoint. rewrite Hpoint.
    exists (late ++ arriving i point). by rewrite Hq, app_nil_r, app_assoc.
  - intros _ v v' Hv. by apply alike_steps.
Qed.

Lemma select_winner_state s : state_after (_select_winner s) = s.
Proof.
  rewrite SupervisorSpec.select_winner_run.
  destruct (bids s); [done|]. by destruct (min _ _).
Qed.

Lemma announce_winner_run now w job s :
  exists award,
    announce_winner now w job s =
      Run (Ret tt) s [Message (AwardTopic (Bid.machine_id w)) award] /\
    get award "type" = Ret (JStr "award") /\
    get award "supervisor_id" = Ret (JStr (supervisor_id s)) /\
    get award "job_id" = Ret (JStr (Job.job_id job)) /\
    get award "job_type" = Ret (JStr (Job.job_type job)) /\
    get award "machine_id" = Ret (Bid.machine_id w) /\
    get award "timestamp" = Ret (JNum now).
Proof.
  eexists. split; [unfold announce_winner; by py_simp|]. by split_and!.
Qed.

Ltac keeps_flag :=
  let s := fresh "s" in
  let H := fresh "H" in
  intros s H;
  first
    [ by rewrite select_winner_state
    | by rewrite SupervisorSpec.reject_others_run
    | match goal with
      | |- context [announce_winner ?t ?w ?j s] =>
          by destruct (announce_winner_run t w j s) as (? & -> & _)
      end
    | exact H ].

Lemma close_auction_alike finish job i w :
  alike (close_auction finish job i w)
        (close_auction finish job (until after_deadline i) w).
Proof.
  unfold close_auction.
  apply alike_bind.
  { rewrite main_run. unfold alike. cbn [result state_after published].
    split; [done|]. split; [done|]. by apply behind_refl. }
  intros _ v v' Hv. apply alike_bind; [apply alike_pause; [done|exact Hv]|].
  clear v v' Hv. intros _ v v' Hv.
  apply alike_bind; [apply alike_main; [keeps_flag|exact Hv]|].
  clear v v' Hv. intros winner v v' Hv.
  apply alike_bind; [apply alike_pause; [unfold after_deadline; lia|exact Hv]|].
  clear v v' Hv. intros _ v v' Hv.
  apply alike_bind.
  - destruct winner as [win|].
    + apply alike_bind; [apply alike_main; [keeps_flag|exact Hv]|].
      clear v v' Hv. intros _ v v' Hv.
      apply alike_bind; [apply alike_pause; [unfold after_deadline; lia|exact Hv]|].
      clear v v' Hv. intros _ v v' Hv.
      apply alike_bind; [apply alike_main; [keeps_flag|exact Hv]|].
      clear v v' Hv. intros _ v v' Hv.
      apply alike_main; [keeps_flag|exact Hv].
    + apply alike_main; [keeps_flag|exact Hv].
  - clear v v' Hv. intros _ v v' Hv.
    apply alike_bind; [apply alike_pause; [unfold after_deadline; lia|exact Hv]|].
    clear v v' Hv. intros _ v v' Hv.
    apply alike_main; [keeps_flag|exact Hv].
Qed.

Lemma bind_main_modify {B} f (k : unit -> M world B) w :
  bind (main (modify f)) k w = k tt (World (f (agent w)) (thread w)).
Proof. by apply PyFacts.bind_quiet. Qed.

(** ** What the network thread can do to the bid list *)

Lemma set_bids_same s : set_bids (bids s ++ []) s = s.
Proof. rewrite app_nil_r. by destruct s. Qed.

Lemma set_bids_twice s l l' :
  set_bids (bids (set_bids (bids s ++ l) s) ++ l') (set_bids (bids s ++ l) s) =
  set_bids (bids s ++ (l ++ l')) s.
Proof. cbn. by rewrite app_assoc. Qed.

(** A step appends at most one bid and changes nothing else; once the
    flag is cleared, what it appends was pending. *)
Lemma network_step_grows w :
  exists w' more,
    network_step w = Run (Ret tt) w' [] /\
    agent w' = set_bids (bids (agent w) ++ more) (agent w) /\
    (collecting_bids (agent w) = false ->
     length more + pending (thread w') <= pending (thread w)).
Proof.
  rewrite network_step_run. unfold pending.
  destruct (callback (thread w)) as [|now msg|bid] eqn:Hcb.
  - destruct (waiting (thread w)) as [|[now msg] rest] eqn:Hq.
    + exists w, []. rewrite set_bids_same, Hcb. by split_and!.
    + eexists _, []. split; [reflexivity|]. cbn [agent thread callback].
      rewrite set_bids_same. split; [done|]. by intros ->.
  - eexists _, []. split; [reflexivity|]. cbn [agent thread callback].
    rewrite set_bids_same. split; [done|]. intros _.
    destruct (result (make_bid now msg (agent w))) as [[b|]|e]; cbn; lia.
  - eexists _, [bid]. split; [reflexivity|]. cbn [agent thread callback]. by split.
Qed.

Lemma network_steps_grow k : forall w,
  exists w' more,
    network_steps k w = Run (Ret tt) w' [] /\
    agent w' = set_bids (bids (agent w) ++ more) (agent w) /\
    (collecting_bids (agent w) = false ->
     length more + pending (thread w') <= pending (thread w)).
Proof.
  induction k as [|k IH]; intros w; cbn [network_steps].
  - exists w, []. rewrite set_bids_same. split_and!; try done; try (cbn; lia).
  - destruct (network_step_grows w) as (w1 & m1 & H1 & Ha1 & Hp1).
    rewrite (PyFacts.bind_quiet _ _ _ _ _ H1).
    destruct (IH w1) as (w2 & m2 & H2 & Ha2 & Hp2).
    exists w2, (m1 ++ m2). split; [done|]. split.
    + by rewrite Ha2, Ha1, set_bids_twice.
    + intros Hc. specialize (Hp1 Hc).
      rewrite Ha1 in Hp2. specialize (Hp2 Hc). rewrite length_app. lia.
Qed.

Lemma pause_grows i point w :
  exists w' more,
    pause i point w = Run (Ret tt) w' [] /\
    agent w' = set_bids (bids (agent w) ++ more) (agent w) /\
    (collecting_bids (agent w) = false ->
     length more + pending (thread w') <= pending (thread w)).
Proof.
  unfold pause. rewrite (PyFacts.bind_quiet _ _ _ _ _ (arrive_run _ w)).
  match goal with |- context [network_steps ?k ?v] =>
    destruct (network_steps_grow k v) as (w' & more & H & Ha & Hp)
  end.
  by exists w', more.
Qed.

Ltac step_pause w' more H Ha Hp :=
  match goal with
  | |- context [bind (pause ?i ?p) ?k ?v] =>
      destruct (pause_grows i p v) as (w' & more & H & Ha & Hp);
      rewrite (PyFacts.bind_quiet _ _ _ _ _ H)
  end.

Lemma bind_main {A B} (m : M state A) (k : A -> M world B) w a s' out :
  m (agent w) = Run (Ret a) s' out ->
  bind (main m) k w =
  Run (result (k a (World s' (thread w))))
      (state_after (k a (World s' (thread w))))
      (out ++ published (k a (World s' (thread w)))).
Proof. intros E. apply PyFacts.bind_run. by rewrite main_run, E. Qed.

Lemma send_cfp_run start job s :
  exists cfp,
    _send_cfp start job s = Run (Ret tt) s [Message CfpTopic cfp] /\
    get cfp "type" = Ret (JStr "cfp") /\
    get cfp "supervisor_id" = Ret (JStr (supervisor_id s)) /\
    get cfp "job_id" = Ret (JStr (Job.job_id job)) /\
    get cfp "job_type" = Ret (JStr (Job.job_type job)) /\
    get cfp "deadline" = Ret (JNum (deadline s)) /\
    get cfp "timestamp" = Ret (JNum start).
Proof.
  eexists. split; [unfold _send_cfp; by py_simp|]. by split_and!.
Qed.

Lemma open_auction_run start job i w :
  exists w' cfp,
    open_auction start job i w = Run (Ret tt) w' [Message CfpTopic cfp] /\
    current_job (agent w') = Some job /\
    supervisor_id (agent w') = supervisor_id (agent w) /\
    deadline (agent w') = deadline (agent w) /\
    jobs_created (agent w') = jobs_created (agent w) /\
    jobs_allocated (agent w') = jobs_allocated (agent w) /\
    jobs_failed (agent w') = jobs_failed (agent w) /\
    get cfp "type" = Ret (JStr "cfp") /\
    get cfp "supervisor_id" = Ret (JStr (supervisor_id (agent w))) /\
    get cfp "job_id" = Ret (JStr (Job.job_id job)) /\
    get cfp "job_type" = Ret (JStr (Job.job_type job)) /\
    get cfp "deadline" = Ret (JNum (deadline (agent w))) /\
    get cfp "timestamp" = Ret (JNum start).
Proof.
  unfold open_auction. rewrite bind_main_modify.
  step_pause w0 m0 H0 Ha0 Hp0. rewrite bind_main_modify.
  step_pause w1 m1 H1 Ha1 Hp1. rewrite bind_main_modify.
  step_pause w2 m2 H2 Ha2 Hp2.
  destruct (send_cfp_run start job (agent w2))
    as (cfp & Hcfp & Hty & Hsup & Hjid & Hjt & Hdl & Hts).
  rewrite (bind_main _ _ _ _ _ _ Hcfp).
  destruct (pause_grows i 3 (World (agent w2) (thread w2))) as (w3 & m3 & H3 & Ha3 & _).
  rewrite H3. cbn [result state_after published app].
  exists w3, cfp. split; [done|].
  rewrite Hsup, Hdl.
  rewrite Ha3, Ha2. cbn [agent]. rewrite Ha1. cbn [agent]. rewrite Ha0. cbn [agent].
  by split_and!.
Qed.

(** C3.  A message that arrives after [collecting_bids] was cleared at the
    deadline is never admitted and never affects the auction.  Whatever
    the two threads do in which order, the auction with the messages that
    arrive after that point is the auction without them: same result, same
    messages published, same state of the supervisor at the end, bid list
    and counters included.  And at the end the flag is still cleared: a
    callback that starts then returns at once. *)
Theorem late_messages_are_excluded start finish job i w :
  let r := _run_auction_interleaved start finish job i w in
  let r' := _run_auction_interleaved start finish job (until after_deadline i) w in
  result r = result r' /\
  published r = published r' /\
  agent (state_after r) = agent (state_after r') /\
  forall now msg,
    _on_message now msg (agent (state_after r)) =
      Run (Ret tt) (agent (state_after r)) [].
Proof.
  intros r r'. subst r r'. unfold _run_auction_interleaved.
  destruct (open_auction_run start job i w) as (w1 & cfp & Hopen & _).
  assert (open_auction start job (until after_deadline i) w =
          Run (Ret tt) w1 [Message CfpTopic cfp]) as Hopen' by exact Hopen.
  rewrite (PyFacts.bind_run _ _ _ _ _ _ Hopen), (PyFacts.bind_run _ _ _ _ _ _ Hopen').
  destruct (close_auction_alike finish job i w1) as (Hres & Hout & Ha & Hc & _).
  cbn [result state_after published]. rewrite Hres, Hout.
  split_and!; try done.
  intros now msg. by apply SupervisorSpec.on_message_closed.
Qed.

(** ** The messages of an auction *)

Lemma world_eta w : World (agent w) (thread w) = w.
Proof. by destruct w. Qed.

Lemma bind_main_select {B} (k : option Bid.t -> M world B) w :
  bind (main _select_winner) k w =
  match bids (agent w) with
  | [] => k None w
  | _ :: _ =>
      match min Bid.proposed_time (bids (agent w)) with
      | Ret win => k (Some win) w
      | Raise e => Run (Raise e) w []
      end
  end.
Proof.
  pose proof (SupervisorSpec.select_winner_run (agent w)) as Hsel.
  destruct (bids (agent w)) as [|b l].
  - rewrite (bind_main _ _ _ _ _ _ Hsel), world_eta. apply PyFacts.run_eta.
  - destruct (min _ _) as [win|e].
    + rewrite (bind_main _ _ _ _ _ _ Hsel), world_eta. apply PyFacts.run_eta.
    + unfold bind. rewrite main_run, Hsel. cbn. by rewrite world_eta.
Qed.

Lemma rejections_self times win job s s' l :
  supervisor_id s = supervisor_id s' ->
  rejections times win job s l = rejections times win job s' l.
Proof. intros H. unfold rejections, reject_message. by rewrite H. Qed.

Lemma pending_bound n : pending n <= 1.
Proof. unfold pending. destruct (callback n); lia. Qed.

Lemma no_award_among_rejections times win job s l :
  List.filter is_award (rejections times win job s l) = [].
Proof.
  unfold rejections.
  induction (List.filter _ (imap pair l)) as [|x xs IH]; [done|]. exact IH.
Qed.

(** One auction in any interleaving: the bid list [chosen] that
    [_select_winner] reads, the bids [more] that enter before the loop of
    [_send_award] takes the lock, and the bids [rest] that enter later. *)
Lemma interleaved_auction_outcome start finish job i w :
  let r := _run_auction_interleaved start finish job i w in
  exists cfp chosen more rest,
    bids (agent (state_after r)) = chosen ++ more ++ rest /\
    length (more ++ rest) <= 1 /\
    get cfp "type" = Ret (JStr "cfp") /\
    get cfp "supervisor_id" = Ret (JStr (supervisor_id (agent w))) /\
    get cfp "job_id" = Ret (JStr (Job.job_id job)) /\
    get cfp "job_type" = Ret (JStr (Job.job_type job)) /\
    get cfp "deadline" = Ret (JNum (deadline (agent w))) /\
    get cfp "timestamp" = Ret (JNum start) /\
    match chosen with
    | [] => result r = Ret tt /\ published r = [Message CfpTopic cfp]
    | _ :: _ =>
        match min Bid.proposed_time chosen with
        | Ret win =>
            exists award,
              result r = Ret tt /\
              published r =
                Message CfpTopic cfp ::
                Message (AwardTopic (Bid.machine_id win)) award ::
                rejections (fun turn => finish (S turn)) win job (agent w)
                           (chosen ++ more) /\
              get award "type" = Ret (JStr "award") /\
              get award "supervisor_id" = Ret (JStr (supervisor_id (agent w))) /\
              get award "job_id" = Ret (JStr (Job.job_id job)) /\
              get award "job_type" = Ret (JStr (Job.job_type job)) /\
              get award "machine_id" = Ret (Bid.machine_id win) /\
              get award "timestamp" = Ret (JNum (finish 0%nat))
        | Raise e => result r = Raise e /\ published r = [Message CfpTopic cfp]
        end
    end.
Proof.
  intros r. subst r. unfold _run_auction_interleaved.
  destruct (open_auction_run start job i w)
    as (w1 & cfp & Hopen & Hjob1 & Hsup1 & _ & _ & _ & _ & Hc1 & Hc2 & Hc3 & Hc4' & Hc5 & Hc6).
  rewrite (PyFacts.bind_run _ _ _ _ _ _ Hopen).
  exists cfp.
  unfold close_auction. rewrite bind_main_modify.
  step_pause w4 m4 H4 Ha4 Hp4. specialize (Hp4 eq_refl). cbn [agent thread] in *.
  rewrite bind_main_select.
  assert (collecting_bids (agent w4) = false) as Hc4 by by rewrite Ha4.
  assert (supervisor_id (agent w4) = supervisor_id (agent w)) as Hs4 by by rewrite Ha4.
  clear Ha4. pose proof (pending_bound (thread w1)) as Hb.
  exists (bids (agent w4)).
  destruct (bids (agent w4)) as [|b0 l0] eqn:Hchosen.
  - step_pause w5 m5 H5 Ha5 Hp5. specialize (Hp5 Hc4).
    py_simp. rewrite bind_main_modify.
    step_pause w7 m7 H7 Ha7 Hp7. cbn [agent thread] in *.
    rewrite Ha5 in Hp7. specialize (Hp7 Hc4).
    rewrite main_run. cbn [modify result state_after published agent app].
    exists [], (m5 ++ m7). split_and!; try done.
    + rewrite Ha7, Ha5. cbn. by rewrite Hchosen.
    + cbn [app]. rewrite length_app. lia.
  - rewrite <- Hchosen.
    destruct (min Bid.proposed_time (bids (agent w4))) as [win|e].
    + step_pause w5 m5 H5 Ha5 Hp5. specialize (Hp5 Hc4). py_simp.
      destruct (announce_winner_run (finish 0%nat) win job (agent w5))
        as (award & Haward & Hfields).
      rewrite (bind_main _ _ _ _ _ _ Haward). py_simp.
      step_pause w6 m6 H6 Ha6 Hp6. py_simp. cbn [agent thread] in *.
      rewrite Ha5 in Hp6. specialize (Hp6 Hc4).
      rewrite (bind_main _ _ _ _ _ _ (SupervisorSpec.reject_others_run _ win job (agent w6))).
      py_simp. rewrite bind_main_modify.
      step_pause w7 m7 H7 Ha7 Hp7. cbn [agent thread] in *.
      rewrite Ha6, Ha5 in Hp7. specialize (Hp7 Hc4).
      rewrite main_run. cbn [modify result state_after published agent app].
      exists (m5 ++ m6), m7. split_and!; try done.
      * rewrite Ha7, Ha6, Ha5. cbn. by rewrite <- !app_assoc.
      * rewrite !length_app. lia.
      * exists award. rewrite app_nil_r. split; [done|]. split.
        -- do 2 f_equal. rewrite Ha6, Ha5. cbn [bids set_bids].
           rewrite <- app_assoc. apply rejections_self.
           cbn. congruence.
        -- rewrite Ha5 in Hfields. cbn in Hfields. rewrite Hs4 in Hfields. exact Hfields.
    + cbn [result state_after published app agent]. exists [], [].
      split_and!; try done; [by rewrite !app_nil_r|cbn; lia].
Qed.

(** X7.  The messages of an auction, whatever the two threads do in which
    order.  The CfP comes first.  [_select_winner] reads a bid list
    [chosen]; if it is empty nothing else is published, and if [min]
    raises on it the auction raises and nothing else is published.
    Otherwise the Award for the bid that [min] selects from [chosen]
    follows, and then one Rejection, in the order of the list, for every
    bid of another machine id in the list that the loop of [_send_award]
    finds.  That list is [chosen] and at most one bid more, which a
    callback that had passed the check of the flag appended in between; no
    more than one bid in all enters the list after the winner was
    selected.  So every auction publishes at most one Award. *)
Theorem auction_messages start finish job i w :
  let r := _run_auction_interleaved start finish job i w in
  length (List.filter is_award (published r)) <= 1 /\
  exists cfp chosen more rest,
    bids (agent (state_after r)) = chosen ++ more ++ rest /\
    length (more ++ rest) <= 1 /\
    get cfp "type" = Ret (JStr "cfp") /\
    get cfp "supervisor_id" = Ret (JStr (supervisor_id (agent w))) /\
    get cfp "job_id" = Ret (JStr (Job.job_id job)) /\
    get cfp "job_type" = Ret (JStr (Job.job_type job)) /\
    get cfp "deadline" = Ret (JNum (deadline (agent w))) /\
    get cfp "timestamp" = Ret (JNum start) /\
    match chosen with
    | [] => result r = Ret tt /\ published r = [Message CfpTopic cfp]
    | _ :: _ =>
        match min Bid.proposed_time chosen with
        | Ret win =>
            exists award,
              result r = Ret tt /\
              published r =
                Message CfpTopic cfp ::
                Message (AwardTopic (Bid.machine_id win)) award ::
                rejections (fun turn => finish (S turn)) win job (agent w)
                           (chosen ++ more) /\
              get award "type" = Ret (JStr "award") /\
              get award "supervisor_id" = Ret (JStr (supervisor_id (agent w))) /\
              get award "job_id" = Ret (JStr (Job.job_id job)) /\
              get award "job_type" = Ret (JStr (Job.job_type job)) /\
              get award "machine_id" = Ret (Bid.machine_id win) /\
              get award "timestamp" = Ret (JNum (finish 0%nat))
        | Raise e => result r = Raise e /\ published r = [Message CfpTopic cfp]
        end
    end.
Proof.
  intros r. subst r.
  destruct (interleaved_auction_outcome start finish job i w)
    as (cfp & chosen & more & rest & Hout).
  split; [|by exists cfp, chosen, more, rest].
  destruct Hout as (_ & _ & _ & _ & _ & _ & _ & _ & Hcase).
  destruct chosen as [|b0 l0]; [destruct Hcase as [_ ->]; cbn; lia|].
  destruct (min _ _) as [win|e]; [|destruct Hcase as [_ ->]; cbn; lia].
  destruct Hcase as (award & _ & -> & _).
  cbn [List.filter is_award topic_of]. rewrite no_award_among_rejections. cbn. lia.
Qed.

(** X26.  In any interleaving, when the proposed durations of the bids
    that are in the list at the end of the auction are numbers other than
    [NaN], an Award goes to the machine of a bid that proposes the least
    among the bids that [_select_winner] found: [pre], [win] and [post]
    are those bids in their order of arrival, the bids before the selected
    one propose strictly more and the bids after it do not propose less.
    At most one bid [rest] of the final list came after the selection and
    did not take part. *)
Theorem award_goes_to_a_minimum_bid start finish job i w :
  let r := _run_auction_interleaved start finish job i w in
  Forall timed (bids (agent (state_after r))) ->
  forall m, m ∈ published r -> is_award m = true ->
  exists pre win post rest d,
    bids (agent (state_after r)) = (pre ++ win :: post) ++ rest /\
    length rest <= 1 /\
    topic_of m = AwardTopic (Bid.machine_id win) /\
    get (body m) "machine_id" = Ret (Bid.machine_id win) /\
    duration win = Some d /\
    (forall b d', b ∈ pre -> duration b = Some d' -> lt_number d d' = true) /\
    (forall b d', b ∈ post -> duration b = Some d' -> lt_number d' d = false).
Proof.
  intros r Htimed m Hm Haward. subst r.
  destruct (interleaved_auction_outcome start finish job i w)
    as (cfp & chosen & more & rest & Hfinal & Hlen & _ & _ & _ & _ & _ & _ & Hcase).
  rewrite Hfinal in Htimed. apply Forall_app in Htimed as [Hchosen _].
  destruct chosen as [|b0 l0].
  { destruct Hcase as [_ Hout]. rewrite Hout in Hm.
    apply list_elem_of_singleton in Hm. by subst m. }
  destruct (SupervisorSpec.min_first_minimum (b0 :: l0)) as
    (pre & win & post & d & Heq & Hmin & Hd & Hpre & Hpost); [done|done|].
  rewrite Hmin in Hcase. destruct Hcase as (award & _ & Hout & _ & _ & _ & _ & Hid & _).
  rewrite Hout in Hm.
  assert (m = Message (AwardTopic (Bid.machine_id win)) award) as ->.
  { apply elem_of_cons in Hm as [->|Hm]; [done|].
    apply elem_of_cons in Hm as [->|Hm]; [done|].
    apply SupervisorSpec.elem_of_rejections in Hm as (? & ? & _ & _ & ->). done. }
  exists pre, win, post, (more ++ rest), d.
  rewrite Hfinal, Heq. split; [by rewrite <- !app_assoc|]. by split_and!.
Qed.

(** ** The callback as a whole *)

(** Run without interruption, the three steps are [_on_message]. *)
Lemma on_message_by_make_bid now msg s :
  collecting_bids s = true ->
  state_after (_on_message now msg s) =
  match result (make_bid now msg s) with
  | Ret (Some b) => set_bids (bids s ++ [b]) s
  | _ => s
  end.
Proof.
  intros Hc. unfold _on_message, make_bid, current_job_id. py_simp. rewrite Hc. cbn [negb].
  match goal with
  | |- context [state_after (try_except ?b ?c ?h s)] =>
      destruct (PyFacts.try_except_ret b c tt s) as [-> _]
  end.
  destruct msg as [| | | |v]; unfold loads; py_simp; [done..|].
  unfold get, get_or, item.
  destruct v; py_simp; try done.
  unfold try_except at 1. py_simp.
  destruct (current_job s); py_simp; [|done].
  destruct (is_str _ _); py_simp; [|done].
  destruct (is_str _ _); py_simp; [done|].
  repeat (destruct (assoc _ _); py_simp; try done).
Qed.

Lemma callback_in_steps now msg rest s :
  exists k,
    1 <= k <= 3 /\
    network_steps k (World s (Network Idle ((now, msg) :: rest))) =
      Run (Ret tt)
          (World (state_after (_on_message now msg s)) (Network Idle rest)) [].
Proof.
  destruct (collecting_bids s) eqn:Hc.
  - rewrite (on_message_by_make_bid now msg s Hc).
    destruct (result (make_bid now msg s)) as [[b|]|e] eqn:Hbid.
    + exists 3. split; [lia|]. cbn [network_steps].
      rewrite (PyFacts.bind_quiet _ _ _ _ _ (network_step_run _)).
      cbn [agent thread callback waiting]. rewrite Hc.
      rewrite (PyFacts.bind_quiet _ _ _ _ _ (network_step_run _)).
      cbn [agent thread callback waiting]. rewrite Hbid.
      rewrite (PyFacts.bind_quiet _ _ _ _ _ (network_step_run _)).
      reflexivity.
    + exists 2. split; [lia|]. cbn [network_steps].
      rewrite (PyFacts.bind_quiet _ _ _ _ _ (network_step_run _)).
      cbn [agent thread callback waiting]. rewrite Hc.
      rewrite (PyFacts.bind_quiet _ _ _ _ _ (network_step_run _)).
      cbn [agent thread callback waiting]. by rewrite Hbid.
    + exists 2. split; [lia|]. cbn [network_steps].
      rewrite (PyFacts.bind_quiet _ _ _ _ _ (network_step_run _)).
      cbn [agent thread callback waiting]. rewrite Hc.
      rewrite (PyFacts.bind_quiet _ _ _ _ _ (network_step_run _)).
      cbn [agent thread callback waiting]. by rewrite Hbid.
  - rewrite (SupervisorSpec.on_message_closed now msg s Hc). cbn [state_after].
    exists 1. split; [lia|]. cbn [network_steps].
    rewrite (PyFacts.bind_quiet _ _ _ _ _ (network_step_run _)).
    cbn [agent thread callback waiting]. by rewrite Hc.
Qed.

(** ** The schedules without interruption *)

Lemma network_steps_add a b : forall w,
  network_steps (a + b) w = (network_steps a ;; network_steps b) w.
Proof.
  induction a as [|a IH]; intros w; cbn [Nat.add network_steps].
  - by rewrite PyFacts.bind_ret.
  - rewrite PyFacts.bind_bind.
    rewrite !(PyFacts.bind_quiet _ _ _ _ _ (network_step_run w)). apply IH.
Qed.

(** Callbacks that run to their end one after the other are steps of the
    network thread. *)
Lemma deliver_in_steps msgs : forall s rest,
  exists k,
    network_steps k (World s (Network Idle (msgs ++ rest))) =
      Run (Ret tt) (World (state_after (deliver msgs s)) (Network Idle rest)) [].
Proof.
  induction msgs as [|[now msg] msgs IH]; intros s rest.
  - by exists 0.
  - destruct (callback_in_steps now msg (msgs ++ rest) s) as (k1 & _ & H1).
    destruct (IH (state_after (_on_message now msg s)) rest) as (k2 & H2).
    exists (k1 + k2). rewrite network_steps_add.
    cbn [app]. by rewrite (PyFacts.bind_quiet _ _ _ _ _ H1), H2.
Qed.

Lemma pause_deliver i point msgs k s :
  arriving i point = msgs ->
  turns i point = k ->
  network_steps k (World s (Network Idle (msgs ++ []))) =
    Run (Ret tt) (World (state_after (deliver msgs s)) (Network Idle [])) [] ->
  pause i point (World s (Network Idle [])) =
    Run (Ret tt) (World (state_after (deliver msgs s)) (Network Idle [])) [].
Proof.
  intros Ha Ht Hk. unfold pause. rewrite Ha, Ht.
  rewrite (PyFacts.bind_quiet _ _ _ _ _ (arrive_run _ _)).
  cbn [agent thread callback waiting app]. by rewrite app_nil_r in Hk.
Qed.

Lemma pause_nothing i point s :
  arriving i point = [] ->
  turns i point = 0 ->
  pause i point (World s (Network Idle [])) = Run (Ret tt) (World s (Network Idle [])) [].
Proof.
  intros Ha Ht.
  apply (pause_deliver i point [] 0 s Ha Ht). reflexivity.
Qed.


Lemma drop_in_steps msgs : forall s rest,
  collecting_bids s = false ->
  network_steps (length msgs) (World s (Network Idle (msgs ++ rest))) =
    Run (Ret tt) (World s (Network Idle rest)) [].
Proof.
  induction msgs as [|[now msg] msgs IH]; intros s rest Hc; cbn [length network_steps app].
  - reflexivity.
  - rewrite (PyFacts.bind_quiet _ _ _ _ _ (network_step_run _)).
    cbn [agent thread callback waiting]. rewrite Hc. by apply IH.
Qed.

Lemma pause_drop i point msgs s :
  collecting_bids s = false ->
  arriving i point = msgs ->
  turns i point = length msgs ->
  pause i point (World s (Network Idle [])) = Run (Ret tt) (World s (Network Idle [])) [].
Proof.
  intros Hc Ha Ht. unfold pause. rewrite Ha, Ht.
  rewrite (PyFacts.bind_quiet _ _ _ _ _ (arrive_run _ _)).
  cbn [agent thread callback waiting app].
  rewrite <- (app_nil_r msgs) at 2. by apply drop_in_steps.
Qed.

Ltac step_main :=
  rewrite bind_main_modify; cbn [agent thread]; py_simp.

Ltac step_idle i p :=
  rewrite (PyFacts.bind_quiet _ _ _ _ _ (pause_nothing i p _ eq_refl eq_refl)); py_simp.

Ltac step_drop i p msgs :=
  match goal with
  | |- context [bind (pause i p) _ (World ?st _)] =>
      rewrite (PyFacts.bind_quiet _ _ _ _ _
                 (pause_drop i p msgs st eq_refl eq_refl eq_refl));
      py_simp
  end.

(** Every run of [_run_auction] in which no callback is interrupted is the
    run of an interleaving. *)
Lemma uninterrupted_run start finish job net s :
  exists k,
    let r := _run_auction start finish job net s in
    _run_auction_interleaved start finish job
      (uninterrupted net k (length (late net)) (length (later net)))
      (World s (Network Idle [])) =
    Run (result r) (World (state_after r) (Network Idle [])) (published r).
Proof.
  set (s1 := set_collecting_bids true (set_bids [] (set_current_job (Some job) s))).
  destruct (deliver_in_steps (in_time net) s1 []) as (k & Hk).
  exists k. cbn zeta.
  set (i := uninterrupted net k (length (late net)) (length (later net))).
  pose proof (SupervisorSpec.run_auction_outcome start finish job net s) as Hr.
  cbn zeta in Hr.
  assert (state_after (at_deadline start job net s) =
          state_after (deliver (in_time net) s1)) as Hsd.
  { unfold at_deadline, _send_cfp. by py_simp. }
  rewrite Hsd in Hr. set (sd := state_after (deliver (in_time net) s1)) in *.
  destruct (send_cfp_run start job s1) as (cfp & Hcfp & _).
  assert (published (_send_cfp start job s) = [Message CfpTopic cfp]) as Hout.
  { change (published (_send_cfp start job s)) with (published (_send_cfp start job s1)).
    by rewrite Hcfp. }
  rewrite Hout in Hr.
  unfold _run_auction_interleaved, open_auction. py_simp.
  step_main. step_idle i 0.
  step_main. step_idle i 1.
  step_main. step_idle i 2.
  fold s1.
  rewrite (bind_main (_send_cfp start job) _ (World s1 (Network Idle [])) _ _ _ Hcfp).
  cbn [agent thread]. py_simp.
  rewrite (PyFacts.bind_quiet _ _ _ _ _ (pause_deliver i 3 _ k s1 eq_refl eq_refl Hk)).
  fold sd.
  unfold close_auction. py_simp. step_main.
  set (closed := set_collecting_bids false sd) in *.
  rewrite (PyFacts.bind_quiet _ _ _ _ _
             (pause_drop i 4 (late net) closed eq_refl eq_refl eq_refl)).
  rewrite bind_main_select. cbn [agent]. change (bids closed) with (bids sd).
  destruct (bids sd) as [|b0 l0].
  - rewrite Hr. cbn [result state_after published].
    step_idle i 5. step_main.
    step_drop i 7 (later net).
    rewrite main_run. by cbn.
  - destruct (min Bid.proposed_time (b0 :: l0)) as [win|e].
    + rewrite Hr. cbn [result state_after published].
      step_idle i 5.
      destruct (announce_winner_run (finish 0%nat) win job closed) as (award & Haward & _).
      assert (_send_award finish win job closed =
              Run (Ret tt) closed
                  (Message (AwardTopic (Bid.machine_id win)) award ::
                   rejections (fun turn => finish (S turn)) win job closed (bids closed)))
        as Hsend.
      { unfold _send_award. rewrite (PyFacts.bind_run _ _ _ _ _ _ Haward).
        by rewrite SupervisorSpec.reject_others_run. }
      rewrite Hsend. cbn [published].
      rewrite (bind_main (announce_winner (finish 0%nat) win job) _
                 (World closed (Network Idle [])) _ _ _ Haward).
      cbn [agent thread]. py_simp.
      step_idle i 6.
      rewrite (bind_main (reject_others (fun turn => finish (S turn)) win job) _
                 (World closed (Network Idle [])) _ _ _
                 (SupervisorSpec.reject_others_run _ win job closed)).
      cbn [agent thread]. py_simp. step_main.
      step_drop i 7 (later net).
      rewrite main_run. cbn [result state_after published agent thread modify app].
      by rewrite app_nil_r.
    + rewrite Hr. by cbn.
Qed.


(** ** The properties at the scenarios *)

Lemma award_goes_to_a_minimum_bid_witness :
  let r := _run_auction_interleaved 100 (Scenario.clock 103) Scenario.job
             Scenario.in_turn Scenario.world in
  let m := Message (AwardTopic (JStr "machine_2"))
             (Machine.award_message "supervisor_001" "job_1a2b3c4d" "job_A" "machine_2"
                (Scenario.clock 103 0%nat)) in
  Forall timed (bids (agent (state_after r))) /\
  m ∈ published r /\
  is_award m = true /\
  exists pre win post rest d,
    bids (agent (state_after r)) = (pre ++ win :: post) ++ rest /\
    length rest <= 1 /\
    topic_of m = AwardTopic (Bid.machine_id win) /\
    get (body m) "machine_id" = Ret (Bid.machine_id win) /\
    duration win = Some d /\
    (forall b d', b ∈ pre -> duration b = Some d' -> lt_number d d' = true) /\
    (forall b d', b ∈ post -> duration b = Some d' -> lt_number d' d = false).
Proof.
  intros r m.
  assert (Forall timed (bids (agent (state_after r)))) as Htimed.
  { vm_compute. repeat constructor; eexists; (split; [reflexivity|discriminate]). }
  assert (m ∈ published r) as Hm.
  { vm_compute. apply elem_of_cons; right. apply elem_of_cons; by left. }
  assert (is_award m = true) as Haward by reflexivity.
  split; [exact Htimed|]. split; [exact Hm|]. split; [exact Haward|].
  exact (award_goes_to_a_minimum_bid 100 (Scenario.clock 103) Scenario.job
           Scenario.in_turn Scenario.world Htimed m Hm Haward).
Defined.

(** A bid that is appended after the winner was selected does not take
    part: the machine that proposed 5.0 is awarded the job, and the
    machine whose bid of 3.0 was still on its way into the list is
    rejected. *)
Example straggler_is_rejected_unseen :
  let r := _run_auction_interleaved 100 (Scenario.clock 103) Scenario.job
             Scenario.straggler Scenario.world in
  result r = Ret tt /\
  map (fun b => (Bid.machine_id b, Bid.proposed_time b)) (bids (agent (state_after r))) =
    [(JStr "machine_1", JNum 5); (JStr "machine_2", JNum 3)] /\
  map topic_of (List.filter is_award (published r)) = [AwardTopic (JStr "machine_1")] /\
  map topic_of (List.filter is_reject (published r)) = [RejectTopic (JStr "machine_2")].
Proof. by vm_compute. Qed.

End SupervisorThreads.

Module MachineSpec.
Import Py Machine.

(** A message whose field could be read is a [dict]. *)
Lemma readable_is_dict data k v : get data k = Ret v -> exists fields, data = JObj fields.
Proof. destruct data; try discriminate. by eexists. Qed.

Lemma get_dict fields k v :
  get (JObj fields) k = Ret v -> default JNull (assoc k fields) = v.
Proof. cbn. congruence. Qed.

Lemma is_str_same s : is_str (JStr s) s = true.
Proof. apply String.eqb_refl. Qed.

Lemma is_str_other v s : v <> JStr s -> is_str v s = false.
Proof.
  destruct v; try done. cbn. intros Hne.
  apply String.eqb_neq. congruence.
Qed.

Ltac as_dict data H :=
  let fields := fresh "fields" in
  destruct (readable_is_dict data _ _ H) as [fields ->].

Ltac py_run :=
  repeat progress (cbn [loads get get_or item]; py_simp).

Section Handlers.
Variable py_str : json -> string.

(** An award that names this machine is accepted, whatever the machine was
    doing and whatever it had bid on. *)
Lemma award_accepted now data s jt cap :
  get data "type" = Ret (JStr "award") ->
  get data "machine_id" = Ret (JStr (machine_id s)) ->
  get data "job_type" = Ret jt ->
  lookup_capability (capabilities s) jt = Ret cap ->
  exists job sup,
    get data "job_id" = Ret job /\
    get data "supervisor_id" = Ret sup /\
    _on_message py_str now (Document data) s =
      Run (Ret tt)
          (set_executing
             (executing s ++ [Execution job jt (default (Float 5) cap) sup])
             (set_current_job job
                (set_busy true (set_jobs_won (jobs_won s + 1) s))))
          [].
Proof.
  intros Htype Hid Hjt Hcap. as_dict data Htype.
  apply get_dict in Htype, Hid, Hjt.
  exists (default JNull (assoc "job_id" fields)),
         (default JNull (assoc "supervisor_id" fields)).
  split; [done|]. split; [done|].
  unfold _on_message. apply PyFacts.try_except_pass.
  py_run. rewrite Htype.
  change (is_str (JStr "award") "cfp") with false.
  change (is_str (JStr "award") "award") with true.
  cbn iota. unfold _handle_award. py_run.
  rewrite Hid, Hjt, is_str_same. cbn [negb].
  py_simp. cbn [capabilities set_busy set_jobs_won set_current_job].
  rewrite Hcap. by py_simp.
Qed.

(** An award that names another machine, or none, is dropped. *)
Lemma award_ignored now data s target :
  get data "type" = Ret (JStr "award") ->
  get data "machine_id" = Ret target ->
  target <> JStr (machine_id s) ->
  _on_message py_str now (Document data) s = Run (Ret tt) s [].
Proof.
  intros Htype Hid Hne. as_dict data Htype.
  apply get_dict in Htype, Hid.
  unfold _on_message. apply PyFacts.try_except_pass.
  py_run. rewrite Htype.
  change (is_str (JStr "award") "cfp") with false.
  change (is_str (JStr "award") "award") with true.
  cbn iota. unfold _handle_award. py_run.
  rewrite Hid, (is_str_other _ _ Hne). by cbn.
Qed.

(** A CfP received while idle, for a job type whose lookup gives [cap]. *)
Lemma cfp_handled now data s :
  get data "type" = Ret (JStr "cfp") ->
  exists jt job sup,
    get data "job_type" = Ret jt /\
    get data "job_id" = Ret job /\
    get data "supervisor_id" = Ret sup /\
    _on_message py_str now (Document data) s =
      if busy s then
        Run (Ret tt) s
            [Message (BidTopic sup) (JObj [
               ("type", JStr "rejection");
               ("machine_id", JStr (machine_id s));
               ("job_id", job);
               ("reason", JStr "Machine is busy");
               ("timestamp", JNum now)])]
      else
        match lookup_capability (capabilities s) jt with
        | Ret (Some execution_time) =>
            Run (Ret tt) (set_jobs_bid (jobs_bid s + 1) s)
                [Message (BidTopic sup) (JObj [
                   ("type", JStr "bid");
                   ("machine_id", JStr (machine_id s));
                   ("job_id", job);
                   ("proposed_time", JNum execution_time);
                   ("timestamp", JNum now)])]
        | Ret None =>
            Run (Ret tt) s
                [Message (BidTopic sup) (JObj [
                   ("type", JStr "rejection");
                   ("machine_id", JStr (machine_id s));
                   ("job_id", job);
                   ("reason", JStr ("Cannot perform " ++ py_str jt)%string);
                   ("timestamp", JNum now)])]
        | Raise e => Run (Raise TypeError) s []
        end.
Proof.
  intros Htype. as_dict data Htype. apply get_dict in Htype.
  exists (default JNull (assoc "job_type" fields)),
         (default JNull (assoc "job_id" fields)),
         (default JNull (assoc "supervisor_id" fields)).
  split_and!; [done..|].
  unfold _on_message, _handle_cfp, _send_rejection, _send_bid.
  destruct (busy s) eqn:Hbusy.
  - apply PyFacts.try_except_pass. py_run. rewrite Htype.
    change (is_str (JStr "cfp") "cfp") with true. cbn iota.
    py_run. rewrite Hbusy. by py_simp.
  - destruct (lookup_capability _ _) as [[t|]|e] eqn:Hcap.
    + apply PyFacts.try_except_pass. py_run. rewrite Htype.
      change (is_str (JStr "cfp") "cfp") with true. cbn iota.
      py_run. rewrite Hbusy, Hcap. by py_simp.
    + apply PyFacts.try_except_pass. py_run. rewrite Htype.
      change (is_str (JStr "cfp") "cfp") with true. cbn iota.
      py_run. rewrite Hbusy, Hcap. by py_simp.
    + assert (e = TypeError) as ->.
      { destruct (default JNull (assoc "job_type" fields)); cbn in Hcap; congruence. }
      apply PyFacts.try_except_uncaught; [|done]. py_run. rewrite Htype.
      change (is_str (JStr "cfp") "cfp") with true. cbn iota.
      py_run. rewrite Hbusy, Hcap. by py_simp.
Qed.


(** The thread started last, run from the end of its sleep. *)
Lemma wake_last now s args :
  wake now (length (executing s)) (set_executing (executing s ++ [args]) s) =
  Run (Ret tt)
      (set_jobs_completed (jobs_completed s + 1)
         (set_current_job JNull (set_busy false s)))
      [Message (CompleteTopic (supervisor_id args)) (JObj [
         ("type", JStr "completion");
         ("machine_id", JStr (machine_id s));
         ("job_id", job_id args);
         ("job_type", job_type args);
         ("execution_time", JNum (execution_time args));
         ("timestamp", JNum now)])].
Proof.
  unfold wake, _execute_job. py_simp.
  cbn [executing set_executing].
  rewrite list_lookup_middle by done. py_simp.
  cbn [executing set_executing].
  rewrite delete_middle, app_nil_r.
  by destruct s.
Qed.

(** *** The claims about the machine *)

(** C5 (as amended).  A machine whose busy flag is set answers every CfP
    with exactly one Rejection, whose reason is the text "Machine is busy",
    and never with a Bid; handling the CfP leaves every state field as it
    was. *)
Theorem busy_machine_rejects_cfp now data s :
  busy s = true ->
  get data "type" = Ret (JStr "cfp") ->
  let r := _on_message py_str now (Document data) s in
  result r = Ret tt /\
  state_after r = s /\
  List.filter is_bid (published r) = [] /\
  exists sup job,
    get data "supervisor_id" = Ret sup /\
    get data "job_id" = Ret job /\
    published r =
      [Message (BidTopic sup) (JObj [
         ("type", JStr "rejection");
         ("machine_id", JStr (machine_id s));
         ("job_id", job);
         ("reason", JStr "Machine is busy");
         ("timestamp", JNum now)])].
Proof.
  intros Hbusy Htype r. subst r.
  destruct (cfp_handled now data s Htype) as (jt & job & sup & _ & Hjob & Hsup & ->).
  rewrite Hbusy. split_and!; [done..|]. by exists sup, job.
Qed.

(** C6 (as amended).  An Award whose target machine id differs from the
    machine's own id is ignored: nothing is published and no state field
    changes.  Whether the machine bid on the job plays no part: an Award
    that names the machine is accepted for any job id, in any state. *)
Theorem award_for_another_machine_is_ignored :
  (forall now data s target,
     get data "type" = Ret (JStr "award") ->
     get data "machine_id" = Ret target ->
     target <> JStr (machine_id s) ->
     _on_message py_str now (Document data) s = Run (Ret tt) s []) /\
  (forall now data s jt cap,
     get data "type" = Ret (JStr "award") ->
     get data "machine_id" = Ret (JStr (machine_id s)) ->
     get data "job_type" = Ret jt ->
     lookup_capability (capabilities s) jt = Ret cap ->
     let r := _on_message py_str now (Document data) s in
     result r = Ret tt /\
     busy (state_after r) = true /\
     get data "job_id" = Ret (current_job (state_after r)) /\
     jobs_won (state_after r) = jobs_won s + 1).
Proof.
  split.
  - apply award_ignored.
  - intros now data s jt cap Htype Hid Hjt Hcap r. subst r.
    destruct (award_accepted now data s jt cap Htype Hid Hjt Hcap)
      as (job & sup & Hjob & _ & ->).
    by cbn.
Qed.

(** C7 (as amended).  An Award that names a machine which is already busy
    is accepted like any other: no fault is raised and the busy flag stays
    set, but the current job id is overwritten with the award's job id,
    [jobs_won] grows by one and a further execution is started. *)
Theorem award_while_busy_is_accepted now data s jt cap :
  busy s = true ->
  get data "type" = Ret (JStr "award") ->
  get data "machine_id" = Ret (JStr (machine_id s)) ->
  get data "job_type" = Ret jt ->
  lookup_capability (capabilities s) jt = Ret cap ->
  let r := _on_message py_str now (Document data) s in
  result r = Ret tt /\
  published r = [] /\
  busy (state_after r) = true /\
  jobs_won (state_after r) = jobs_won s + 1 /\
  exists job sup,
    get data "job_id" = Ret job /\
    get data "supervisor_id" = Ret sup /\
    current_job (state_after r) = job /\
    executing (state_after r) =
      (executing s ++ [Execution job jt (default (Float 5) cap) sup])%list.
Proof.
  intros _ Htype Hid Hjt Hcap r. subst r.
  destruct (award_accepted now data s jt cap Htype Hid Hjt Hcap)
    as (job & sup & Hjob & Hsup & ->).
  split_and!; [done..|]. by exists job, sup.
Qed.

(** C9.  An idle machine whose capability table contains the job type of a
    CfP publishes exactly one message, a Bid whose proposed duration is the
    table's entry for that job type; only [jobs_bid] changes, and the busy
    flag is still false afterwards. *)
Theorem idle_capable_machine_bids now data s kind d :
  busy s = false ->
  get data "type" = Ret (JStr "cfp") ->
  get data "job_type" = Ret (JStr kind) ->
  capabilities s !! kind = Some d ->
  let r := _on_message py_str now (Document data) s in
  result r = Ret tt /\
  state_after r = set_jobs_bid (jobs_bid s + 1) s /\
  busy (state_after r) = false /\
  length (published r) = 1 /\
  List.filter is_bid (published r) = published r /\
  exists sup job,
    get data "supervisor_id" = Ret sup /\
    get data "job_id" = Ret job /\
    published r =
      [Message (BidTopic sup) (JObj [
         ("type", JStr "bid");
         ("machine_id", JStr (machine_id s));
         ("job_id", job);
         ("proposed_time", JNum d);
         ("timestamp", JNum now)])].
Proof.
  intros Hidle Htype Hjt Hcap r. subst r.
  destruct (cfp_handled now data s Htype) as (jt' & job & sup & Hjt' & Hjob & Hsup & ->).
  assert (jt' = JStr kind) as -> by congruence.
  cbn [lookup_capability]. rewrite Hidle, Hcap.
  split_and!; [done..|]. by exists sup, job.
Qed.

(** C10.  An idle machine that accepts an Award whose job type is not in
    its capability table still starts the execution, with an execution time
    of 5.0 seconds, and the Completion notice of that execution reports 5.0
    as the execution time. *)
Theorem unlisted_job_type_runs_five_seconds now later data s jt :
  busy s = false ->
  get data "type" = Ret (JStr "award") ->
  get data "machine_id" = Ret (JStr (machine_id s)) ->
  get data "job_type" = Ret jt ->
  lookup_capability (capabilities s) jt = Ret None ->
  let r := _on_message py_str now (Document data) s in
  let done := wake later (length (executing s)) (state_after r) in
  result r = Ret tt /\
  busy (state_after r) = true /\
  (exists thread,
     executing (state_after r) = (executing s ++ [thread])%list /\
     job_type thread = jt /\
     execution_time thread = 5%Q) /\
  result done = Ret tt /\
  busy (state_after done) = false /\
  exists sup completion,
    published done = [Message (CompleteTopic sup) completion] /\
    get completion "type" = Ret (JStr "completion") /\
    get completion "job_type" = Ret jt /\
    get completion "execution_time" = Ret (JNum 5).
Proof.
  intros _ Htype Hid Hjt Hcap r done. subst r done.
  destruct (award_accepted now data s jt None Htype Hid Hjt Hcap)
    as (job & sup & Hjob & Hsup & ->).
  cbn [result state_after published].
  split; [done|]. split; [done|]. split; [by eexists|].
  set (s1 := set_current_job job (set_busy true (set_jobs_won (jobs_won s + 1) s))).
  change (executing s) with (executing s1).
  rewrite wake_last. cbn [result state_after published].
  split; [done|]. split; [done|]. by eexists _, _.
Qed.

(** C8, at the failing input: a payload that is valid JSON but not an
    object (here the empty array) makes the callback of either agent end
    in an [AttributeError]. *)
Theorem array_payload_raises :
  (forall now s,
     _on_message py_str now (Document (JArr [])) s = Run (Raise AttributeError) s []) /\
  (forall now s,
     Supervisor._on_message now (Document (JArr []))
       (Supervisor.set_collecting_bids true s) =
     Run (Raise AttributeError) (Supervisor.set_collecting_bids true s) []).
Proof. split; reflexivity. Qed.

(** The parts of C8 that hold: text that is not JSON is dropped by both
    agents, and the supervisor drops an object that lacks a field of a bid. *)
Lemma unparseable_payload_is_dropped :
  (forall now s, _on_message py_str now Unparseable s = Run (Ret tt) s []) /\
  (forall now s, Supervisor._on_message now Unparseable s = Run (Ret tt) s []).
Proof.
  split; [reflexivity|]. intros now s. unfold Supervisor._on_message. py_simp.
  by destruct (Supervisor.collecting_bids s).
Qed.

End Handlers.

(** *** The claims at the scenarios *)

Lemma busy_machine_rejects_cfp_witness :
  let s := Scenario.busy_machine in
  let r := _on_message str_plain 113.2 (Document Scenario.cfp) s in
  busy s = true /\
  get Scenario.cfp "type" = Ret (JStr "cfp") /\
  result r = Ret tt /\
  state_after r = s /\
  List.filter is_bid (published r) = [] /\
  exists sup job,
    get Scenario.cfp "supervisor_id" = Ret sup /\
    get Scenario.cfp "job_id" = Ret job /\
    published r =
      [Message (BidTopic sup) (JObj [
         ("type", JStr "rejection");
         ("machine_id", JStr (machine_id s));
         ("job_id", job);
         ("reason", JStr "Machine is busy");
         ("timestamp", JNum 113.2)])].
Proof.
  intros s r.
  assert (busy s = true) as Hbusy by reflexivity.
  assert (get Scenario.cfp "type" = Ret (JStr "cfp")) as Htype by reflexivity.
  split; [exact Hbusy|]. split; [exact Htype|].
  exact (busy_machine_rejects_cfp str_plain 113.2 Scenario.cfp s Hbusy Htype).
Defined.

(** C5 as stated fails on the text of the reason: the Rejection of a busy
    machine carries "Machine is busy", which is not the string
    "machine is busy". *)
Lemma busy_reason_is_capitalised :
  let s := Scenario.busy_machine in
  let r := _on_message str_plain 113.2 (Document Scenario.cfp) s in
  busy s = true /\
  map (fun m => get (body m) "reason") (published r) = [Ret (JStr "Machine is busy")] /\
  map (fun m => get (body m) "reason") (published r) <> [Ret (JStr "machine is busy")].
Proof. split_and!; [reflexivity..|]. vm_compute. discriminate. Qed.

Lemma award_for_another_machine_is_ignored_witness :
  let s := Scenario.other_machine in
  get Scenario.award "type" = Ret (JStr "award") /\
  get Scenario.award "machine_id" = Ret (JStr "machine_1") /\
  JStr "machine_1" <> JStr (machine_id s) /\
  _on_message str_plain 103.1 (Document Scenario.award) s = Run (Ret tt) s [].
Proof.
  intros s.
  assert (get Scenario.award "type" = Ret (JStr "award")) as Htype by reflexivity.
  assert (get Scenario.award "machine_id" = Ret (JStr "machine_1")) as Hid
    by reflexivity.
  assert (JStr "machine_1" <> JStr (machine_id s)) as Hne by discriminate.
  split; [exact Htype|]. split; [exact Hid|]. split; [exact Hne|].
  exact (proj1 (award_for_another_machine_is_ignored str_plain)
           103.1%Q Scenario.award s (JStr "machine_1") Htype Hid Hne).
Defined.

(** C6 as stated fails on its second case: a machine that has just
    started, and so has bid on no job at all, receives an Award that names
    it; it does not ignore the Award but becomes busy with the job. *)
Lemma award_without_bid_is_accepted :
  let s := Scenario.machine in
  let r := _on_message str_plain 103.1 (Document Scenario.award) s in
  jobs_bid s = 0 /\
  busy s = false /\
  get Scenario.award "machine_id" = Ret (JStr (machine_id s)) /\
  state_after r <> s /\
  busy (state_after r) = true /\
  current_job (state_after r) = JStr "job_1a2b3c4d" /\
  jobs_won (state_after r) = 1 /\
  length (executing (state_after r)) = 1.
Proof. split_and!; try reflexivity. vm_compute. discriminate. Qed.

Lemma award_while_busy_is_accepted_witness :
  let s := Scenario.busy_machine in
  let r := _on_message str_plain 103.2 (Document Scenario.award) s in
  busy s = true /\
  get Scenario.award "type" = Ret (JStr "award") /\
  get Scenario.award "machine_id" = Ret (JStr (machine_id s)) /\
  get Scenario.award "job_type" = Ret (JStr "job_A") /\
  lookup_capability (capabilities s) (JStr "job_A") = Ret (Some (Float 5)) /\
  result r = Ret tt /\
  published r = [] /\
  busy (state_after r) = true /\
  jobs_won (state_after r) = jobs_won s + 1 /\
  exists job sup,
    get Scenario.award "job_id" = Ret job /\
    get Scenario.award "supervisor_id" = Ret sup /\
    current_job (state_after r) = job /\
    executing (state_after r) = executing s ++ [Execution job (JStr "job_A") 5 sup].
Proof.
  intros s r.
  assert (busy s = true) as Hbusy by reflexivity.
  assert (get Scenario.award "type" = Ret (JStr "award")) as Htype by reflexivity.
  assert (get Scenario.award "machine_id" = Ret (JStr (machine_id s))) as Hid
    by reflexivity.
  assert (get Scenario.award "job_type" = Ret (JStr "job_A")) as Hjt by reflexivity.
  assert (lookup_capability (capabilities s) (JStr "job_A") = Ret (Some (Float 5))) as Hcap
    by reflexivity.
  split; [exact Hbusy|]. split; [exact Htype|]. split; [exact Hid|].
  split; [exact Hjt|]. split; [exact Hcap|].
  exact (award_while_busy_is_accepted str_plain 103.2 Scenario.award s
           (JStr "job_A") (Some (Float 5)) Hbusy Htype Hid Hjt Hcap).
Defined.

(** C7 as stated fails: the Award of the job that a busy machine is
    executing is delivered a second time; the machine counts a second win
    and starts a second execution, and when the first execution ends the
    machine is idle again although the second one is still running. *)
Lemma duplicate_award_starts_second_execution :
  let s := Scenario.busy_machine in
  let r := _on_message str_plain 103.2 (Document Scenario.award) s in
  let first_done := wake 108.1 0 (state_after r) in
  busy s = true /\
  current_job s = JStr "job_1a2b3c4d" /\
  jobs_won s = 1 /\
  length (executing s) = 1 /\
  state_after r <> s /\
  jobs_won (state_after r) = 2 /\
  length (executing (state_after r)) = 2 /\
  busy (state_after first_done) = false /\
  length (executing (state_after first_done)) = 1.
Proof. split_and!; try reflexivity. vm_compute. discriminate. Qed.

Lemma idle_capable_machine_bids_witness :
  let s := Scenario.machine in
  let r := _on_message str_plain 113.2 (Document Scenario.cfp) s in
  busy s = false /\
  get Scenario.cfp "type" = Ret (JStr "cfp") /\
  get Scenario.cfp "job_type" = Ret (JStr "job_B") /\
  capabilities s !! "job_B" = Some (Float 3) /\
  result r = Ret tt /\
  state_after r = set_jobs_bid (jobs_bid s + 1) s /\
  busy (state_after r) = false /\
  length (published r) = 1 /\
  List.filter is_bid (published r) = published r /\
  exists sup job,
    get Scenario.cfp "supervisor_id" = Ret sup /\
    get Scenario.cfp "job_id" = Ret job /\
    published r =
      [Message (BidTopic sup) (JObj [
         ("type", JStr "bid");
         ("machine_id", JStr (machine_id s));
         ("job_id", job);
         ("proposed_time", JNum 3);
         ("timestamp", JNum 113.2)])].
Proof.
  intros s r.
  assert (busy s = false) as Hidle by reflexivity.
  assert (get Scenario.cfp "type" = Ret (JStr "cfp")) as Htype by reflexivity.
  assert (get Scenario.cfp "job_type" = Ret (JStr "job_B")) as Hjt by reflexivity.
  assert (capabilities s !! "job_B" = Some (Float 3)) as Hcap by reflexivity.
  split; [exact Hidle|]. split; [exact Htype|]. split; [exact Hjt|].
  split; [exact Hcap|].
  exact (idle_capable_machine_bids str_plain 113.2 Scenario.cfp s "job_B" 3
           Hidle Htype Hjt Hcap).
Defined.

Lemma unlisted_job_type_runs_five_seconds_witness :
  let s := Scenario.machine in
  let data := Scenario.unlisted_award in
  let r := _on_message str_plain 123.1 (Document data) s in
  let done := wake 128.1 (length (executing s)) (state_after r) in
  busy s = false /\
  get data "type" = Ret (JStr "award") /\
  get data "machine_id" = Ret (JStr (machine_id s)) /\
  get data "job_type" = Ret (JStr "job_E") /\
  lookup_capability (capabilities s) (JStr "job_E") = Ret None /\
  result r = Ret tt /\
  busy (state_after r) = true /\
  (exists thread,
     executing (state_after r) = executing s ++ [thread] /\
     job_type thread = JStr "job_E" /\
     execution_time thread = 5%Q) /\
  result done = Ret tt /\
  busy (state_after done) = false /\
  exists sup completion,
    published done = [Message (CompleteTopic sup) completion] /\
    get completion "type" = Ret (JStr "completion") /\
    get completion "job_type" = Ret (JStr "job_E") /\
    get completion "execution_time" = Ret (JNum 5).
Proof.
  intros s data r done.
  assert (busy s = false) as Hidle by reflexivity.
  assert (get data "type" = Ret (JStr "award")) as Htype by reflexivity.
  assert (get data "machine_id" = Ret (JStr (machine_id s))) as Hid by reflexivity.
  assert (get data "job_type" = Ret (JStr "job_E")) as Hjt by reflexivity.
  assert (lookup_capability (capabilities s) (JStr "job_E") = Ret None) as Hcap
    by reflexivity.
  split; [exact Hidle|]. split; [exact Htype|]. split; [exact Hid|].
  split; [exact Hjt|]. split; [exact Hcap|].
  exact (unlisted_job_type_runs_five_seconds str_plain 123.1 128.1 data s
           (JStr "job_E") Hidle Htype Hid Hjt Hcap).
Defined.

End MachineSpec.

(** * Further properties of the supervisor *)

Module SupervisorMore.
Import Py Supervisor.

(** ** The callback, message by message *)

Lemma is_str_true v s : is_str v s = true -> v = JStr s.
Proof.
  destruct v; try discriminate. cbn. intros H. by apply String.eqb_eq in H as ->.
Qed.

Lemma is_str_false v s : is_str v s = false -> v <> JStr s.
Proof. intros H ->. cbn in H. by rewrite String.eqb_refl in H. Qed.

Lemma try_except_drop {S} (body : M S unit) caught s e :
  body s = Run (Raise e) s [] -> caught e = true ->
  try_except body caught (ret tt) s = Run (Ret tt) s [].
Proof. intros E Hc. by rewrite (PyFacts.try_except_caught _ _ _ _ _ _ E Hc). Qed.

Ltac sup_run :=
  repeat progress (cbn [loads get get_or item]; py_simp).

(** What [_on_message] does with an object while bids are collected for
    [job], case by case. *)
Lemma on_message_object now fields s job :
  collecting_bids s = true ->
  current_job s = Some job ->
  _on_message now (Document (JObj fields)) s =
  if negb (is_str (default JNull (assoc "job_id" fields)) (Job.job_id job)) then
    Run (Ret tt) s []
  else if is_str (default JNull (assoc "type" fields)) "rejection" then
    Run (Ret tt) s []
  else
    match assoc "machine_id" fields, assoc "job_id" fields,
          assoc "proposed_time" fields with
    | Some machine_id, Some job_id, Some proposed_time =>
        let timestamp := default (JNum now) (assoc "timestamp" fields) in
        Run (Ret tt)
            (set_bids (bids s ++ [Bid.Make machine_id job_id proposed_time timestamp]) s)
            []
    | _, _, _ => Run (Ret tt) s []
    end.
Proof.
  intros Hc Hjob. unfold _on_message, current_job_id. py_simp. rewrite Hc. cbn [negb].
  destruct (negb (is_str _ _)) eqn:Hid.
  { apply PyFacts.try_except_pass. sup_run. rewrite Hjob. sup_run. by rewrite Hid. }
  destruct (is_str (default JNull (assoc "type" fields)) _) eqn:Hty.
  { apply PyFacts.try_except_pass. sup_run. rewrite Hjob. sup_run.
    rewrite Hid. sup_run. by rewrite Hty. }
  destruct (assoc "machine_id" fields) as [mid|] eqn:Hm.
  2:{ apply (try_except_drop _ _ _ (KeyError "machine_id")); [|done].
      sup_run. rewrite Hjob. sup_run. rewrite Hid. sup_run. rewrite Hty, Hm.
      by sup_run. }
  destruct (assoc "job_id" fields) as [jid|] eqn:Hj; [|by cbn in Hid].
  change (default JNull (Some jid)) with jid in Hid.
  destruct (assoc "proposed_time" fields) as [pt|] eqn:Hp.
  - apply PyFacts.try_except_pass.
    sup_run. rewrite Hjob. sup_run. rewrite Hj.
    change (default JNull (Some jid)) with jid. rewrite Hid. sup_run. rewrite ?Hty, ?Hm, ?Hj, ?Hp. by sup_run.
  - apply (try_except_drop _ _ _ (KeyError "proposed_time")); [|done].
    sup_run. rewrite Hjob. sup_run. rewrite Hj.
    change (default JNull (Some jid)) with jid. rewrite Hid. sup_run. rewrite ?Hty, ?Hm, ?Hj, ?Hp. by sup_run.
Qed.


(** What [_on_message] does with anything that is not an object. *)
Lemma on_message_not_object now msg s :
  collecting_bids s = true ->
  (forall fields, msg <> Document (JObj fields)) ->
  _on_message now msg s =
  match msg with
  | Undecodable => Run (Raise UnicodeDecodeError) s []
  | Unparseable => Run (Ret tt) s []
  | Oversized => Run (Raise ValueError) s []
  | Overnested => Run (Raise RecursionError) s []
  | Document _ => Run (Raise AttributeError) s []
  end.
Proof.
  intros Hc Hno. unfold _on_message. py_simp. rewrite Hc. cbn [negb].
  destruct msg as [| | | |v].
  - apply PyFacts.try_except_uncaught; [|done]. by sup_run.
  - apply (try_except_drop _ _ _ JSONDecodeError); [|done]. by sup_run.
  - apply PyFacts.try_except_uncaught; [|done]. by sup_run.
  - apply PyFacts.try_except_uncaught; [|done]. by sup_run.
  - apply PyFacts.try_except_uncaught; [|done].
    destruct v; try (by sup_run). by destruct (Hno fields).
Qed.

Lemma on_message_no_job now fields s :
  collecting_bids s = true ->
  current_job s = None ->
  _on_message now (Document (JObj fields)) s = Run (Raise AttributeError) s [].
Proof.
  intros Hc Hjob. unfold _on_message, current_job_id. py_simp. rewrite Hc. cbn [negb].
  apply PyFacts.try_except_uncaught; [|done]. sup_run. rewrite Hjob. by sup_run.
Qed.

Lemma object_or_not msg :
  (exists fields, msg = Document (JObj fields)) \/
  (forall fields, msg <> Document (JObj fields)).
Proof.
  destruct msg as [| | | |v]; [by right..|].
  destruct v; try (by right). left. by eexists.
Qed.

(** X1.  While bids are collected for a job, an object that names that
    job, is not of type "rejection" and has the keys [machine_id] and
    [proposed_time] is appended to the bid list as it is: the three fields
    are copied, the timestamp is the message's or, when it has none, the
    clock reading of the callback.  The type need not be "bid". *)
Theorem matching_bid_is_appended (now : Q) fields s job machine_id proposed_time :
  collecting_bids s = true ->
  current_job s = Some job ->
  get (JObj fields) "job_id" = Ret (JStr (Job.job_id job)) ->
  get (JObj fields) "type" <> Ret (JStr "rejection") ->
  item (JObj fields) "machine_id" = Ret machine_id ->
  item (JObj fields) "proposed_time" = Ret proposed_time ->
  exists timestamp,
    get_or (JObj fields) "timestamp" (JNum now) = Ret timestamp /\
    (assoc "timestamp" fields = None -> timestamp = JNum now) /\
    _on_message now (Document (JObj fields)) s =
      Run (Ret tt)
          (set_bids
             (bids s ++
                [Bid.Make machine_id (JStr (Job.job_id job)) proposed_time timestamp])
             s)
          [].
Proof.
  intros Hc Hjob Hid Hty Hm Hp.
  exists (default (JNum now) (assoc "timestamp" fields)).
  split; [done|]. split; [by intros ->|].
  rewrite (on_message_object now fields s job Hc Hjob).
  cbn in Hid, Hty, Hm, Hp.
  assert (default JNull (assoc "job_id" fields) = JStr (Job.job_id job)) as Hid'
    by congruence.
  rewrite Hid'. cbn [is_str]. rewrite String.eqb_refl. cbn [negb].
  destruct (is_str (default JNull (assoc "type" fields)) "rejection") eqn:Hr.
  { apply is_str_true in Hr. congruence. }
  destruct (assoc "machine_id" fields) as [m|]; [|done].
  destruct (assoc "job_id" fields) as [j|]; [|done].
  destruct (assoc "proposed_time" fields) as [p|]; [|done].
  cbn in Hid'. congruence.
Qed.

(** X2.  While a job is open, an object is dropped without any effect and
    without a fault when it names another job or none, when its type is
    "rejection", or when it lacks [machine_id] or [proposed_time]. *)
Theorem unfit_object_is_dropped now fields s job :
  current_job s = Some job ->
  get (JObj fields) "job_id" <> Ret (JStr (Job.job_id job)) \/
  get (JObj fields) "type" = Ret (JStr "rejection") \/
  item (JObj fields) "machine_id" = Raise (KeyError "machine_id") \/
  item (JObj fields) "proposed_time" = Raise (KeyError "proposed_time") ->
  _on_message now (Document (JObj fields)) s = Run (Ret tt) s [].
Proof.
  intros Hjob Hcase.
  destruct (collecting_bids s) eqn:Hc;
    [|by apply SupervisorSpec.on_message_closed].
  rewrite (on_message_object now fields s job Hc Hjob).
  destruct (negb (is_str _ _)) eqn:Hid; [done|].
  destruct (is_str (default JNull (assoc "type" fields)) _) eqn:Hty; [done|].
  apply negb_false_iff, is_str_true in Hid. apply is_str_false in Hty.
  cbn in Hcase.
  destruct Hcase as [H|[H|[H|H]]]; [congruence|congruence| |].
  - by destruct (assoc "machine_id" fields).
  - destruct (assoc "machine_id" fields); [|done].
    destruct (assoc "job_id" fields); [|done].
    by destruct (assoc "proposed_time" fields).
Qed.

(** X3.  While bids are collected, the callback ends in an exception that
    nothing catches when the payload is not UTF-8 ([UnicodeDecodeError]),
    when the decoder gives up on an integer literal of more than 4300
    digits ([ValueError]) or on the depth of the nesting
    ([RecursionError]), and when the payload is a JSON value that is not an
    object, or an object while no job is set ([AttributeError]).  In each
    of these cases the state is as before and nothing is published.  Text
    that is not a JSON document raises nothing and is dropped. *)
Theorem callback_fault_cases now s :
  collecting_bids s = true ->
  _on_message now Undecodable s = Run (Raise UnicodeDecodeError) s [] /\
  _on_message now Oversized s = Run (Raise ValueError) s [] /\
  _on_message now Overnested s = Run (Raise RecursionError) s [] /\
  _on_message now Unparseable s = Run (Ret tt) s [] /\
  (forall v, (forall fields, v <> JObj fields) ->
     _on_message now (Document v) s = Run (Raise AttributeError) s []) /\
  (forall fields, current_job s = None ->
     _on_message now (Document (JObj fields)) s = Run (Raise AttributeError) s []).
Proof.
  intros Hc. split_and!.
  - by rewrite (on_message_not_object now Undecodable s Hc).
  - by rewrite (on_message_not_object now Oversized s Hc).
  - by rewrite (on_message_not_object now Overnested s Hc).
  - by rewrite (on_message_not_object now Unparseable s Hc).
  - intros v Hv. rewrite (on_message_not_object now (Document v) s Hc); [done|].
    intros fields [= ->]. by destruct (Hv fields).
  - intros fields Hjob. by apply on_message_no_job.
Qed.

(** X4.  Whatever the payload and the state, the callback publishes
    nothing and leaves the identity, the configuration, the current job,
    the collecting flag and the three counters alone; the bid list keeps
    its bids in place and grows by at most one bid at the end. *)
Theorem callback_only_appends now msg s :
  let s' := state_after (_on_message now msg s) in
  published (_on_message now msg s) = [] /\
  supervisor_id s' = supervisor_id s /\
  job_interval s' = job_interval s /\
  deadline s' = deadline s /\
  current_job s' = current_job s /\
  collecting_bids s' = collecting_bids s /\
  jobs_created s' = jobs_created s /\
  jobs_allocated s' = jobs_allocated s /\
  jobs_failed s' = jobs_failed s /\
  (bids s' = bids s \/ exists b, bids s' = bids s ++ [b]).
Proof.
  intros s'. subst s'.
  destruct (SupervisorSpec.on_message_cases now msg s) as [-> [->|[b ->]]].
  - split_and!; try done. by left.
  - split_and!; try done. right. by exists b.
Qed.

(** ** The bid set of an auction *)




(** ** The outcome of an auction with bids *)

Lemma send_award_messages clock w job s :
  exists award,
    _send_award clock w job s =
      Run (Ret tt) s
          (Message (AwardTopic (Bid.machine_id w)) award ::
           rejections (fun i => clock (S i)) w job s (bids s)) /\
    get award "type" = Ret (JStr "award") /\
    get award "supervisor_id" = Ret (JStr (supervisor_id s)) /\
    get award "job_id" = Ret (JStr (Job.job_id job)) /\
    get award "job_type" = Ret (JStr (Job.job_type job)) /\
    get award "machine_id" = Ret (Bid.machine_id w) /\
    get award "timestamp" = Ret (JNum (clock 0%nat)).
Proof.
  eexists. split.
  - unfold _send_award, announce_winner. py_simp.
    rewrite SupervisorSpec.reject_others_run. reflexivity.
  - by split_and!.
Qed.


Lemma eq_string v name : eq v (JStr name) = true <-> v = JStr name.
Proof.
  destruct v; cbn; try (split; [discriminate|congruence]).
  - destruct b; cbn; split; discriminate || congruence.
  - rewrite String.eqb_eq. split; congruence.
Qed.

Lemma reject_topic_name (str : json -> string) a b :
  ("jobs/reject/" ++ a)%string = ("jobs/reject/" ++ b)%string -> a = b.
Proof. intros H. by injection H. Qed.

(** X8.  The loop of [_send_award] that rejects the other bidders, on
    whatever the bid list is when it takes the lock, for a selected bid
    whose machine id is the text [name] and bids whose machine ids are
    texts, as [machine.py] sends them.  The loop ends normally and changes
    no field.  No Rejection is routed to the reject topic of [name], even
    if that machine had further bids in the list; every bid of a machine
    with another name is answered by a Rejection on that machine's reject
    topic, stamped with the clock reading of its own turn. *)
Theorem only_the_losers_are_rejected (py_str : json -> string) times w job s name :
  (forall t, py_str (JStr t) = t) ->
  Bid.machine_id w = JStr name ->
  Forall (fun b => exists other, Bid.machine_id b = JStr other) (bids s) ->
  let r := reject_others times w job s in
  result r = Ret tt /\
  state_after r = s /\
  (forall m, m ∈ published r ->
     topic_name py_str (topic_of m) <> ("jobs/reject/" ++ name)%string) /\
  (forall i b other,
     bids s !! i = Some b -> Bid.machine_id b = JStr other -> other <> name ->
     reject_message (times i) job s b ∈ published r /\
     topic_name py_str (topic_of (reject_message (times i) job s b)) =
       ("jobs/reject/" ++ other)%string /\
     get (body (reject_message (times i) job s b)) "timestamp" = Ret (JNum (times i))).
Proof.
  intros Hstr Hname Htexts r. subst r. rewrite SupervisorSpec.reject_others_run.
  cbn [result state_after published]. split; [done|]. split; [done|]. split.
  - intros m (i & b & Hl & Hne & ->)%SupervisorSpec.elem_of_rejections.
    rewrite Forall_forall in Htexts.
    destruct (Htexts b) as [other Hother]; [by eapply list_elem_of_lookup_2|].
    cbn [topic_of reject_message topic_name]. rewrite Hother, Hstr.
    intros Heq%(reject_topic_name py_str). subst other.
    rewrite Hother, Hname in Hne.
    by rewrite (proj2 (eq_string _ _) eq_refl) in Hne.
  - intros i b other Hl Hother Hne. split_and!.
    + apply SupervisorSpec.elem_of_rejections. exists i, b. split_and!; [done| |done].
      rewrite Hother, Hname.
      destruct (eq (JStr other) (JStr name)) eqn:Heq; [|done].
      apply eq_string in Heq. congruence.
    + cbn [topic_of reject_message topic_name]. by rewrite Hother, Hstr.
    + done.
Qed.

(** X9.  When the proposed times of the bid set cannot be compared (a
    number and a text, say), [min] raises and so does [_run_auction]:
    neither an Award nor a Rejection is published, no counter moves, and
    the supervisor is left with the job still current and the collecting
    flag cleared. *)
Theorem incomparable_bids_abort_the_auction start finish job net s e :
  collected start job net s <> [] ->
  min Bid.proposed_time (collected start job net s) = Raise e ->
  let r := _run_auction start finish job net s in
  result r = Raise e /\
  List.filter is_award (published r) = [] /\
  List.filter is_reject (published r) = [] /\
  jobs_allocated (state_after r) = jobs_allocated s /\
  jobs_failed (state_after r) = jobs_failed s /\
  current_job (state_after r) = Some job /\
  collecting_bids (state_after r) = false /\
  bids (state_after r) = collected start job net s.
Proof.
  intros Hne Hmin r. subst r. unfold collected in *.
  rewrite SupervisorSpec.run_auction_outcome.
  set (sd := state_after (at_deadline start job net s)) in *.
  destruct (bids sd) as [|b0 l] eqn:Hbids; [done|]. rewrite Hmin.
  destruct (SupervisorSpec.send_cfp_published start job s) as [cfp ->].
  subst sd. destruct (SupervisorSpec.at_deadline_state start job net s) as [l' Hsd].
  rewrite Hsd in *. by cbn.
Qed.


(** ** The job generator and the main loop *)

Lemma substring_length m : forall s,
  String.length (String.substring 0 m s) = Nat.min m (String.length s).
Proof.
  induction m as [|m IH]; intros [|c s]; cbn; try done. by rewrite IH.
Qed.

Lemma generate_job_run draw hex now s :
  _generate_job draw hex now s =
  Run (Ret (Job.Make ("job_" ++ String.substring 0 8 hex)%string
                     (JOB_TYPES !!! (draw mod length JOB_TYPES)%nat)
                     ("Execute " ++ JOB_TYPES !!! (draw mod length JOB_TYPES)%nat
                        ++ " operation")%string
                     now))
      (set_jobs_created (jobs_created s + 1) s) [].
Proof. unfold _generate_job. by py_simp. Qed.

(** X10.  [_generate_job] returns a job and only counts it in
    [jobs_created].  The job type is always one of the five of
    [JOB_TYPES]; the job id is "job_" followed by the first eight
    characters of the UUID, so 12 characters long for a UUID of 32, and two
    UUIDs that differ within their first eight characters give different
    job ids. *)
Theorem generated_job draw hex now s :
  exists job,
    _generate_job draw hex now s =
      Run (Ret job) (set_jobs_created (jobs_created s + 1) s) [] /\
    Job.job_type job ∈ JOB_TYPES /\
    String.prefix "job_" (Job.job_id job) = true /\
    String.length (Job.job_id job) = 4 + Nat.min 8 (String.length hex) /\
    (forall draw' hex' now' s' job',
       result (_generate_job draw' hex' now' s') = Ret job' ->
       String.substring 0 8 hex' <> String.substring 0 8 hex ->
       Job.job_id job' <> Job.job_id job).
Proof.
  eexists. split; [apply generate_job_run|].
  cbn [Job.job_type Job.job_id]. split_and!.
  - pose proof (Nat.mod_upper_bound draw (length JOB_TYPES)) as Hlt.
    destruct (draw mod length JOB_TYPES)%nat as [|[|[|[|[|n]]]]];
      [cbn; set_solver..|]. cbn in Hlt. lia.
  - cbn. by destruct (String.substring 0 8 hex).
  - change (String.length ("job_" ++ String.substring 0 8 hex)%string)
      with (4 + String.length (String.substring 0 8 hex)).
    by rewrite substring_length.
  - intros draw' hex' now' s' job'. rewrite generate_job_run. cbn [result].
    intros [= <-] Hne. cbn. intros [= Heq]. by apply Hne.
Qed.

Lemma count_rejections {A} (f : message -> bool) (g : A -> message) (l : list A) :
  (forall x, f (g x) = false) -> List.filter f (map g l) = [].
Proof. intros Hf. induction l as [|x l IH]; cbn; [done|]. by rewrite Hf. Qed.

(** One turn of the loop: the counters and the messages on either outcome. *)
Lemma run_cycle_outcome c s :
  let r := run_cycle c s in
  jobs_created (state_after r) = jobs_created s + 1 /\
  length (List.filter is_cfp (published r)) = 1 /\
  (result r = Ret tt /\
   (jobs_allocated (state_after r) = jobs_allocated s + 1 /\
    jobs_failed (state_after r) = jobs_failed s /\
    length (List.filter is_award (published r)) = 1 \/
    jobs_allocated (state_after r) = jobs_allocated s /\
    jobs_failed (state_after r) = jobs_failed s + 1 /\
    length (List.filter is_award (published r)) = 0) \/
   (exists e, result r = Raise e) /\
   jobs_allocated (state_after r) = jobs_allocated s /\
   jobs_failed (state_after r) = jobs_failed s /\
   length (List.filter is_award (published r)) = 0).
Proof.
  intros r. subst r. unfold run_cycle.
  rewrite (PyFacts.bind_quiet _ _ _ _ _ (generate_job_run _ _ _ _)).
  set (job := Job.Make _ _ _ _).
  set (s1 := set_jobs_created (jobs_created s + 1) s).
  unfold bind. rewrite SupervisorSpec.run_auction_outcome.
  destruct (SupervisorSpec.send_cfp_published (started_at c) job s1) as [cfp ->].
  destruct (SupervisorSpec.at_deadline_state (started_at c) job (net c) s1) as [l ->].
  cbn [bids set_bids].
  destruct l as [|b0 l].
  - cbn [result state_after published].
    rewrite SupervisorSpec.deliver_closed by done.
    cbn. split_and!; try done. left. split; [done|]. right. by split_and!.
  - destruct (min Bid.proposed_time (b0 :: l)) as [w|e].
    + cbn [result state_after published].
      rewrite SupervisorSpec.deliver_closed by done.
      match goal with
      | |- context [_send_award ?t w job ?st] =>
          destruct (send_award_messages t w job st) as (award & -> & _)
      end.
      cbn [result state_after published app List.filter is_cfp is_award topic_of].
      rewrite app_nil_r. unfold rejections.
      rewrite !count_rejections by done.
      cbn. split_and!; try done. left. split; [done|]. left. by split_and!.
    + cbn. split_and!; try done. right. split; [by exists e|]. by split_and!.
Qed.

(** X11.  Over any number of turns of the main loop, [jobs_created]
    counts the CfPs published and [jobs_allocated] the Awards published.
    If the loop starts with every created job accounted for as allocated
    or failed, then it stays so after each full turn; when an auction
    raises, the loop ends with exactly one created job unaccounted for. *)
Theorem loop_accounting cycles : forall s,
  jobs_created s = jobs_allocated s + jobs_failed s ->
  let r := run_loop cycles s in
  jobs_created (state_after r) =
    jobs_created s + length (List.filter is_cfp (published r)) /\
  jobs_allocated (state_after r) =
    jobs_allocated s + length (List.filter is_award (published r)) /\
  (result r = Ret tt ->
   jobs_created (state_after r) = jobs_created s + length cycles /\
   jobs_created (state_after r) =
     jobs_allocated (state_after r) + jobs_failed (state_after r)) /\
  (forall e, result r = Raise e ->
   jobs_created (state_after r) =
     jobs_allocated (state_after r) + jobs_failed (state_after r) + 1).
Proof.
  unfold run_loop.
  induction cycles as [|c cycles IH]; intros s Hacc; cbn [for_each].
  - cbn. split_and!; try done; lia.
  - destruct (run_cycle_outcome c s) as (Hcr & Hcfp & Hcase). cbn zeta in *.
    unfold bind.
    destruct Hcase as [[Hres Hcount]|[[e Hres] Hcount]]; rewrite Hres.
    + destruct (IH (state_after (run_cycle c s))) as (IH1 & IH2 & IH3 & IH4);
        [destruct Hcount as [(?&?&?)|(?&?&?)]; lia|].
      cbn zeta in *. cbn [result state_after published length].
      rewrite !List.filter_app, !length_app.
      split_and!.
      * lia.
      * destruct Hcount as [(?&?&?)|(?&?&?)]; lia.
      * intros Hok. destruct (IH3 Hok). lia.
      * intros e He. specialize (IH4 e He). lia.
    + cbn [result state_after published length].
      destruct Hcount as (?&?&?).
      split_and!; [lia|lia|done|intros e' _; lia].
Qed.


(** ** The properties at the scenarios *)

Lemma matching_bid_is_appended_witness :
  let s := Scenario.collecting in
  let fields :=
    [("machine_id", JStr "machine_1"); ("job_id", JStr "job_1a2b3c4d");
     ("proposed_time", JNum 5)] in
  collecting_bids s = true /\
  current_job s = Some Scenario.job /\
  get (JObj fields) "job_id" = Ret (JStr (Job.job_id Scenario.job)) /\
  get (JObj fields) "type" <> Ret (JStr "rejection") /\
  item (JObj fields) "machine_id" = Ret (JStr "machine_1") /\
  item (JObj fields) "proposed_time" = Ret (JNum 5) /\
  exists timestamp,
    get_or (JObj fields) "timestamp" (JNum 101) = Ret timestamp /\
    (assoc "timestamp" fields = None -> timestamp = JNum 101) /\
    _on_message 101 (Document (JObj fields)) s =
      Run (Ret tt)
          (set_bids
             (bids s ++
                [Bid.Make (JStr "machine_1") (JStr (Job.job_id Scenario.job))
                          (JNum 5) timestamp])
             s)
          [].
Proof.
  intros s fields.
  assert (collecting_bids s = true) as H1 by reflexivity.
  assert (current_job s = Some Scenario.job) as H2 by reflexivity.
  assert (get (JObj fields) "job_id" = Ret (JStr (Job.job_id Scenario.job))) as H3
    by reflexivity.
  assert (get (JObj fields) "type" <> Ret (JStr "rejection")) as H4 by discriminate.
  assert (item (JObj fields) "machine_id" = Ret (JStr "machine_1")) as H5
    by reflexivity.
  assert (item (JObj fields) "proposed_time" = Ret (JNum 5)) as H6 by reflexivity.
  split_and!; [done..|].
  exact (matching_bid_is_appended 101 fields s Scenario.job (JStr "machine_1") (JNum 5)
           H1 H2 H3 H4 H5 H6).
Defined.

Lemma unfit_object_is_dropped_witness :
  let s := Scenario.collecting in
  let fields :=
    [("type", JStr "bid"); ("machine_id", JStr "machine_1");
     ("job_id", JStr "job_00000000"); ("proposed_time", JNum 5)] in
  current_job s = Some Scenario.job /\
  get (JObj fields) "job_id" <> Ret (JStr (Job.job_id Scenario.job)) /\
  _on_message 101 (Document (JObj fields)) s = Run (Ret tt) s [].
Proof.
  intros s fields.
  assert (current_job s = Some Scenario.job) as H1 by reflexivity.
  assert (get (JObj fields) "job_id" <> Ret (JStr (Job.job_id Scenario.job))) as H2
    by discriminate.
  split_and!; [done..|].
  exact (unfit_object_is_dropped 101 fields s Scenario.job H1 (or_introl H2)).
Defined.



Lemma only_the_losers_are_rejected_witness :
  let s := set_collecting_bids false
             (state_after (at_deadline 100 Scenario.job Scenario.two_bids
                             Scenario.supervisor)) in
  let w := Bid.Make (JStr "machine_2") (JStr "job_1a2b3c4d") (JNum 3) (JNum 100.7) in
  let times := Scenario.clock 103 in
  let r := reject_others times w Scenario.job s in
  (forall t, Machine.str_plain (JStr t) = t) /\
  Bid.machine_id w = JStr "machine_2" /\
  Forall (fun b => exists other, Bid.machine_id b = JStr other) (bids s) /\
  result r = Ret tt /\
  state_after r = s /\
  (forall m, m ∈ published r ->
     topic_name Machine.str_plain (topic_of m) <> "jobs/reject/machine_2") /\
  (forall i b other,
     bids s !! i = Some b -> Bid.machine_id b = JStr other -> other <> "machine_2" ->
     reject_message (times i) Scenario.job s b ∈ published r /\
     topic_name Machine.str_plain (topic_of (reject_message (times i) Scenario.job s b)) =
       ("jobs/reject/" ++ other)%string /\
     get (body (reject_message (times i) Scenario.job s b)) "timestamp" =
       Ret (JNum (times i))).
Proof.
  intros s w times r.
  assert (forall t, Machine.str_plain (JStr t) = t) as Hstr by reflexivity.
  assert (Bid.machine_id w = JStr "machine_2") as Hname by reflexivity.
  assert (Forall (fun b => exists other, Bid.machine_id b = JStr other) (bids s))
    as Htexts.
  { vm_compute. repeat constructor; eexists; reflexivity. }
  split; [exact Hstr|]. split; [exact Hname|]. split; [exact Htexts|].
  exact (only_the_losers_are_rejected Machine.str_plain times w Scenario.job s
           "machine_2" Hstr Hname Htexts).
Defined.

(** Without texts as machine ids the topics can coincide: a bid whose
    machine id is the number 1 loses to the machine named "1" and is
    rejected on the topic to which that machine listens. *)
Example numeric_id_shares_the_topic :
  let w := Bid.Make (JStr "1") (JStr "job_1a2b3c4d") (JNum 3) (JNum 100.7) in
  let b := Bid.Make (JNum (Int 1)) (JStr "job_1a2b3c4d") (JNum 5) (JNum 100.5) in
  let s := set_bids [b; w] Scenario.supervisor in
  map (fun m => topic_name Machine.str_plain (topic_of m))
      (published (reject_others (Scenario.clock 103) w Scenario.job s)) =
    ["jobs/reject/1"] /\
  topic_name Machine.str_plain (RejectTopic (Bid.machine_id w)) = "jobs/reject/1".
Proof. by vm_compute. Qed.

Lemma callback_fault_cases_witness :
  let s := Scenario.collecting in
  collecting_bids s = true /\
  _on_message 101 Undecodable s = Run (Raise UnicodeDecodeError) s [] /\
  _on_message 101 Oversized s = Run (Raise ValueError) s [] /\
  _on_message 101 Overnested s = Run (Raise RecursionError) s [] /\
  _on_message 101 Unparseable s = Run (Ret tt) s [] /\
  (forall v, (forall fields, v <> JObj fields) ->
     _on_message 101 (Document v) s = Run (Raise AttributeError) s []) /\
  (forall fields, current_job s = None ->
     _on_message 101 (Document (JObj fields)) s = Run (Raise AttributeError) s []).
Proof.
  intros s.
  assert (collecting_bids s = true) as Hc by reflexivity.
  split; [exact Hc|].
  exact (callback_fault_cases 101 s Hc).
Defined.

Lemma incomparable_bids_abort_the_auction_witness :
  let s := Scenario.supervisor in
  let r := _run_auction 100 (Scenario.clock 103) Scenario.job Scenario.mixed s in
  collected 100 Scenario.job Scenario.mixed s <> [] /\
  min Bid.proposed_time (collected 100 Scenario.job Scenario.mixed s) = Raise TypeError /\
  result r = Raise TypeError /\
  List.filter is_award (published r) = [] /\
  List.filter is_reject (published r) = [] /\
  jobs_allocated (state_after r) = jobs_allocated s /\
  jobs_failed (state_after r) = jobs_failed s /\
  current_job (state_after r) = Some Scenario.job /\
  collecting_bids (state_after r) = false /\
  bids (state_after r) = collected 100 Scenario.job Scenario.mixed s.
Proof.
  intros s r.
  assert (collected 100 Scenario.job Scenario.mixed s <> []) as Hne
    by (vm_compute; discriminate).
  assert (min Bid.proposed_time (collected 100 Scenario.job Scenario.mixed s) =
          Raise TypeError) as Hmin by (vm_compute; reflexivity).
  split; [exact Hne|]. split; [exact Hmin|].
  exact (incomparable_bids_abort_the_auction 100 (Scenario.clock 103) Scenario.job Scenario.mixed s
           TypeError Hne Hmin).
Defined.

Lemma loop_accounting_witness :
  let s := Scenario.supervisor in
  let r := run_loop Scenario.two_cycles s in
  jobs_created s = jobs_allocated s + jobs_failed s /\
  jobs_created (state_after r) =
    jobs_created s + length (List.filter is_cfp (published r)) /\
  jobs_allocated (state_after r) =
    jobs_allocated s + length (List.filter is_award (published r)) /\
  (result r = Ret tt ->
   jobs_created (state_after r) = jobs_created s + length Scenario.two_cycles /\
   jobs_created (state_after r) =
     jobs_allocated (state_after r) + jobs_failed (state_after r)) /\
  (forall e, result r = Raise e ->
   jobs_created (state_after r) =
     jobs_allocated (state_after r) + jobs_failed (state_after r) + 1).
Proof.
  intros s r.
  assert (jobs_created s = jobs_allocated s + jobs_failed s) as Hacc by reflexivity.
  split; [exact Hacc|].
  exact (loop_accounting Scenario.two_cycles s Hacc).
Defined.

(** The two turns of the scenario: one job allocated, one failed. *)
Example two_cycles_counters :
  let r := run_loop Scenario.two_cycles Scenario.supervisor in
  result r = Ret tt /\
  jobs_created (state_after r) = 2 /\
  jobs_allocated (state_after r) = 1 /\
  jobs_failed (state_after r) = 1.
Proof. vm_compute. by split_and!. Qed.

End SupervisorMore.

(** * Further properties of the machine *)

Module MachineMore.
Import Py Machine.

Ltac mach_run :=
  repeat progress (cbn [loads get get_or item]; py_simp).

Lemma is_str_decide v s : if is_str v s then v = JStr s else v <> JStr s.
Proof.
  destruct (is_str v s) eqn:H.
  - by apply SupervisorMore.is_str_true.
  - by apply SupervisorMore.is_str_false.
Qed.

Section Handlers.
Variable py_str : json -> string.

(** An award that names this machine and whose job type cannot be hashed:
    the exception comes after the machine has taken the job. *)
Lemma award_faults now data s jt e :
  get data "type" = Ret (JStr "award") ->
  get data "machine_id" = Ret (JStr (machine_id s)) ->
  get data "job_type" = Ret jt ->
  lookup_capability (capabilities s) jt = Raise e ->
  exists job,
    get data "job_id" = Ret job /\
    e = TypeError /\
    _on_message py_str now (Document data) s =
      Run (Raise TypeError)
          (set_current_job job (set_busy true (set_jobs_won (jobs_won s + 1) s)))
          [].
Proof.
  intros Htype Hid Hjt Hcap.
  destruct (MachineSpec.readable_is_dict data _ _ Htype) as [fields ->].
  apply MachineSpec.get_dict in Htype, Hid, Hjt.
  exists (default JNull (assoc "job_id" fields)). split; [done|].
  assert (e = TypeError) as ->.
  { destruct jt; cbn in Hcap; congruence. }
  split; [done|].
  unfold _on_message. apply PyFacts.try_except_uncaught; [|done].
  mach_run. rewrite Htype.
  change (is_str (JStr "award") "cfp") with false.
  change (is_str (JStr "award") "award") with true.
  cbn iota. unfold _handle_award. mach_run.
  rewrite Hid, Hjt, MachineSpec.is_str_same. cbn [negb].
  py_simp. cbn [capabilities set_busy set_jobs_won set_current_job].
  rewrite Hcap. by py_simp.
Qed.

Lemma reject_counted now data s :
  get data "type" = Ret (JStr "reject") ->
  _on_message py_str now (Document data) s =
    Run (Ret tt) (set_jobs_rejected (jobs_rejected s + 1) s) [].
Proof.
  intros Htype.
  destruct (MachineSpec.readable_is_dict data _ _ Htype) as [fields ->].
  apply MachineSpec.get_dict in Htype.
  unfold _on_message. apply PyFacts.try_except_pass.
  mach_run. rewrite Htype.
  change (is_str (JStr "reject") "cfp") with false.
  change (is_str (JStr "reject") "award") with false.
  change (is_str (JStr "reject") "reject") with true.
  cbn iota. unfold _handle_reject. by mach_run.
Qed.

Lemma other_type_ignored now fields s :
  let t := default JNull (assoc "type" fields) in
  t <> JStr "cfp" -> t <> JStr "award" -> t <> JStr "reject" ->
  _on_message py_str now (Document (JObj fields)) s = Run (Ret tt) s [].
Proof.
  intros t H1 H2 H3. subst t.
  unfold _on_message. apply PyFacts.try_except_pass. mach_run.
  rewrite !MachineSpec.is_str_other by done. by py_simp.
Qed.

Lemma not_object_faults now msg s :
  (forall fields, msg <> Document (JObj fields)) ->
  _on_message py_str now msg s =
  match msg with
  | Undecodable => Run (Raise UnicodeDecodeError) s []
  | Unparseable => Run (Ret tt) s []
  | Oversized => Run (Raise ValueError) s []
  | Overnested => Run (Raise RecursionError) s []
  | Document _ => Run (Raise AttributeError) s []
  end.
Proof.
  intros Hno. unfold _on_message. destruct msg as [| | | |v].
  - apply PyFacts.try_except_uncaught; [|done]. by mach_run.
  - apply (SupervisorMore.try_except_drop _ _ _ JSONDecodeError); [|done]. by mach_run.
  - apply PyFacts.try_except_uncaught; [|done]. by mach_run.
  - apply PyFacts.try_except_uncaught; [|done]. by mach_run.
  - apply PyFacts.try_except_uncaught; [|done].
    destruct v; try (by mach_run). by destruct (Hno fields).
Qed.


(** ** Message by message *)

(** X12.  A message of type "reject" only adds one to [jobs_rejected]:
    whatever job it names and whether the machine is busy or not, nothing
    is published and no other field changes. *)
Theorem rejection_is_only_counted now data s :
  get data "type" = Ret (JStr "reject") ->
  _on_message py_str now (Document data) s =
    Run (Ret tt) (set_jobs_rejected (jobs_rejected s + 1) s) [].
Proof. apply reject_counted. Qed.

(** X13.  An object whose type is none of "cfp", "award" and "reject" (a
    missing type included) is ignored: no fault, no message, no change. *)
Theorem other_types_are_ignored now data s t :
  get data "type" = Ret t ->
  t <> JStr "cfp" -> t <> JStr "award" -> t <> JStr "reject" ->
  _on_message py_str now (Document data) s = Run (Ret tt) s [].
Proof.
  intros Htype H1 H2 H3.
  destruct (MachineSpec.readable_is_dict data _ _ Htype) as [fields ->].
  apply MachineSpec.get_dict in Htype. subst t. by apply other_type_ignored.
Qed.

(** X14.  An idle machine answers a CfP for a job type that is not in its
    capability table with exactly one Rejection, whose reason is "Cannot
    perform " followed by the job type; it sends no Bid and no field of
    its state changes, [jobs_bid] included. *)
Theorem unlisted_job_type_is_declined now data s jt :
  busy s = false ->
  get data "type" = Ret (JStr "cfp") ->
  get data "job_type" = Ret jt ->
  lookup_capability (capabilities s) jt = Ret None ->
  exists sup job,
    get data "supervisor_id" = Ret sup /\
    get data "job_id" = Ret job /\
    _on_message py_str now (Document data) s =
      Run (Ret tt) s
          [Message (BidTopic sup) (JObj [
             ("type", JStr "rejection");
             ("machine_id", JStr (machine_id s));
             ("job_id", job);
             ("reason", JStr ("Cannot perform " ++ py_str jt)%string);
             ("timestamp", JNum now)])].
Proof.
  intros Hidle Htype Hjt Hcap.
  destruct (MachineSpec.cfp_handled py_str now data s Htype)
    as (jt' & job & sup & Hjt' & Hjob & Hsup & ->).
  assert (jt' = jt) as -> by congruence.
  rewrite Hidle, Hcap. by exists sup, job.
Qed.

(** X15.  A CfP whose job type is a JSON array or object cannot be looked
    up in the table: an idle machine raises [TypeError], answers nothing
    and keeps its state, while a busy machine never looks the type up and
    sends its usual Rejection. *)
Theorem unhashable_job_type_in_cfp now data s jt :
  get data "type" = Ret (JStr "cfp") ->
  get data "job_type" = Ret jt ->
  (exists items, jt = JArr items) \/ (exists fields, jt = JObj fields) ->
  let r := _on_message py_str now (Document data) s in
  (busy s = false -> r = Run (Raise TypeError) s []) /\
  (busy s = true -> result r = Ret tt /\ state_after r = s /\ length (published r) = 1).
Proof.
  intros Htype Hjt Hkind r. subst r.
  destruct (MachineSpec.cfp_handled py_str now data s Htype)
    as (jt' & job & sup & Hjt' & Hjob & Hsup & ->).
  assert (jt' = jt) as -> by congruence.
  split; intros ->; [|done].
  by destruct Hkind as [[? ->]|[? ->]].
Qed.

(** X16.  An Award that names the machine and whose job type is a JSON
    array or object raises [TypeError] only after the machine has taken
    the job: it is busy, [jobs_won] has grown and the current job is the
    award's, but no execution was started.  If none was running either,
    nothing will ever clear the busy flag: no thread is left to wake. *)
Theorem unhashable_job_type_in_award now data s jt :
  get data "type" = Ret (JStr "award") ->
  get data "machine_id" = Ret (JStr (machine_id s)) ->
  get data "job_type" = Ret jt ->
  (exists items, jt = JArr items) \/ (exists fields, jt = JObj fields) ->
  let r := _on_message py_str now (Document data) s in
  result r = Raise TypeError /\
  published r = [] /\
  busy (state_after r) = true /\
  jobs_won (state_after r) = jobs_won s + 1 /\
  get data "job_id" = Ret (current_job (state_after r)) /\
  executing (state_after r) = executing s /\
  (executing s = [] ->
   forall later i, wake later i (state_after r) = Run (Ret tt) (state_after r) []).
Proof.
  intros Htype Hid Hjt Hkind r. subst r.
  assert (lookup_capability (capabilities s) jt = Raise TypeError) as Hcap.
  { by destruct Hkind as [[? ->]|[? ->]]. }
  destruct (award_faults now data s jt TypeError Htype Hid Hjt Hcap)
    as (job & Hjob & _ & ->).
  cbn [result state_after published]. split_and!; try done.
  intros Hnone later i. unfold wake. py_simp.
  cbn [executing set_current_job set_busy set_jobs_won]. by rewrite Hnone.
Qed.

(** What [_on_message] does with an object, by the type of the message. *)
Lemma object_dispatch now fields s :
  let data := JObj fields in
  let t := default JNull (assoc "type" fields) in
  let jt := default JNull (assoc "job_type" fields) in
  let job := default JNull (assoc "job_id" fields) in
  let sup := default JNull (assoc "supervisor_id" fields) in
  let looked_up := lookup_capability (capabilities s) jt in
  (t = JStr "cfp" /\
   (busy s = true /\
      (exists m, _on_message py_str now (Document data) s = Run (Ret tt) s [m] /\
                 topic_of m = BidTopic sup /\ is_bid m = false /\ is_completion m = false) \/
    busy s = false /\
      ((exists d m, looked_up = Ret (Some d) /\
          _on_message py_str now (Document data) s =
            Run (Ret tt) (set_jobs_bid (jobs_bid s + 1) s) [m] /\
          topic_of m = BidTopic sup /\ is_bid m = true /\ is_completion m = false) \/
       (exists m, looked_up = Ret None /\
          _on_message py_str now (Document data) s = Run (Ret tt) s [m] /\
          topic_of m = BidTopic sup /\ is_bid m = false /\ is_completion m = false) \/
       looked_up = Raise TypeError /\
          _on_message py_str now (Document data) s = Run (Raise TypeError) s []))) \/
  (t = JStr "award" /\
   (default JNull (assoc "machine_id" fields) <> JStr (machine_id s) /\
      _on_message py_str now (Document data) s = Run (Ret tt) s [] \/
    default JNull (assoc "machine_id" fields) = JStr (machine_id s) /\
      ((exists cap, looked_up = Ret cap /\
          _on_message py_str now (Document data) s =
            Run (Ret tt)
                (set_executing
                   (executing s ++ [Execution job jt (default (Float 5) cap) sup])
                   (set_current_job job
                      (set_busy true (set_jobs_won (jobs_won s + 1) s))))
                []) \/
       looked_up = Raise TypeError /\
          _on_message py_str now (Document data) s =
            Run (Raise TypeError)
                (set_current_job job (set_busy true (set_jobs_won (jobs_won s + 1) s)))
                []))) \/
  (t = JStr "reject" /\
   _on_message py_str now (Document data) s =
     Run (Ret tt) (set_jobs_rejected (jobs_rejected s + 1) s) []) \/
  (t <> JStr "cfp" /\ t <> JStr "award" /\ t <> JStr "reject" /\
   _on_message py_str now (Document data) s = Run (Ret tt) s []).
Proof.
  intros data t jt job sup looked_up.
  pose proof (is_str_decide t "cfp") as Hcfp.
  pose proof (is_str_decide t "award") as Haward.
  pose proof (is_str_decide t "reject") as Hreject.
  destruct (is_str t "cfp"); [left|
    destruct (is_str t "award"); [right; left|
      destruct (is_str t "reject"); [right; right; left|right; right; right]]].
  - split; [done|].
    assert (get data "type" = Ret (JStr "cfp")) as Htype by exact (f_equal Ret Hcfp).
    destruct (MachineSpec.cfp_handled py_str now data s Htype)
      as (jt' & job' & sup' & Hjt' & Hjob' & Hsup' & ->).
    cbn in Hjt', Hjob', Hsup'.
    injection Hjt' as <-. injection Hjob' as <-. injection Hsup' as <-.
    destruct (busy s); [left|right]; (split; [done|]).
    + eexists. by split_and!.
    + fold jt. fold looked_up.
      destruct looked_up as [[d|]|e] eqn:Hl.
      * left. eexists _, _. by split_and!.
      * right; left. eexists. by split_and!.
      * right; right. split; [|done].
        subst looked_up. destruct jt; cbn in Hl; congruence.
  - split; [done|].
    assert (get data "type" = Ret (JStr "award")) as Htype
      by exact (f_equal Ret Haward).
    pose proof (is_str_decide (default JNull (assoc "machine_id" fields))
                  (machine_id s)) as Hid.
    destruct (is_str _ (machine_id s)); [right|left]; (split; [done|]).
    + assert (get data "machine_id" = Ret (JStr (machine_id s))) as Hid'
        by (cbn; congruence).
      destruct looked_up as [cap|e] eqn:Hl.
      * left. exists cap. split; [done|].
        destruct (MachineSpec.award_accepted py_str now data s jt cap Htype Hid' eq_refl Hl)
          as (job' & sup' & Hjob' & Hsup' & ->).
        cbn in Hjob', Hsup'. by injection Hjob' as <-; injection Hsup' as <-.
      * right.
        destruct (award_faults now data s jt e Htype Hid' eq_refl Hl)
          as (job' & Hjob' & -> & ->).
        cbn in Hjob'. by injection Hjob' as <-.
    + by apply (MachineSpec.award_ignored py_str now data s _ Htype eq_refl).
  - split; [done|]. apply reject_counted. exact (f_equal Ret Hreject).
  - split_and!; [done..|]. by apply other_type_ignored.
Qed.


(** X17.  In any state, the callback of the machine ends in an exception
    that nothing catches when the payload is not UTF-8
    ([UnicodeDecodeError]), when the decoder gives up on an integer literal
    of more than 4300 digits ([ValueError]) or on the depth of the nesting
    ([RecursionError]), and when the payload is a JSON value that is not an
    object ([AttributeError]).  In each of these cases the state is as
    before and nothing is published.  Text that is not a JSON document
    raises nothing and is dropped. *)
Theorem machine_fault_cases now s :
  _on_message py_str now Undecodable s = Run (Raise UnicodeDecodeError) s [] /\
  _on_message py_str now Oversized s = Run (Raise ValueError) s [] /\
  _on_message py_str now Overnested s = Run (Raise RecursionError) s [] /\
  _on_message py_str now Unparseable s = Run (Ret tt) s [] /\
  (forall v, (forall fields, v <> JObj fields) ->
     _on_message py_str now (Document v) s = Run (Raise AttributeError) s []).
Proof.
  split_and!.
  - by rewrite (not_object_faults now Undecodable s).
  - by rewrite (not_object_faults now Oversized s).
  - by rewrite (not_object_faults now Overnested s).
  - by rewrite (not_object_faults now Unparseable s).
  - intros v Hv. rewrite (not_object_faults now (Document v) s); [done|].
    intros fields [= ->]. by destruct (Hv fields).
Qed.

(** X18.  The life of a job on an idle machine whose table lists the job
    type [kind] with duration [d]: the CfP is answered by one Bid that
    proposes [d]; the Award starts one execution of duration [d]; when it
    ends, one Completion notice reports [d] for the awarded job to the
    supervisor named in the Award, and the machine is as it was before the
    CfP but for the counters [jobs_bid], [jobs_won] and [jobs_completed],
    each one higher. *)
Theorem job_life_cycle t1 t2 t3 cfp award s kind d :
  busy s = false ->
  current_job s = JNull ->
  get cfp "type" = Ret (JStr "cfp") ->
  get cfp "job_type" = Ret (JStr kind) ->
  get award "type" = Ret (JStr "award") ->
  get award "machine_id" = Ret (JStr (machine_id s)) ->
  get award "job_type" = Ret (JStr kind) ->
  capabilities s !! kind = Some d ->
  let r1 := _on_message py_str t1 (Document cfp) s in
  let r2 := _on_message py_str t2 (Document award) (state_after r1) in
  let r3 := wake t3 (length (executing s)) (state_after r2) in
  (exists bid,
     published r1 = [bid] /\ is_bid bid = true /\
     get (body bid) "proposed_time" = Ret (JNum d)) /\
  published r2 = [] /\
  busy (state_after r2) = true /\
  (exists thread,
     executing (state_after r2) = executing s ++ [thread] /\
     execution_time thread = d) /\
  (exists notice sup,
     published r3 = [notice] /\
     get award "supervisor_id" = Ret sup /\
     topic_of notice = CompleteTopic sup /\
     get (body notice) "type" = Ret (JStr "completion") /\
     get (body notice) "job_id" = get award "job_id" /\
     get (body notice) "job_type" = Ret (JStr kind) /\
     get (body notice) "execution_time" = Ret (JNum d)) /\
  state_after r3 =
    set_jobs_completed (jobs_completed s + 1)
      (set_jobs_won (jobs_won s + 1) (set_jobs_bid (jobs_bid s + 1) s)).
Proof.
  intros Hidle Hnone Hc1 Hc2 Ha1 Ha2 Ha3 Htable r1 r2 r3. subst r1 r2 r3.
  assert (lookup_capability (capabilities s) (JStr kind) = Ret (Some d)) as Hcap.
  { cbn [lookup_capability]. by rewrite Htable. }
  destruct (MachineSpec.cfp_handled py_str t1 cfp s Hc1)
    as (jt' & job & sup & Hjt' & _ & _ & ->).
  assert (jt' = JStr kind) as -> by congruence. rewrite Hidle, Hcap.
  cbn [result state_after published].
  set (s1 := set_jobs_bid (jobs_bid s + 1) s).
  destruct (MachineSpec.award_accepted py_str t2 award s1 (JStr kind) (Some d)
              Ha1 Ha2 Ha3 Hcap)
    as (job' & sup' & Hjob' & Hsup' & ->).
  cbn [result state_after published].
  split; [by eexists|]. split; [done|]. split; [done|]. split; [by eexists|].
  set (s2 := set_current_job job' (set_busy true (set_jobs_won (jobs_won s1 + 1) s1))).
  change (executing s) with (executing s2). change (executing s1) with (executing s2).
  rewrite MachineSpec.wake_last. cbn [result state_after published].
  split.
  - eexists _, sup'. by split_and!.
  - subst s2 s1. destruct s. cbn in *. by subst.
Qed.


(** ** Histories *)

Lemma wake_run now i s :
  wake now i s =
  match executing s !! i with
  | Some args =>
      Run (Ret tt)
          (set_jobs_completed (jobs_completed s + 1)
             (set_current_job JNull
                (set_busy false (set_executing (delete i (executing s)) s))))
          [Message (CompleteTopic (supervisor_id args)) (JObj [
             ("type", JStr "completion");
             ("machine_id", JStr (machine_id s));
             ("job_id", job_id args);
             ("job_type", job_type args);
             ("execution_time", JNum (execution_time args));
             ("timestamp", JNum now)])]
  | None => Run (Ret tt) s []
  end.
Proof.
  unfold wake, _execute_job. py_simp.
  destruct (executing s !! i) as [args|]; by py_simp.
Qed.

Lemma accounted_idle s : accounted s (Run (Ret tt) s []).
Proof. unfold accounted. cbn. split_and!; try done; lia. Qed.

Lemma accounted_fault s e : accounted s (Run (Raise e) s []).
Proof. unfold accounted. cbn. split_and!; try done; lia. Qed.

Lemma step_accounted e s : accounted s (step py_str e s).
Proof.
  destruct e as [now msg|now i]; cbn [step].
  - destruct (SupervisorMore.object_or_not msg) as [[fields ->]|Hno].
    + destruct (object_dispatch now fields s) as
        [[Ht [[Hb (m & -> & Hm1 & Hm2 & Hm3)]
             |[Hb [(d & m & _ & -> & Hm1 & Hm2 & Hm3)
                  |[(m & _ & -> & Hm1 & Hm2 & Hm3)|[Hl ->]]]]]]
        |[[Ht [[_ ->]|[Hid [(cap & _ & ->)|[Hl ->]]]]]
        |[[Ht ->]|(_ & _ & _ & ->)]]];
        try apply accounted_idle; try apply accounted_fault;
        unfold accounted;
        cbn [result state_after published List.filter length machine_id capabilities
             jobs_bid jobs_won jobs_completed jobs_rejected executing
             set_jobs_bid set_jobs_won set_busy set_current_job set_executing
             set_jobs_rejected];
        rewrite ?Hm2, ?Hm3, ?length_app;
        cbn [length]; split_and!; try done; try lia;
        repeat constructor; by rewrite Hm1.
    + rewrite (not_object_faults now msg s Hno).
      destruct msg; try apply accounted_idle; apply accounted_fault.
  - rewrite wake_run. destruct (executing s !! i) as [args|] eqn:Hi;
      [|apply accounted_idle].
    pose proof (length_delete (executing s) i (ex_intro _ args Hi)) as Hlen.
    pose proof (lookup_lt_Some _ _ _ Hi) as Hlt.
    unfold accounted.
    cbn [result state_after published machine_id capabilities
         jobs_bid jobs_won jobs_completed jobs_rejected executing
         set_jobs_completed set_busy set_current_job set_executing].
    rewrite Hlen. split_and!; try done; try (cbn; lia).
    by repeat constructor.
Qed.

Lemma accounted_then s r1 r2 :
  accounted s r1 -> accounted (state_after r1) r2 ->
  accounted s (Run (Ret tt) (state_after r2) (published r1 ++ published r2)).
Proof.
  unfold accounted. cbn [result state_after published].
  intros (A1&A2&A3&A4&A5&A6&A7&A8) (B1&B2&B3&B4&B5&B6&B7&B8).
  rewrite !List.filter_app, !length_app, Forall_app.
  split_and!; try done; try congruence; lia.
Qed.

Lemma history_accounted events : forall s, accounted s (history py_str events s).
Proof.
  unfold history.
  induction events as [|e events IH]; intros s; cbn [map Py_threads.background].
  - apply accounted_idle.
  - apply accounted_then; [apply step_accounted|apply IH].
Qed.

(** X19.  Over any history of a machine (messages of any kind, well
    formed or not, and executions ending in any order) the machine id and
    the capability table never change; [jobs_bid] grows by exactly the
    number of Bids published and [jobs_completed] by the number of
    Completion notices; [jobs_won] and [jobs_rejected] never go down; the
    jobs completed or in execution grow by no more than the jobs won; and
    the machine publishes only on bid topics and completion topics. *)
Theorem machine_books events s :
  let r := history py_str events s in
  let s' := state_after r in
  machine_id s' = machine_id s /\
  capabilities s' = capabilities s /\
  jobs_bid s' = jobs_bid s + length (List.filter is_bid (published r)) /\
  jobs_completed s' =
    jobs_completed s + length (List.filter is_completion (published r)) /\
  jobs_won s <= jobs_won s' /\
  jobs_rejected s <= jobs_rejected s' /\
  jobs_completed s' + length (executing s') + jobs_won s <=
    jobs_won s' + jobs_completed s + length (executing s) /\
  (forall m, m ∈ published r ->
     (exists sup, topic_of m = BidTopic sup) \/
     (exists sup, topic_of m = CompleteTopic sup)).
Proof.
  intros r s'. subst r s'.
  destruct (history_accounted events s) as (A1&A2&A3&A4&A5&A6&A7&A8).
  split_and!; try done.
  intros m Hm. rewrite Forall_forall in A8. specialize (A8 m Hm).
  destruct (topic_of m); try done; [left|right]; by eexists.
Qed.

End Handlers.

(** ** The properties at the scenarios *)

Lemma rejection_is_only_counted_witness :
  let s := Scenario.busy_machine in
  get Scenario.rejection "type" = Ret (JStr "reject") /\
  _on_message str_plain 103.3 (Document Scenario.rejection) s =
    Run (Ret tt) (set_jobs_rejected (jobs_rejected s + 1) s) [].
Proof.
  intros s.
  assert (get Scenario.rejection "type" = Ret (JStr "reject")) as H by reflexivity.
  split; [exact H|].
  exact (rejection_is_only_counted str_plain 103.3 Scenario.rejection s H).
Defined.

Lemma other_types_are_ignored_witness :
  let s := Scenario.machine in
  get Scenario.notice "type" = Ret (JStr "completion") /\
  JStr "completion" <> JStr "cfp" /\
  JStr "completion" <> JStr "award" /\
  JStr "completion" <> JStr "reject" /\
  _on_message str_plain 106.1 (Document Scenario.notice) s = Run (Ret tt) s [].
Proof.
  intros s.
  assert (get Scenario.notice "type" = Ret (JStr "completion")) as H by reflexivity.
  assert (JStr "completion" <> JStr "cfp") as H1 by discriminate.
  assert (JStr "completion" <> JStr "award") as H2 by discriminate.
  assert (JStr "completion" <> JStr "reject") as H3 by discriminate.
  split_and!; [done..|].
  exact (other_types_are_ignored str_plain 106.1 Scenario.notice s
           (JStr "completion") H H1 H2 H3).
Defined.

Lemma unlisted_job_type_is_declined_witness :
  let s := Scenario.machine in
  let data := Scenario.unlisted_cfp in
  busy s = false /\
  get data "type" = Ret (JStr "cfp") /\
  get data "job_type" = Ret (JStr "job_E") /\
  lookup_capability (capabilities s) (JStr "job_E") = Ret None /\
  exists sup job,
    get data "supervisor_id" = Ret sup /\
    get data "job_id" = Ret job /\
    _on_message str_plain 123.1 (Document data) s =
      Run (Ret tt) s
          [Message (BidTopic sup) (JObj [
             ("type", JStr "rejection");
             ("machine_id", JStr (machine_id s));
             ("job_id", job);
             ("reason", JStr ("Cannot perform " ++ str_plain (JStr "job_E"))%string);
             ("timestamp", JNum 123.1)])].
Proof.
  intros s data.
  assert (busy s = false) as H1 by reflexivity.
  assert (get data "type" = Ret (JStr "cfp")) as H2 by reflexivity.
  assert (get data "job_type" = Ret (JStr "job_E")) as H3 by reflexivity.
  assert (lookup_capability (capabilities s) (JStr "job_E") = Ret None) as H4
    by reflexivity.
  split_and!; [done..|].
  exact (unlisted_job_type_is_declined str_plain 123.1 data s (JStr "job_E")
           H1 H2 H3 H4).
Defined.

Lemma unhashable_job_type_in_cfp_witness :
  let s := Scenario.machine in
  let data := Scenario.odd_cfp in
  let r := _on_message str_plain 123.1 (Document data) s in
  get data "type" = Ret (JStr "cfp") /\
  get data "job_type" = Ret (JArr [JStr "job_A"]) /\
  (busy s = false -> r = Run (Raise TypeError) s []) /\
  (busy s = true ->
   result r = Ret tt /\ state_after r = s /\ length (published r) = 1).
Proof.
  intros s data r.
  assert (get data "type" = Ret (JStr "cfp")) as H1 by reflexivity.
  assert (get data "job_type" = Ret (JArr [JStr "job_A"])) as H2 by reflexivity.
  split; [exact H1|]. split; [exact H2|].
  exact (unhashable_job_type_in_cfp str_plain 123.1 data s (JArr [JStr "job_A"])
           H1 H2 (or_introl (ex_intro _ [JStr "job_A"] eq_refl))).
Defined.

Lemma unhashable_job_type_in_award_witness :
  let s := Scenario.machine in
  let data := Scenario.odd_award in
  let r := _on_message str_plain 123.1 (Document data) s in
  get data "type" = Ret (JStr "award") /\
  get data "machine_id" = Ret (JStr (machine_id s)) /\
  get data "job_type" = Ret (JArr [JStr "job_A"]) /\
  result r = Raise TypeError /\
  published r = [] /\
  busy (state_after r) = true /\
  jobs_won (state_after r) = jobs_won s + 1 /\
  get data "job_id" = Ret (current_job (state_after r)) /\
  executing (state_after r) = executing s /\
  (executing s = [] ->
   forall later i, wake later i (state_after r) = Run (Ret tt) (state_after r) []).
Proof.
  intros s data r.
  assert (get data "type" = Ret (JStr "award")) as H1 by reflexivity.
  assert (get data "machine_id" = Ret (JStr (machine_id s))) as H2 by reflexivity.
  assert (get data "job_type" = Ret (JArr [JStr "job_A"])) as H3 by reflexivity.
  split; [exact H1|]. split; [exact H2|]. split; [exact H3|].
  exact (unhashable_job_type_in_award str_plain 123.1 data s (JArr [JStr "job_A"])
           H1 H2 H3 (or_introl (ex_intro _ [JStr "job_A"] eq_refl))).
Defined.

Lemma job_life_cycle_witness :
  let s := Scenario.machine in
  let cfp := Scenario.job_cfp in
  let award := Scenario.award in
  let r1 := _on_message str_plain 100.1 (Document cfp) s in
  let r2 := _on_message str_plain 103.1 (Document award) (state_after r1) in
  let r3 := wake 108.1 (length (executing s)) (state_after r2) in
  busy s = false /\
  current_job s = JNull /\
  get cfp "type" = Ret (JStr "cfp") /\
  get cfp "job_type" = Ret (JStr "job_A") /\
  get award "type" = Ret (JStr "award") /\
  get award "machine_id" = Ret (JStr (machine_id s)) /\
  get award "job_type" = Ret (JStr "job_A") /\
  capabilities s !! "job_A" = Some (Float 5) /\
  (exists bid,
     published r1 = [bid] /\ is_bid bid = true /\
     get (body bid) "proposed_time" = Ret (JNum 5)) /\
  published r2 = [] /\
  busy (state_after r2) = true /\
  (exists thread,
     executing (state_after r2) = executing s ++ [thread] /\
     execution_time thread = 5%Q) /\
  (exists notice sup,
     published r3 = [notice] /\
     get award "supervisor_id" = Ret sup /\
     topic_of notice = CompleteTopic sup /\
     get (body notice) "type" = Ret (JStr "completion") /\
     get (body notice) "job_id" = get award "job_id" /\
     get (body notice) "job_type" = Ret (JStr "job_A") /\
     get (body notice) "execution_time" = Ret (JNum 5)) /\
  state_after r3 =
    set_jobs_completed (jobs_completed s + 1)
      (set_jobs_won (jobs_won s + 1) (set_jobs_bid (jobs_bid s + 1) s)).
Proof.
  intros s cfp award r1 r2 r3.
  assert (busy s = false) as H1 by reflexivity.
  assert (current_job s = JNull) as H2 by reflexivity.
  assert (get cfp "type" = Ret (JStr "cfp")) as H3 by reflexivity.
  assert (get cfp "job_type" = Ret (JStr "job_A")) as H4 by reflexivity.
  assert (get award "type" = Ret (JStr "award")) as H5 by reflexivity.
  assert (get award "machine_id" = Ret (JStr (machine_id s))) as H6 by reflexivity.
  assert (get award "job_type" = Ret (JStr "job_A")) as H7 by reflexivity.
  assert (capabilities s !! "job_A" = Some (Float 5)) as H8 by reflexivity.
  split; [exact H1|]. split; [exact H2|]. split; [exact H3|]. split; [exact H4|].
  split; [exact H5|]. split; [exact H6|]. split; [exact H7|]. split; [exact H8|].
  exact (job_life_cycle str_plain 100.1 103.1 108.1 cfp award s "job_A" 5
           H1 H2 H3 H4 H5 H6 H7 H8).
Defined.

End MachineMore.

(** * The two agents together *)

Module Protocol.
Import Py.

Section Handshake.
Variable py_str : json -> string.

(** The CfP of a job, as [_send_cfp] publishes it. *)
Lemma cfp_of_job t0 job sup :
  exists cfp,
    published (Supervisor._send_cfp t0 job sup) = [Message CfpTopic cfp] /\
    get cfp "type" = Ret (JStr "cfp") /\
    get cfp "job_type" = Ret (JStr (Job.job_type job)) /\
    get cfp "job_id" = Ret (JStr (Job.job_id job)) /\
    get cfp "supervisor_id" = Ret (JStr (Supervisor.supervisor_id sup)).
Proof.
  unfold Supervisor._send_cfp. py_simp. eexists. split; [reflexivity|]. by split_and!.
Qed.

Lemma supervisor_takes_bid t2 sup job mid d t1 :
  Supervisor.collecting_bids sup = true ->
  Supervisor.current_job sup = Some job ->
  Supervisor._on_message t2
    (Document (JObj [
       ("type", JStr "bid");
       ("machine_id", JStr mid);
       ("job_id", JStr (Job.job_id job));
       ("proposed_time", JNum d);
       ("timestamp", JNum t1)])) sup =
  Run (Ret tt)
      (Supervisor.set_bids
         (Supervisor.bids sup ++
            [Bid.Make (JStr mid) (JStr (Job.job_id job)) (JNum d) (JNum t1)])
         sup)
      [].
Proof.
  intros Hc Hjob. rewrite (SupervisorMore.on_message_object _ _ _ _ Hc Hjob).
  change (default JNull (assoc "job_id" _)) with (JStr (Job.job_id job)).
  rewrite MachineSpec.is_str_same. reflexivity.
Qed.

Lemma supervisor_drops_rejection t2 sup job mid jid reason t1 :
  Supervisor.current_job sup = Some job ->
  Supervisor._on_message t2
    (Document (JObj [
       ("type", JStr "rejection");
       ("machine_id", JStr mid);
       ("job_id", jid);
       ("reason", JStr reason);
       ("timestamp", JNum t1)])) sup =
  Run (Ret tt) sup [].
Proof.
  intros Hjob.
  destruct (Supervisor.collecting_bids sup) eqn:Hc;
    [|by apply SupervisorSpec.on_message_closed].
  rewrite (SupervisorMore.on_message_object _ _ _ _ Hc Hjob).
  by destruct (negb _).
Qed.

(** X20.  The Bid with which an idle machine that lists the job type
    answers the supervisor's CfP goes to that supervisor's bid topic and,
    handled while the auction is open, enters the bid set with the
    machine's id, the job's id, the table's duration and the machine's
    clock reading. *)
Theorem bid_reaches_the_bid_set t0 t1 t2 sup job m d :
  Supervisor.collecting_bids sup = true ->
  Supervisor.current_job sup = Some job ->
  Machine.busy m = false ->
  Machine.capabilities m !! Job.job_type job = Some d ->
  exists cfp reply,
    published (Supervisor._send_cfp t0 job sup) = [Message CfpTopic cfp] /\
    published (Machine._on_message py_str t1 (Document cfp) m) =
      [Message (BidTopic (JStr (Supervisor.supervisor_id sup))) reply] /\
    Supervisor._on_message t2 (Document reply) sup =
      Run (Ret tt)
          (Supervisor.set_bids
             (Supervisor.bids sup ++
                [Bid.Make (JStr (Machine.machine_id m)) (JStr (Job.job_id job))
                          (JNum d) (JNum t1)])
             sup)
          [].
Proof.
  intros Hc Hjob Hidle Hcap.
  destruct (cfp_of_job t0 job sup) as (cfp & Hcfp & Hty & Hjt & Hjid & Hsup).
  destruct (MachineSpec.cfp_handled py_str t1 cfp m Hty)
    as (jt & jid & sid & Hjt' & Hjid' & Hsup' & Hrun).
  assert (jt = JStr (Job.job_type job)) as -> by congruence.
  assert (jid = JStr (Job.job_id job)) as -> by congruence.
  assert (sid = JStr (Supervisor.supervisor_id sup)) as -> by congruence.
  rewrite Hidle in Hrun. cbn [Machine.lookup_capability] in Hrun. rewrite Hcap in Hrun.
  eexists cfp, _. split; [done|]. rewrite Hrun. split; [reflexivity|].
  by apply supervisor_takes_bid.
Qed.

(** X21.  When the machine is busy, or does not list the job type, its
    answer to the supervisor's CfP is a Rejection on the same bid topic,
    and the supervisor's callback drops it: the bid set and everything
    else stay as they were. *)
Theorem declined_cfp_leaves_no_bid t0 t1 t2 sup job m :
  Supervisor.current_job sup = Some job ->
  Machine.busy m = true \/ Machine.capabilities m !! Job.job_type job = None ->
  exists cfp reply,
    published (Supervisor._send_cfp t0 job sup) = [Message CfpTopic cfp] /\
    published (Machine._on_message py_str t1 (Document cfp) m) =
      [Message (BidTopic (JStr (Supervisor.supervisor_id sup))) reply] /\
    get reply "type" = Ret (JStr "rejection") /\
    Supervisor._on_message t2 (Document reply) sup = Run (Ret tt) sup [].
Proof.
  intros Hjob Hcase.
  destruct (cfp_of_job t0 job sup) as (cfp & Hcfp & Hty & Hjt & Hjid & Hsup).
  destruct (MachineSpec.cfp_handled py_str t1 cfp m Hty)
    as (jt & jid & sid & Hjt' & Hjid' & Hsup' & Hrun).
  assert (jt = JStr (Job.job_type job)) as -> by congruence.
  assert (jid = JStr (Job.job_id job)) as -> by congruence.
  assert (sid = JStr (Supervisor.supervisor_id sup)) as -> by congruence.
  cbn [Machine.lookup_capability] in Hrun.
  destruct (Machine.busy m) eqn:Hbusy.
  - eexists cfp, _. split; [done|]. rewrite Hrun.
    split; [reflexivity|]. split; [reflexivity|].
    eapply supervisor_drops_rejection. exact Hjob.
  - destruct Hcase as [?|Hcap]; [done|]. rewrite Hcap in Hrun.
    eexists cfp, _. split; [done|]. rewrite Hrun.
    split; [reflexivity|]. split; [reflexivity|].
    eapply supervisor_drops_rejection. exact Hjob.
Qed.


(** X22.  The Award that [_send_award] publishes for a bid of machine [m]
    goes to the award topic of [m]; [m] accepts it, takes the job id and
    the job type of the auction and starts an execution for the duration
    its table lists for that type (5.0 if it lists none); every machine
    with another id ignores the same Award; and each Rejection of the
    fan-out only adds one to [jobs_rejected] of the machine that handles
    it. *)
Theorem award_reaches_the_winner t1 t2 sup job w m :
  Bid.machine_id w = JStr (Machine.machine_id m) ->
  exists award rejects,
    published (Supervisor._send_award t1 w job sup) =
      Message (AwardTopic (JStr (Machine.machine_id m))) award :: rejects /\
    Machine._on_message py_str t2 (Document award) m =
      Run (Ret tt)
          (Machine.set_executing
             (Machine.executing m ++
                [Machine.Execution
                   (JStr (Job.job_id job)) (JStr (Job.job_type job))
                   (default (Float 5) (Machine.capabilities m !! Job.job_type job))
                   (JStr (Supervisor.supervisor_id sup))])
             (Machine.set_current_job (JStr (Job.job_id job))
                (Machine.set_busy true
                   (Machine.set_jobs_won (Machine.jobs_won m + 1) m))))
          [] /\
    (forall m',
       Machine.machine_id m' <> Machine.machine_id m ->
       Machine._on_message py_str t2 (Document award) m' = Run (Ret tt) m' []) /\
    (forall r m',
       r ∈ rejects ->
       Machine._on_message py_str t2 (Document (body r)) m' =
         Run (Ret tt)
             (Machine.set_jobs_rejected (Machine.jobs_rejected m' + 1) m') []).
Proof.
  intros Hw.
  destruct (SupervisorMore.send_award_messages t1 w job sup)
    as (award & Hrun & Hty & Hsup & Hjid & Hjt & Hmid & _).
  rewrite Hw in Hrun, Hmid.
  eexists award, _. rewrite Hrun. cbn [published]. split; [reflexivity|].
  split_and!.
  - destruct (MachineSpec.award_accepted py_str t2 award m (JStr (Job.job_type job))
                (Machine.capabilities m !! Job.job_type job) Hty Hmid Hjt eq_refl)
      as (jid & sid & Hjid' & Hsup' & ->).
    assert (jid = JStr (Job.job_id job)) as -> by congruence.
    by assert (sid = JStr (Supervisor.supervisor_id sup)) as -> by congruence.
  - intros m' Hne.
    apply (MachineSpec.award_ignored py_str t2 award m' _ Hty Hmid). congruence.
  - intros r m' Hr. apply SupervisorSpec.elem_of_rejections in Hr as (i & b & _ & _ & ->).
    by apply MachineMore.reject_counted.
Qed.

(** X23.  One auction with one machine.  If the only message that the
    supervisor handles before the deadline is the Bid by which an idle
    machine that lists the job type answered the CfP of this auction, then
    the auction allocates the job: it publishes the CfP and one Award for
    that machine and no Rejection; and the machine, when the Award reaches
    it, takes the job and executes it for the duration it had proposed. *)
Theorem lone_bidder_gets_the_job t0 t1 t2 t3 t4 sup job m d late later :
  Machine.busy m = false ->
  Machine.capabilities m !! Job.job_type job = Some d ->
  exists cfp reply award,
    published (Supervisor._send_cfp t0 job sup) = [Message CfpTopic cfp] /\
    published (Machine._on_message py_str t1 (Document cfp) m) =
      [Message (BidTopic (JStr (Supervisor.supervisor_id sup))) reply] /\
    get reply "proposed_time" = Ret (JNum d) /\
    let net := Supervisor.Arrivals [(t2, Document reply)] late later in
    let r := Supervisor._run_auction t0 t3 job net sup in
    let m1 := state_after (Machine._on_message py_str t1 (Document cfp) m) in
    let r' := Machine._on_message py_str t4 (Document award) m1 in
    result r = Ret tt /\
    published r =
      [Message CfpTopic cfp;
       Message (AwardTopic (JStr (Machine.machine_id m))) award] /\
    Supervisor.jobs_allocated (state_after r) = Supervisor.jobs_allocated sup + 1 /\
    Supervisor.jobs_failed (state_after r) = Supervisor.jobs_failed sup /\
    result r' = Ret tt /\
    Machine.busy (state_after r') = true /\
    Machine.current_job (state_after r') = JStr (Job.job_id job) /\
    exists thread,
      Machine.executing (state_after r') = Machine.executing m ++ [thread] /\
      Machine.job_type thread = JStr (Job.job_type job) /\
      Machine.execution_time thread = d.
Proof.
  intros Hidle Hcap.
  destruct (cfp_of_job t0 job sup) as (cfp & Hcfp & Hty & Hjt & Hjid & Hsup).
  destruct (MachineSpec.cfp_handled py_str t1 cfp m Hty)
    as (jt & jid & sid & Hjt' & Hjid' & Hsup' & Hrun).
  assert (jt = JStr (Job.job_type job)) as -> by congruence.
  assert (jid = JStr (Job.job_id job)) as -> by congruence.
  assert (sid = JStr (Supervisor.supervisor_id sup)) as -> by congruence.
  rewrite Hidle in Hrun. cbn [Machine.lookup_capability] in Hrun. rewrite Hcap in Hrun.
  set (bid := Bid.Make (JStr (Machine.machine_id m)) (JStr (Job.job_id job))
                       (JNum d) (JNum t1)).
  set (s1 := Supervisor.set_collecting_bids true
               (Supervisor.set_bids [] (Supervisor.set_current_job (Some job) sup))).
  destruct (SupervisorMore.send_award_messages t3 bid job
              (Supervisor.set_collecting_bids false
                 (Supervisor.set_bids [bid] s1)))
    as (award & Haward & Haty & Hasup & Hajid & Hajt & Hamid & _).
  eexists cfp, _, award. split; [done|]. rewrite Hrun.
  cbn [published state_after]. split; [reflexivity|]. split; [reflexivity|].
  cbn zeta.
  assert (state_after (Supervisor.at_deadline t0 job
            (Supervisor.Arrivals [(t2, Document (JObj [
               ("type", JStr "bid");
               ("machine_id", JStr (Machine.machine_id m));
               ("job_id", JStr (Job.job_id job));
               ("proposed_time", JNum d);
               ("timestamp", JNum t1)]))] late later) sup) =
          Supervisor.set_bids [bid] s1) as Hsd.
  { unfold Supervisor.at_deadline, Supervisor._send_cfp, Supervisor.deliver. py_simp.
    cbn [Supervisor.in_time map fst snd Py_threads.background state_after].
    fold s1. by rewrite (supervisor_takes_bid t2 s1 job _ d t1 eq_refl eq_refl). }
  rewrite SupervisorSpec.run_auction_outcome, Hsd. rewrite Hcfp.
  cbn [Supervisor.bids Supervisor.set_bids min min_from].
  rewrite Haward. cbn [result state_after published app].
  unfold Supervisor.rejections.
  cbn [Supervisor.bids Supervisor.set_collecting_bids Supervisor.set_bids List.filter
       imap snd].
  change (Bid.machine_id bid) with (JStr (Machine.machine_id m)).
  rewrite (proj2 (SupervisorMore.eq_string _ _) eq_refl). cbn [negb map].
  split; [done|]. split; [done|]. split; [done|]. split; [done|].
  set (m1 := Machine.set_jobs_bid (Machine.jobs_bid m + 1) m).
  destruct (MachineSpec.award_accepted py_str t4 award m1 (JStr (Job.job_type job))
              (Some d) Haty Hamid Hajt)
    as (jid & sid & Hjid2 & Hsup2 & ->); [by cbn; rewrite Hcap|].
  assert (jid = JStr (Job.job_id job)) as -> by congruence.
  cbn. split_and!; try done. by eexists.
Qed.

End Handshake.

Lemma bid_reaches_the_bid_set_witness :
  let sup := Scenario.collecting in
  let m := Scenario.machine in
  Supervisor.collecting_bids sup = true /\
  Supervisor.current_job sup = Some Scenario.job /\
  Machine.busy m = false /\
  Machine.capabilities m !! Job.job_type Scenario.job = Some (Float 5) /\
  exists cfp reply,
    published (Supervisor._send_cfp 100 Scenario.job sup) = [Message CfpTopic cfp] /\
    published (Machine._on_message Machine.str_plain 100.1 (Document cfp) m) =
      [Message (BidTopic (JStr (Supervisor.supervisor_id sup))) reply] /\
    Supervisor._on_message 100.2 (Document reply) sup =
      Run (Ret tt)
          (Supervisor.set_bids
             (Supervisor.bids sup ++
                [Bid.Make (JStr (Machine.machine_id m)) (JStr (Job.job_id Scenario.job))
                          (JNum 5) (JNum 100.1)])
             sup)
          [].
Proof.
  intros sup m.
  assert (Supervisor.collecting_bids sup = true) as H1 by reflexivity.
  assert (Supervisor.current_job sup = Some Scenario.job) as H2 by reflexivity.
  assert (Machine.busy m = false) as H3 by reflexivity.
  assert (Machine.capabilities m !! Job.job_type Scenario.job = Some (Float 5)) as H4
    by reflexivity.
  split; [exact H1|]. split; [exact H2|]. split; [exact H3|]. split; [exact H4|].
  exact (bid_reaches_the_bid_set Machine.str_plain 100 100.1 100.2 sup Scenario.job m 5
           H1 H2 H3 H4).
Defined.

Lemma declined_cfp_leaves_no_bid_witness :
  let sup := Scenario.collecting in
  let m := Scenario.busy_machine in
  Supervisor.current_job sup = Some Scenario.job /\
  Machine.busy m = true /\
  exists cfp reply,
    published (Supervisor._send_cfp 100 Scenario.job sup) = [Message CfpTopic cfp] /\
    published (Machine._on_message Machine.str_plain 100.1 (Document cfp) m) =
      [Message (BidTopic (JStr (Supervisor.supervisor_id sup))) reply] /\
    get reply "type" = Ret (JStr "rejection") /\
    Supervisor._on_message 100.2 (Document reply) sup = Run (Ret tt) sup [].
Proof.
  intros sup m.
  assert (Supervisor.current_job sup = Some Scenario.job) as H1 by reflexivity.
  assert (Machine.busy m = true) as H2 by reflexivity.
  split; [exact H1|]. split; [exact H2|].
  exact (declined_cfp_leaves_no_bid Machine.str_plain 100 100.1 100.2 sup Scenario.job m
           H1 (or_introl H2)).
Defined.

Lemma award_reaches_the_winner_witness :
  let sup := Scenario.supervisor in
  let job := Scenario.job in
  let m := Scenario.machine in
  let w := Bid.Make (JStr "machine_1") (JStr "job_1a2b3c4d") (JNum 5) (JNum 100.5) in
  Bid.machine_id w = JStr (Machine.machine_id m) /\
  exists award rejects,
    published (Supervisor._send_award (Scenario.clock 103) w job sup) =
      Message (AwardTopic (JStr (Machine.machine_id m))) award :: rejects /\
    Machine._on_message Machine.str_plain 103.1 (Document award) m =
      Run (Ret tt)
          (Machine.set_executing
             (Machine.executing m ++
                [Machine.Execution
                   (JStr (Job.job_id job)) (JStr (Job.job_type job))
                   (default (Float 5) (Machine.capabilities m !! Job.job_type job))
                   (JStr (Supervisor.supervisor_id sup))])
             (Machine.set_current_job (JStr (Job.job_id job))
                (Machine.set_busy true
                   (Machine.set_jobs_won (Machine.jobs_won m + 1) m))))
          [] /\
    (forall m',
       Machine.machine_id m' <> Machine.machine_id m ->
       Machine._on_message Machine.str_plain 103.1 (Document award) m' =
         Run (Ret tt) m' []) /\
    (forall r m',
       r ∈ rejects ->
       Machine._on_message Machine.str_plain 103.1 (Document (body r)) m' =
         Run (Ret tt)
             (Machine.set_jobs_rejected (Machine.jobs_rejected m' + 1) m') []).
Proof.
  intros sup job m w.
  assert (Bid.machine_id w = JStr (Machine.machine_id m)) as H by reflexivity.
  split; [exact H|].
  exact (award_reaches_the_winner Machine.str_plain (Scenario.clock 103) 103.1 sup job w m H).
Defined.

Lemma lone_bidder_gets_the_job_witness :
  let sup := Scenario.supervisor in
  let job := Scenario.job in
  let m := Scenario.machine in
  Machine.busy m = false /\
  Machine.capabilities m !! Job.job_type job = Some (Float 5) /\
  exists cfp reply award,
    published (Supervisor._send_cfp 100 job sup) = [Message CfpTopic cfp] /\
    published (Machine._on_message Machine.str_plain 100.1 (Document cfp) m) =
      [Message (BidTopic (JStr (Supervisor.supervisor_id sup))) reply] /\
    get reply "proposed_time" = Ret (JNum 5) /\
    let net := Supervisor.Arrivals [(100.2%Q, Document reply)] [] [] in
    let r := Supervisor._run_auction 100 (Scenario.clock 103) job net sup in
    let m1 :=
      state_after (Machine._on_message Machine.str_plain 100.1 (Document cfp) m) in
    let r' := Machine._on_message Machine.str_plain 103.1 (Document award) m1 in
    result r = Ret tt /\
    published r =
      [Message CfpTopic cfp;
       Message (AwardTopic (JStr (Machine.machine_id m))) award] /\
    Supervisor.jobs_allocated (state_after r) = Supervisor.jobs_allocated sup + 1 /\
    Supervisor.jobs_failed (state_after r) = Supervisor.jobs_failed sup /\
    result r' = Ret tt /\
    Machine.busy (state_after r') = true /\
    Machine.current_job (state_after r') = JStr (Job.job_id job) /\
    exists thread,
      Machine.executing (state_after r') = Machine.executing m ++ [thread] /\
      Machine.job_type thread = JStr (Job.job_type job) /\
      Machine.execution_time thread = 5%Q.
Proof.
  intros sup job m.
  assert (Machine.busy m = false) as H1 by reflexivity.
  assert (Machine.capabilities m !! Job.job_type job = Some (Float 5)) as H2 by reflexivity.
  split; [exact H1|]. split; [exact H2|].
  exact (lone_bidder_gets_the_job Machine.str_plain 100 100.1 100.2 (Scenario.clock 103)
           103.1 sup job m 5 [] [] H1 H2).
Defined.

End Protocol.

(** * The capability table of the command line *)

Module CapabilityTable.
Import Py Machine.

(** ** Splitting *)

Lemma split_nonempty sep s : split sep s <> [].
Proof.
  destruct s as [|c s]; cbn [split]; [done|].
  destruct (Ascii.eqb c sep); [done|]. by destruct (split sep s).
Qed.

Lemma split_none sep s : contains sep s = false -> split sep s = [s].
Proof.
  induction s as [|c s IH]; cbn [split contains]; [done|].
  intros [Hc Hs]%orb_false_iff. rewrite Hc, (IH Hs). done.
Qed.

Lemma append_nil s : ("" ++ s)%string = s.
Proof. reflexivity. Qed.

Lemma append_cons c a s : (String c a ++ s)%string = String c (a ++ s)%string.
Proof. reflexivity. Qed.

Lemma split_app sep a b :
  split sep (a ++ String sep b)%string = split sep a ++ split sep b.
Proof.
  induction a as [|c a IH]; rewrite ?append_nil, ?append_cons; cbn [split app].
  - by rewrite Ascii.eqb_refl.
  - destruct (Ascii.eqb c sep); rewrite IH; [done|].
    pose proof (split_nonempty sep a). by destruct (split sep a).
Qed.

Lemma contains_app sep a b : contains sep (a ++ String sep b)%string = true.
Proof.
  induction a as [|c a IH]; rewrite ?append_nil, ?append_cons; cbn [contains].
  - by rewrite Ascii.eqb_refl.
  - rewrite IH. apply orb_true_r.
Qed.

Section Parse.
Context {V : Type}.
Variable py_strip : string -> string.
Variable py_float : string -> outcome V.

Local Abbreviation parse_item := (parse_item py_strip py_float).
Local Abbreviation parse_items := (parse_items py_strip py_float).
Local Abbreviation parse_capabilities := (parse_capabilities py_strip py_float).

(** ** The loop *)

Lemma parse_item_base caps item :
  parse_item caps item =
  match parse_item ∅ item with
  | Ret t => Ret (t ∪ caps)
  | Raise e => Raise e
  end.
Proof.
  unfold Machine.parse_item.
  destruct (contains _ _); [|by rewrite (left_id_L ∅ (∪))].
  destruct (split _ _) as [|k [|t [|? ?]]]; try done.
  destruct (py_float _); [|done].
  by rewrite <- insert_union_l, (left_id_L ∅ (∪)).
Qed.

Lemma parse_items_base items : forall caps,
  parse_items caps items =
  match parse_items ∅ items with
  | Ret t => Ret (t ∪ caps)
  | Raise e => Raise e
  end.
Proof.
  induction items as [|item items IH]; intros caps; cbn [Machine.parse_items].
  - by rewrite (left_id_L ∅ (∪)).
  - rewrite (parse_item_base caps item).
    destruct (parse_item ∅ item) as [t1|e]; [|done].
    rewrite (IH (t1 ∪ caps)), (IH t1).
    destruct (parse_items ∅ items) as [t|e]; [|done].
    by rewrite (assoc_L (∪)).
Qed.

Lemma parse_items_app l1 l2 : forall caps,
  parse_items caps (l1 ++ l2) =
  match parse_items caps l1 with
  | Ret caps' => parse_items caps' l2
  | Raise e => Raise e
  end.
Proof.
  induction l1 as [|item l1 IH]; intros caps; cbn [Machine.parse_items app]; [done|].
  destruct (parse_item caps item); [apply IH|done].
Qed.

(** X24.  The entries of the capability string are read from left to
    right: parsing [a,b] gives the table of [a] overridden by the table of
    [b] (a later entry for a job type replaces an earlier one), and an
    exception raised within [a] or, failing that, within [b] is the result
    of the whole. *)
Theorem entries_compose a b :
  parse_capabilities (a ++ "," ++ b)%string =
  match parse_capabilities a with
  | Raise e => Raise e
  | Ret first =>
      match parse_capabilities b with
      | Raise e => Raise e
      | Ret second => Ret (second ∪ first)
      end
  end.
Proof.
  unfold Machine.parse_capabilities.
  change (a ++ "," ++ b)%string with (a ++ String ","%char b)%string.
  rewrite split_app, parse_items_app.
  destruct (parse_items ∅ (split "," a)) as [first|e]; [|done].
  apply parse_items_base.
Qed.

(** X25.  One entry, that is a string without a comma, after [strip]:
    without a colon it is skipped and the table is empty; with one colon
    it gives the table of the stripped name and the [float] of the stripped
    value, or the exception that [float] raises; with two colons or more
    the unpacking of the split raises [ValueError]. *)
Theorem one_entry item :
  contains "," item = false ->
  let text := py_strip item in
  (contains ":" text = false -> parse_capabilities item = Ret ∅) /\
  (forall name value,
     text = (name ++ ":" ++ value)%string ->
     contains ":" name = false -> contains ":" value = false ->
     parse_capabilities item =
       match py_float (py_strip value) with
       | Ret t => Ret {[py_strip name := t]}
       | Raise e => Raise e
       end) /\
  (forall a b c,
     text = (a ++ ":" ++ b ++ ":" ++ c)%string ->
     parse_capabilities item = Raise ValueError).
Proof.
  intros Hcomma text. unfold Machine.parse_capabilities.
  rewrite (split_none _ _ Hcomma). cbn [Machine.parse_items]. unfold Machine.parse_item.
  fold text. split_and!.
  - by intros ->.
  - intros name value -> Hname Hvalue.
    change (name ++ ":" ++ value)%string with (name ++ String ":"%char value)%string.
    rewrite contains_app, split_app, (split_none _ _ Hname), (split_none _ _ Hvalue).
    cbn [app]. by destruct (py_float _).
  - intros a b c ->.
    change (a ++ ":" ++ b ++ ":" ++ c)%string
      with (a ++ String ":"%char (b ++ String ":"%char c))%string.
    rewrite contains_app, !split_app.
    pose proof (split_nonempty ":" a). pose proof (split_nonempty ":" b).
    pose proof (split_nonempty ":" c).
    assert (3 <= length (split ":" a ++ split ":" b ++ split ":" c)) as Hlen.
    { rewrite !length_app.
      destruct (split ":" a), (split ":" b), (split ":" c); try done. cbn. lia. }
    destruct (split ":" a ++ split ":" b ++ split ":" c) as [|x [|y [|z l]]];
      cbn in Hlen; try lia. done.
Qed.

End Parse.

Lemma one_entry_witness :
  let text := strip_blanks " job_A:3" in
  contains "," " job_A:3" = false /\
  (contains ":" text = false ->
   parse_capabilities strip_blanks float_plain " job_A:3" = Ret ∅) /\
  (forall name value,
     text = (name ++ ":" ++ value)%string ->
     contains ":" name = false -> contains ":" value = false ->
     parse_capabilities strip_blanks float_plain " job_A:3" =
       match float_plain (strip_blanks value) with
       | Ret t => Ret {[strip_blanks name := t]}
       | Raise e => Raise e
       end) /\
  (forall a b c,
     text = (a ++ ":" ++ b ++ ":" ++ c)%string ->
     parse_capabilities strip_blanks float_plain " job_A:3" = Raise ValueError).
Proof.
  intros text.
  assert (contains "," " job_A:3" = false) as H by reflexivity.
  split; [exact H|].
  exact (one_entry strip_blanks float_plain " job_A:3" H).
Defined.

(** The tables of the five machines that [start_contract_net.py] starts. *)
Example configured_tables :
  map (fun c => parse_capabilities strip_blanks float_plain (snd c))
      Scenario.configured =
  [Ret (<["job_C" := Float 7]> (<["job_B" := Float 5]> (<["job_A" := Float 3]> ∅)));
   Ret (<["job_D" := Float 6]> (<["job_C" := Float 4]> (<["job_B" := Float 2]> ∅)));
   Ret (<["job_E" := Float 4]> (<["job_C" := Float 3]> (<["job_A" := Float 6]> ∅)));
   Ret (<["job_E" := Float 3]> (<["job_D" := Float 2]> ∅));
   Ret (<["job_E" := Float 4]> (<["job_D" := Float 4]> (<["job_C" := Float 4]>
          (<["job_B" := Float 4]> (<["job_A" := Float 4]> ∅)))))].
Proof. vm_compute. reflexivity. Qed.

End CapabilityTable.
